(** * Session orchestration of the WebRTC SDK: session manager and softphone handler

    A shallow embedding of [src/sessions/session-manager.ts] and
    [src/sessions/softphone-session-handler.ts], with the enums of
    [src/types/enums.ts] and the records of [src/types/interfaces.ts].

    Conventions.
    - A JS object used as a dictionary with only lookup, assignment and
      [delete] ([pendingSessions]) is a [gmap string _] of its own
      properties.  The transport's session collection [jingle.sessions] is
      also enumerated with [Object.values]: it is the association list of
      its own properties in the order of that enumeration, looked up by
      key.  Both are plain objects: a lookup [o[k]] that finds no own
      property reads the member that every object inherits under the name
      [k], if there is one ([Property], [property]).
    - Every method of the manager is [async]: an exception inside it is a
      rejection of the returned promise.  [Throw e] is that rejection, [Ok v]
      the normal completion of the method body.
    - Calls into collaborators that are outside these files (handler hooks of
      the base handler, the REST helper, DOM media objects, the logger) are
      recorded, in program order, as [Event]s of a trace.  How the promises
      of the handler hooks settle is theirs to say; in the softphone handler,
      whose code awaits its collaborators, the end of each promise is an
      input. *)

From stdpp Require Import gmap strings list fin_maps.

Local Open Scope string_scope.
Local Open Scope list_scope.
Local Open Scope stdpp_scope.

(** ** Enums ([src/types/enums.ts]) *)

Module SdkErrorTypes.
Inductive t := generic | initialization | http | invalid_options | not_supported | session.
End SdkErrorTypes.

Module LogLevels.
Inductive t := log | debug | info | warn | error.
End LogLevels.

Module SessionTypes.
Inductive t := softphone | collaborateVideo | acdScreenShare.

Definition eqb (a b : t) : bool :=
  match a, b with
  | softphone, softphone | collaborateVideo, collaborateVideo
  | acdScreenShare, acdScreenShare => true
  | _, _ => false
  end.
End SessionTypes.

(** JS truthiness of a string: only the empty string is falsy. *)
Definition truthy (s : string) : bool :=
  match s with
  | EmptyString => false
  | String _ _ => true
  end.

(** Truthiness of an optional string property: [undefined] is falsy too. *)
Definition truthy_opt (o : option string) : bool :=
  match o with
  | Some s => truthy s
  | None => false
  end.

(** ** Plain objects used as dictionaries *)

(** The names of the members every plain object inherits from
    [Object.prototype]. *)
Definition Object_prototype : list string :=
  ["constructor"; "__defineGetter__"; "__defineSetter__"; "hasOwnProperty";
   "__lookupGetter__"; "__lookupSetter__"; "isPrototypeOf"; "propertyIsEnumerable";
   "toString"; "valueOf"; "__proto__"; "toLocaleString"].

Definition inherited (k : string) : bool := existsb (String.eqb k) Object_prototype.

(** What [o[k]] can read on a plain object whose own properties are of type
    [A]: an own property, or the member inherited under the name.  Such a
    member is a function or an object: it is truthy and has none of the
    properties of an [A]. *)
Inductive Property (A : Type) := Own (a : A) | Inherited (name : string).
Arguments Own {A} a.
Arguments Inherited {A} name.

(** [o[k]], given the own property of [o] under [k], if any; [None] is
    [undefined]. *)
Definition property {A} (own : option A) (k : string) : option (Property A) :=
  match own with
  | Some a => Some (Own a)
  | None => if inherited k then Some (Inherited k) else None
  end.

(** ** Records ([src/types/interfaces.ts] and the DOM objects they mention) *)

(** [MediaStreamTrack.kind] is ["audio"] or ["video"]. *)
Module TrackKind.
Inductive t := audio | video.

Definition eqb (a b : t) : bool :=
  match a, b with
  | audio, audio | video, video => true
  | _, _ => false
  end.
End TrackKind.

(** [MediaDeviceInfo.kind]; [slice5] is [kind.slice(0, 5)], which maps
    ["audioinput"] and ["audiooutput"] to ["audio"], ["videoinput"] to
    ["video"]. *)
Module MediaDeviceKind.
Inductive t := audioinput | audiooutput | videoinput.

Definition slice5 (k : t) : TrackKind.t :=
  match k with
  | audioinput | audiooutput => TrackKind.audio
  | videoinput => TrackKind.video
  end.
End MediaDeviceKind.

Module MediaDeviceInfo.
Record t := mk { deviceId : string; label : string; kind : MediaDeviceKind.t }.
End MediaDeviceInfo.

Module MediaStreamTrack.
Record t := mk { id : string; kind : TrackKind.t; label : string }.
End MediaStreamTrack.

(** A [MediaStream], seen through [getTracks()]. *)
Module MediaStream.
Record t := mk { getTracks : list MediaStreamTrack.t }.
End MediaStream.

Module RTCRtpSender.
Record t := mk { track : option MediaStreamTrack.t }.
End RTCRtpSender.

(** An audio element, seen through its [sinkId]. *)
Module HTMLAudioElement.
Record t := mk { sinkId : string }.
End HTMLAudioElement.

Module IPendingSession.
Record t := mk {
  id : string;
  autoAnswer : bool;
  address : string;
  conversationId : string;
  sessionType : SessionTypes.t;
  originalRoomJid : option string;
  fromUserId : option string
}.
End IPendingSession.

Module ISessionInfo.
Record t := mk {
  sessionId : string;
  autoAnswer : bool;
  fromJid : string;
  conversationId : string;
  originalRoomJid : option string;
  fromUserId : option string
}.
End ISessionInfo.

Module IConversationParticipant.
Record t := mk {
  id : string;
  address : string;
  purpose : string;
  state : string;
  direction : string;
  userId : option string;
  muted : bool;
  confined : bool
}.
End IConversationParticipant.

Module IJingleSession.
Record t := mk {
  id : string;
  peerID : string;
  conversationId : string;
  sessionType : option SessionTypes.t;
  active : bool;
  getSenders : list RTCRtpSender.t;              (* pc.getSenders() *)
  pcParticipant : option IConversationParticipant.t;
  _outboundStream : option MediaStream.t;
  _screenShareStream : option MediaStream.t;
  _outputAudioElement : option HTMLAudioElement.t
}.
End IJingleSession.

Module IAcceptSessionRequest.
Record t := mk { id : string }.
End IAcceptSessionRequest.

(** [IEndSessionRequest], which is also the shape of [getSession]'s argument. *)
Module IEndSessionRequest.
Record t := mk { id : option string; conversationId : option string }.
End IEndSessionRequest.

(** [videoDeviceId] and [audioDeviceId] of [IUpdateOutgoingMedia]: a literal
    id, the sentinel [true], or absent. *)
Inductive DeviceSelector := DeviceString (id : string) | DeviceBool (b : bool) | DeviceNull.

Definition selector_truthy (o : option DeviceSelector) : bool :=
  match o with
  | Some (DeviceString s) => truthy s
  | Some (DeviceBool b) => b
  | Some DeviceNull | None => false
  end.

Module IUpdateOutgoingMedia.
Record t := mk {
  sessionId : string;
  videoDeviceId : option DeviceSelector;
  audioDeviceId : option DeviceSelector
}.
End IUpdateOutgoingMedia.

(** A session handler as the manager sees it: its type, its [disabled] flag
    and its address pattern.  The pattern lives in [utils] ([isSoftphoneJid]
    and the like) and is a field here. *)
Module BaseSessionHandler.
Record t := mk {
  sessionType : SessionTypes.t;
  disabled : bool;
  shouldHandleSessionByJid : string → bool
}.
End BaseSessionHandler.

(** The argument of [getSessionHandler].  [jingleSession] is typed [any]:
    it holds whatever a lookup of the session collection read. *)
Module HandlerParams.
Record t := mk {
  sessionInfo : option ISessionInfo.t;
  sessionType : option SessionTypes.t;
  jingleSession : option (Property IJingleSession.t)
}.
End HandlerParams.

(** ** Errors, events and the effect monad *)

(** The structured context passed as the last argument of the error helpers. *)
Inductive Details :=
| NoDetails
| SessionLookup (params : IEndSessionRequest.t)
| HandlerLookup (params : HandlerParams.t)
| ConversationContext (conversationId : string) (sessionId : option string).

Inductive Exn :=
| SdkError (type : SdkErrorTypes.t) (message : string) (details : Details)
| RestError (message : string)
| TypeError (message : string).

Inductive Result (A : Type) := Ok (a : A) | Throw (e : Exn).
Arguments Ok {A} a.
Arguments Throw {A} e.

Definition is_Ok {A} (r : Result A) : bool :=
  match r with Ok _ => true | Throw _ => false end.

(** The body of a REST request: none, or the JSON object [{ state }]. *)
Inductive RequestData := NoData | PatchState (state : string).

Inductive Event :=
| Log (level : LogLevels.t) (message : string)
| HandlePropose (handler : SessionTypes.t) (pendingSession : IPendingSession.t)
| HandlerAcceptSession (handler : SessionTypes.t) (sessionId : string)
| HandlerEndSession (handler : SessionTypes.t) (sessionId : string)
| HandlerSetVideoMute (handler : SessionTypes.t) (sessionId : string) (mute : bool)
| HandlerSetAudioMute (handler : SessionTypes.t) (sessionId : string) (mute : bool)
| TrackStop (sessionId : string) (track : MediaStreamTrack.t)
| HandlerRemoveMediaFromSession (handler : SessionTypes.t) (sessionId : string)
    (track : MediaStreamTrack.t)
| OutboundStreamRemoveTrack (sessionId : string) (track : MediaStreamTrack.t)
| SdkUpdateOutgoingMedia (opts : IUpdateOutgoingMedia.t)
| HandlerUpdateOutputDevice (handler : SessionTypes.t) (sessionId : string)
    (deviceId : string)
| RequestApi (method : string) (path : string) (data : RequestData)
| SessionOnce (sessionId : string) (event : string)
| SuperEndSession (sessionId : string)
| InheritedMemberUsed (name : string).

(** The manager: its handlers, its pending registry, and the transport's
    session collection it reads through [this.jingle.sessions]. *)
Module SessionManager.
Record t := mk {
  sessionHandlers : list BaseSessionHandler.t;
  pendingSessions : gmap string IPendingSession.t;
  sessions : list (string * IJingleSession.t)
}.
End SessionManager.

(** State, trace and error in one monad. *)
Definition Eff (A : Type) : Type :=
  SessionManager.t → SessionManager.t * list Event * Result A.

Definition ret {A} (a : A) : Eff A := λ m, (m, [], Ok a).

Definition bind {A B} (c : Eff A) (k : A → Eff B) : Eff B := λ m,
  match c m with
  | (m1, t1, Ok a) => let '(m2, t2, r) := k a m1 in (m2, t1 ++ t2, r)
  | (m1, t1, Throw e) => (m1, t1, Throw e)
  end.

Definition emit (e : Event) : Eff unit := λ m, (m, [e], Ok tt).
Definition throw {A} (e : Exn) : Eff A := λ m, (m, [], Throw e).
Definition get : Eff SessionManager.t := λ m, (m, [], Ok m).
Definition modify (f : SessionManager.t → SessionManager.t) : Eff unit :=
  λ m, (f m, [], Ok tt).

Notation "'let*' x ':=' c1 'in' c2" := (bind c1 (λ x, c2))
  (at level 10, x name, c1 at level 100, c2 at level 200).
Notation "c1 ;> c2" := (bind c1 (λ _, c2))
  (at level 100, c2 at level 200, right associativity).

Definition state_of {A} (r : SessionManager.t * list Event * Result A) := r.1.1.
Definition trace_of {A} (r : SessionManager.t * list Event * Result A) := r.1.2.
Definition result_of {A} (r : SessionManager.t * list Event * Result A) := r.2.

(** [for (const x of l) { f(x) }] and [l.forEach(f)]: stop at the first throw. *)
Fixpoint forEach {A} (f : A → Eff unit) (l : list A) : Eff unit :=
  match l with
  | [] => ret tt
  | x :: l' => f x ;> forEach f l'
  end.

(** Modelled from the spec: [throwSdkError] of [utils], which is not part of
    these files.  It raises an error of the given kind carrying the message
    and the structured context. *)
Definition throwSdkError {A} (type : SdkErrorTypes.t) (message : string)
    (details : Details) : Eff A :=
  throw (SdkError type message details).

(** Modelled from the spec: [createAndEmitSdkError] of [utils]; it builds the
    error that the caller then throws. *)
Definition createAndEmitSdkError (type : SdkErrorTypes.t) (message : string)
    (details : Details) : Exn :=
  SdkError type message details.

Definition log (level : LogLevels.t) (message : string) : Eff unit :=
  emit (Log level message).

Definition when (b : bool) (c : Eff unit) : Eff unit := if b then c else ret tt.

(** ** Session manager ([src/sessions/session-manager.ts]) *)

(** The own property of [this.jingle.sessions] under the key [k]. *)
Definition lookup_session (k : string) (ss : list (string * IJingleSession.t))
    : option IJingleSession.t :=
  snd <$> List.find (λ kv, String.eqb kv.1 k) ss.

(** [this.jingle.sessions[id]] *)
Definition sessions_get (k : string) (ss : list (string * IJingleSession.t))
    : option (Property IJingleSession.t) :=
  property (lookup_session k ss) k.

(** [jingleSession.peerID] and [session.sessionType] on what a lookup read:
    [undefined] on an inherited member. *)
Definition peerID_of (o : Property IJingleSession.t) : option string :=
  match o with
  | Own s => Some (IJingleSession.peerID s)
  | Inherited _ => None
  end.

Definition sessionType_of (o : Property IJingleSession.t) : option SessionTypes.t :=
  match o with
  | Own s => IJingleSession.sessionType s
  | Inherited _ => None
  end.

(** [Object.values(this.jingle.sessions)] *)
Definition Object_values (ss : list (string * IJingleSession.t)) : list IJingleSession.t :=
  map snd ss.

(** [s === o] for a string [s] and an optional string property [o]. *)
Definition strict_eq_opt (s : string) (o : option string) : bool :=
  match o with
  | Some s' => String.eqb s s'
  | None => false
  end.

(** [a || b] on optional strings. *)
Definition js_or (a b : option string) : option string :=
  if truthy_opt a then a else b.

(** [this.pendingSessions[sessionId]] *)
Definition getPendingSession (sessionId : string)
    : Eff (option (Property IPendingSession.t)) :=
  let* m := get in ret (property (SessionManager.pendingSessions m !! sessionId) sessionId).

Definition removePendingSession (sessionId : string) : Eff unit :=
  modify (λ m, SessionManager.mk (SessionManager.sessionHandlers m)
                 (delete sessionId (SessionManager.pendingSessions m))
                 (SessionManager.sessions m)).

(** [getSession]: the lookup by id hands back whatever [sessions[id]] reads,
    the search by conversation id a session of the collection. *)
Definition getSession (params : IEndSessionRequest.t) : Eff (Property IJingleSession.t) :=
  let* m := get in
  let session :=
    match IEndSessionRequest.id params with
    | Some i =>
        if truthy i then sessions_get i (SessionManager.sessions m)
        else Own <$> List.find (λ s, strict_eq_opt (IJingleSession.conversationId s)
                                       (IEndSessionRequest.conversationId params))
                       (Object_values (SessionManager.sessions m))
    | None =>
        Own <$> List.find (λ s, strict_eq_opt (IJingleSession.conversationId s)
                                  (IEndSessionRequest.conversationId params))
                  (Object_values (SessionManager.sessions m))
    end in
  match session with
  | Some s => ret s
  | None => throwSdkError SdkErrorTypes.session "Unable to find session" (SessionLookup params)
  end.

Definition getAllActiveSessions : Eff (list IJingleSession.t) :=
  let* m := get in
  ret (List.filter IJingleSession.active (Object_values (SessionManager.sessions m))).

Definition getSessionHandler (params : HandlerParams.t) : Eff BaseSessionHandler.t :=
  let* m := get in
  let* handler :=
    match HandlerParams.sessionType params with
    | Some ty =>
        ret (List.find (λ h, SessionTypes.eqb (BaseSessionHandler.sessionType h) ty)
               (SessionManager.sessionHandlers m))
    | None =>
        let fromJid :=
          js_or (ISessionInfo.fromJid <$> HandlerParams.sessionInfo params)
                (HandlerParams.jingleSession params ≫= peerID_of) in
        match fromJid with
        | Some jid =>
            if truthy jid then
              ret (List.find (λ h, BaseSessionHandler.shouldHandleSessionByJid h jid)
                     (SessionManager.sessionHandlers m))
            else
              throwSdkError SdkErrorTypes.generic
                "getSessionHandler was called without any identifying information"
                (HandlerLookup params)
        | None =>
            throwSdkError SdkErrorTypes.generic
              "getSessionHandler was called without any identifying information"
              (HandlerLookup params)
        end
    end in
  match handler with
  | Some h => ret h
  | None =>
      throwSdkError SdkErrorTypes.session "Failed to find session handler for session"
        (HandlerLookup params)
  end.

Definition by_sessionInfo (i : ISessionInfo.t) : HandlerParams.t :=
  HandlerParams.mk (Some i) None None.
Definition by_jingleSession (s : IJingleSession.t) : HandlerParams.t :=
  HandlerParams.mk None None (Some (Own s)).

(** [{ jingleSession: session }] for what [getSession] returned. *)
Definition by_found (session : Property IJingleSession.t) : HandlerParams.t :=
  HandlerParams.mk None None (Some session).

(** What follows in the caller uses [session] as a session.  When the lookup
    by id read an inherited member instead, [getSessionHandler] has thrown
    before this point, the member having neither [peerID] nor [sessionType];
    the model records the use of the member, which no run reaches
    ([no_inherited_member_is_used]). *)
Definition asSession {A} (session : Property A) (k : A → Eff unit) : Eff unit :=
  match session with
  | Own s => k s
  | Inherited name => emit (InheritedMemberUsed name)
  end.

Section Propose.

(** What the owning handler's [handlePropose] does once the manager calls
    it.  The hooks live in the base handler and in the concrete handlers;
    they hold a reference to the manager, so the hook is any program over
    the manager. *)
Variable handlePropose : BaseSessionHandler.t → IPendingSession.t → Eff unit.

Definition onPropose (sessionInfo : ISessionInfo.t) : Eff unit :=
  let* handler := getSessionHandler (by_sessionInfo sessionInfo) in
  if BaseSessionHandler.disabled handler then ret tt
  else
    log LogLevels.info "onPendingSession" ;>
    let* existingSession := getPendingSession (ISessionInfo.sessionId sessionInfo) in
    match existingSession with
    | Some _ => log LogLevels.info "duplicate session invitation, ignoring"
    | None =>
        let pendingSession :=
          {| IPendingSession.id := ISessionInfo.sessionId sessionInfo;
             IPendingSession.autoAnswer := ISessionInfo.autoAnswer sessionInfo;
             IPendingSession.address := ISessionInfo.fromJid sessionInfo;
             IPendingSession.conversationId := ISessionInfo.conversationId sessionInfo;
             IPendingSession.sessionType := BaseSessionHandler.sessionType handler;
             IPendingSession.originalRoomJid := ISessionInfo.originalRoomJid sessionInfo;
             IPendingSession.fromUserId := ISessionInfo.fromUserId sessionInfo |} in
        modify (λ m, SessionManager.mk (SessionManager.sessionHandlers m)
                       (<[IPendingSession.id pendingSession := pendingSession]>
                          (SessionManager.pendingSessions m))
                       (SessionManager.sessions m)) ;>
        emit (HandlePropose (BaseSessionHandler.sessionType handler) pendingSession) ;>
        handlePropose handler pendingSession
    end.

(** The transport delivers proposals one after the other; a rejected call
    does not stop the later ones.  The handler lookup, the duplicate check
    and the assignment run before the first [await] of [onPropose], so two
    calls never interleave before the entry is stored; the hook is run to
    its end here. *)
Definition onProposeAll (infos : list ISessionInfo.t) (m : SessionManager.t)
    : SessionManager.t :=
  foldl (λ m' info, state_of (onPropose info m')) m infos.

End Propose.

(** [acceptSession]: the guard [!params || !params.id] comes first. *)
Definition acceptSession (params : option IAcceptSessionRequest.t) : Eff unit :=
  match params with
  | None =>
      throwSdkError SdkErrorTypes.invalid_options
        "An id representing the sessionId is required for acceptSession" NoDetails
  | Some p =>
      if negb (truthy (IAcceptSessionRequest.id p)) then
        throwSdkError SdkErrorTypes.invalid_options
          "An id representing the sessionId is required for acceptSession" NoDetails
      else
        let* session :=
          getSession (IEndSessionRequest.mk (Some (IAcceptSessionRequest.id p)) None) in
        let* sessionHandler := getSessionHandler (by_found session) in
        asSession session (λ session,
          emit (HandlerAcceptSession (BaseSessionHandler.sessionType sessionHandler)
                  (IJingleSession.id session)))
  end.

Definition endSession (params : IEndSessionRequest.t) : Eff unit :=
  (if negb (truthy_opt (IEndSessionRequest.id params))
      && negb (truthy_opt (IEndSessionRequest.conversationId params))
   then throwSdkError SdkErrorTypes.session
          "Unable to end session: must provide session id or conversationId." NoDetails
   else ret tt) ;>
  let* session := getSession params in
  let* sessionHandler := getSessionHandler (by_found session) in
  asSession session (λ session,
    emit (HandlerEndSession (BaseSessionHandler.sessionType sessionHandler)
            (IJingleSession.id session))).

(** *** Bulk output-device update and device reconciliation *)

(** The per-session entry of the device-update plan: [{ video?: boolean,
    audio?: boolean }]; an absent property reads as falsy. *)
Module MediaToUpdate.
Record t := mk { video : bool; audio : bool }.

Definition empty : t := mk false false.

(** [currVal[kind] = true] *)
Definition set (k : TrackKind.t) (v : t) : t :=
  match k with
  | TrackKind.video => mk true (audio v)
  | TrackKind.audio => mk (video v) true
  end.

Definition get (k : TrackKind.t) (v : t) : bool :=
  match k with
  | TrackKind.video => video v
  | TrackKind.audio => audio v
  end.
End MediaToUpdate.

(** [updates.get(id)] on the insertion-ordered [Map]. *)
Fixpoint updates_get (id : string) (updates : list (string * MediaToUpdate.t))
    : option MediaToUpdate.t :=
  match updates with
  | [] => None
  | (k, v) :: rest => if String.eqb k id then Some v else updates_get id rest
  end.

(** [updates.set(id, v)]: an existing key keeps its place, a new one goes last. *)
Fixpoint updates_set (id : string) (v : MediaToUpdate.t)
    (updates : list (string * MediaToUpdate.t)) : list (string * MediaToUpdate.t) :=
  match updates with
  | [] => [(id, v)]
  | (k, v') :: rest =>
      if String.eqb k id then (k, v) :: rest else (k, v') :: updates_set id v rest
  end.

(** What the first loop of the reconciliation pass accumulates: the plan, the
    global output flag, and the log lines it wrote on the way. *)
Module Scan.
Record t := mk {
  updates : list (string * MediaToUpdate.t);
  updateOutputDeviceForAllSessions : bool;
  logged : list Event
}.
Definition init : t := mk [] false [].
End Scan.

(** Modelled from the spec: [getSendersByTrackType] of the base handler, which
    is not part of these files: the senders of the session that carry a track
    of the given kind. *)
Definition getSendersByTrackType (session : IJingleSession.t) (kind : TrackKind.t)
    : list RTCRtpSender.t :=
  List.filter
    (λ sender, match RTCRtpSender.track sender with
               | Some t => TrackKind.eqb (MediaStreamTrack.kind t) kind
               | None => false
               end)
    (IJingleSession.getSenders session).

(** The tracks the pass looks at: those of the senders that have one, minus
    the tracks of the screen-share stream. *)
Definition outgoingTracks (session : IJingleSession.t) : list MediaStreamTrack.t :=
  let trackIdsToIgnore :=
    match IJingleSession._screenShareStream session with
    | Some stream => map MediaStreamTrack.id (MediaStream.getTracks stream)
    | None => []
    end in
  omap
    (λ sender, match RTCRtpSender.track sender with
               | Some t =>
                   if existsb (String.eqb (MediaStreamTrack.id t)) trackIdsToIgnore
                   then None else Some t
               | None => None
               end)
    (IJingleSession.getSenders session).

Definition is_screenShare (ty : option SessionTypes.t) : bool :=
  match ty with
  | Some SessionTypes.acdScreenShare => true
  | _ => false
  end.

Section Devices.

(** The environment of [media-utils], which is not part of these files:
    whether the platform can select an output device, the current device
    inventory, and the resolution of a requested device to a valid id. *)
Variable hasOutputDeviceSupport : bool.
Variables videoDevices audioDevices outputDevices : list MediaDeviceInfo.t.
Variable getValidDeviceId : MediaDeviceKind.t → DeviceSelector → option string.

(** [getValidDeviceId(...) || ''] *)
Definition resolvedOutputDeviceId (outputDeviceId : DeviceSelector) : string :=
  match getValidDeviceId MediaDeviceKind.audiooutput outputDeviceId with
  | Some d => if truthy d then d else EmptyString
  | None => EmptyString
  end.

Definition updateOutputDeviceForAllSessions (outputDeviceId : DeviceSelector) : Eff unit :=
  let _outputDeviceId := resolvedOutputDeviceId outputDeviceId in
  let notFound :=
    match outputDeviceId with
    | DeviceString s => negb (String.eqb _outputDeviceId s)
    | _ => false
    end in
  if notFound then
    log LogLevels.warn "Output deviceId not found. Not updating output media"
  else
    let* active := getAllActiveSessions in
    let sessions :=
      List.filter (λ s, negb (is_screenShare (IJingleSession.sessionType s))) active in
    log LogLevels.info "Updating output deviceId for all active sessions" ;>
    forEach
      (λ session,
         let* handler := getSessionHandler (by_jingleSession session) in
         emit (HandlerUpdateOutputDevice (BaseSessionHandler.sessionType handler)
                 (IJingleSession.id session) _outputDeviceId))
      sessions.

Definition deviceExists (track : MediaStreamTrack.t) : bool :=
  existsb
    (λ d, String.eqb (MediaDeviceInfo.label d) (MediaStreamTrack.label track)
          && TrackKind.eqb (MediaDeviceKind.slice5 (MediaDeviceInfo.kind d))
               (MediaStreamTrack.kind track))
    (match MediaStreamTrack.kind track with
     | TrackKind.video => videoDevices
     | TrackKind.audio => audioDevices
     end).

Definition scan_track (session : IJingleSession.t) (acc : Scan.t)
    (track : MediaStreamTrack.t) : Scan.t :=
  if deviceExists track then
    Scan.mk (Scan.updates acc) (Scan.updateOutputDeviceForAllSessions acc)
      (Scan.logged acc
         ++ [Log LogLevels.debug "sessions outgoing track still has available device"])
  else
    let currVal :=
      default MediaToUpdate.empty (updates_get (IJingleSession.id session) (Scan.updates acc)) in
    Scan.mk
      (updates_set (IJingleSession.id session)
         (MediaToUpdate.set (MediaStreamTrack.kind track) currVal) (Scan.updates acc))
      (Scan.updateOutputDeviceForAllSessions acc)
      (Scan.logged acc
         ++ [Log LogLevels.info
               "session lost media device and will attempt to switch devices"]).

Definition outputDeviceMissing (session : IJingleSession.t) : bool :=
  match IJingleSession._outputAudioElement session with
  | Some el =>
      hasOutputDeviceSupport
      && negb (existsb (λ d, String.eqb (MediaDeviceInfo.deviceId d)
                               (HTMLAudioElement.sinkId el)) outputDevices)
  | None => false
  end.

Definition scan_session (acc : Scan.t) (session : IJingleSession.t) : Scan.t :=
  let acc1 := foldl (scan_track session) acc (outgoingTracks session) in
  if outputDeviceMissing session then
    Scan.mk (Scan.updates acc1) true
      (Scan.logged acc1
         ++ [Log LogLevels.info
               "session lost output device and will attempt to switch device"])
  else acc1.

Definition scan (sessions : list IJingleSession.t) : Scan.t :=
  foldl scan_session Scan.init sessions.

(** The body of [senders.forEach] in the no-audio-device branch. *)
Definition dropSender (handler : BaseSessionHandler.t) (jingleSession : IJingleSession.t)
    (sender : RTCRtpSender.t) : Eff unit :=
  match RTCRtpSender.track sender with
  | None => ret tt
  | Some track =>
      emit (TrackStop (IJingleSession.id jingleSession) track) ;>
      emit (HandlerRemoveMediaFromSession (BaseSessionHandler.sessionType handler)
              (IJingleSession.id jingleSession) track) ;>
      match IJingleSession._outboundStream jingleSession with
      | Some _ => emit (OutboundStreamRemoveTrack (IJingleSession.id jingleSession) track)
      | None => throw (TypeError "Cannot read properties of undefined (reading 'removeTrack')")
      end
  end.

(** [if (mediaToUpdate.video) { ... }]: the value is what the block leaves in
    [opts.videoDeviceId]. *)
Definition switchVideo (handler : BaseSessionHandler.t) (jingleSession : IJingleSession.t)
    (mediaToUpdate : MediaToUpdate.t) : Eff (option DeviceSelector) :=
  if MediaToUpdate.video mediaToUpdate then
    match videoDevices with
    | _ :: _ => ret (Some (DeviceBool true))
    | [] =>
        log LogLevels.warn
          "no available video devices to switch to. setting video to mute for session" ;>
        emit (HandlerSetVideoMute (BaseSessionHandler.sessionType handler)
                (IJingleSession.id jingleSession) true) ;>
        ret None
    end
  else ret None.

(** [if (mediaToUpdate.audio) { ... }]: the value is what the block leaves in
    [opts.audioDeviceId]. *)
Definition switchAudio (handler : BaseSessionHandler.t) (jingleSession : IJingleSession.t)
    (mediaToUpdate : MediaToUpdate.t) : Eff (option DeviceSelector) :=
  if MediaToUpdate.audio mediaToUpdate then
    match audioDevices with
    | _ :: _ => ret (Some (DeviceBool true))
    | [] =>
        log LogLevels.warn
          "no available audio devices to switch to. setting audio to mute for session" ;>
        emit (HandlerSetAudioMute (BaseSessionHandler.sessionType handler)
                (IJingleSession.id jingleSession) true) ;>
        forEach (dropSender handler jingleSession)
          (getSendersByTrackType jingleSession TrackKind.audio) ;>
        ret None
    end
  else ret None.

(** One turn of the loop [for (const [sessionId, mediaToUpdate] of updates)]. *)
Definition updateSession (entry : string * MediaToUpdate.t) : Eff unit :=
  let '(sessionId, mediaToUpdate) := entry in
  let* jingleSession := getSession (IEndSessionRequest.mk (Some sessionId) None) in
  let* handler := getSessionHandler (by_found jingleSession) in
  asSession jingleSession (λ jingleSession,
    let* videoDeviceId := switchVideo handler jingleSession mediaToUpdate in
    let* audioDeviceId := switchAudio handler jingleSession mediaToUpdate in
    when (selector_truthy videoDeviceId || selector_truthy audioDeviceId)
      (emit (SdkUpdateOutgoingMedia
               (IUpdateOutgoingMedia.mk sessionId videoDeviceId audioDeviceId)))).

Definition validateOutgoingMediaTracks : Eff unit :=
  let* sessions := getAllActiveSessions in
  let found := scan sessions in
  forEach emit (Scan.logged found) ;>
  match Scan.updates found, Scan.updateOutputDeviceForAllSessions found with
  | [], false =>
      log LogLevels.debug
        "no active sessions have outgoing tracks that need to have the device updated"
  | updates, flag =>
      forEach updateSession updates ;>
      when flag (updateOutputDeviceForAllSessions (DeviceBool true))
  end.

End Devices.

(** ** Softphone session handler ([src/sessions/softphone-session-handler.ts]) *)

(** How a promise of a collaborator ends: fulfilled, rejected, or never
    settled. *)
Inductive Outcome (A : Type) := Fulfilled (a : A) | Rejected (e : Exn) | Pending.
Arguments Fulfilled {A} a.
Arguments Rejected {A} e.
Arguments Pending {A}.

(** [await Promise.all([p, q])]: rejected as soon as one leg is, fulfilled
    once both are, and otherwise never settled. *)
Definition promise_all2 {A B} (p : Outcome A) (q : Outcome B) : Outcome (A * B) :=
  match p, q with
  | Rejected e, _ => Rejected e
  | _, Rejected e => Rejected e
  | Fulfilled a, Fulfilled b => Fulfilled (a, b)
  | _, _ => Pending
  end.

Module SoftphoneSessionHandler.

(** A participant as the REST body carries it, before [pick]. *)
Record RawUser := { user_id : string }.
Record RawParticipant := {
  raw_id : string;
  raw_address : string;
  raw_purpose : string;
  raw_state : string;
  raw_direction : string;
  raw_muted : bool;
  raw_confined : bool;
  raw_user : option RawUser
}.

(** The collaborators of one call of the handler: the logged-in user, the
    answer of [GET /conversations/calls/{id}], the end of the participant
    patch, whether the transport ever sends ["terminated"], and the end of
    the base handler's [endSession]. *)
Record Env := {
  personDetails_id : string;
  getCall : Outcome (list RawParticipant);
  patchParticipant : Outcome unit;
  terminated : bool;
  superEndSession : Outcome unit
}.

(** The handler's programs run on the session they are given, which they
    mutate ([session.pcParticipant = ...]). *)
Definition Async (A : Type) : Type :=
  IJingleSession.t → IJingleSession.t * list Event * Outcome A.

Definition aret {A} (a : A) : Async A := λ s, (s, [], Fulfilled a).

(** [await c] followed by the rest of the body. *)
Definition abind {A B} (c : Async A) (k : A → Async B) : Async B := λ s,
  match c s with
  | (s1, t1, Fulfilled a) => let '(s2, t2, r) := k a s1 in (s2, t1 ++ t2, r)
  | (s1, t1, Rejected e) => (s1, t1, Rejected e)
  | (s1, t1, Pending) => (s1, t1, Pending)
  end.

(** [try { c } catch (err) { h err }] *)
Definition try_catch {A} (c : Async A) (h : Exn → Async A) : Async A := λ s,
  match c s with
  | (s1, t1, Rejected e) => let '(s2, t2, r) := h e s1 in (s2, t1 ++ t2, r)
  | r => r
  end.

Definition aemit (e : Event) : Async unit := λ s, (s, [e], Fulfilled tt).
Definition athrow {A} (e : Exn) : Async A := λ s, (s, [], Rejected e).
Definition await {A} (o : Outcome A) : Async A := λ s, (s, [], o).
Definition this_session : Async IJingleSession.t := λ s, (s, [], Fulfilled s).

(** The session after [session.pcParticipant = p]. *)
Definition withParticipant (p : IConversationParticipant.t) (s : IJingleSession.t)
    : IJingleSession.t :=
  IJingleSession.mk (IJingleSession.id s) (IJingleSession.peerID s)
    (IJingleSession.conversationId s) (IJingleSession.sessionType s)
    (IJingleSession.active s) (IJingleSession.getSenders s) (Some p)
    (IJingleSession._outboundStream s) (IJingleSession._screenShareStream s)
    (IJingleSession._outputAudioElement s).

Definition set_pcParticipant (p : IConversationParticipant.t) : Async unit := λ s,
  (withParticipant p s, [], Fulfilled tt).

Notation "'let!' x ':=' c1 'in' c2" := (abind c1 (λ x, c2))
  (at level 10, x name, c1 at level 100, c2 at level 200).
Notation "c1 ;! c2" := (abind c1 (λ _, c2))
  (at level 100, c2 at level 200, right associativity).

(** [pick(p, [...])] followed by [participant.userId = p.user && p.user.id] *)
Definition toParticipant (p : RawParticipant) : IConversationParticipant.t :=
  {| IConversationParticipant.id := raw_id p;
     IConversationParticipant.address := raw_address p;
     IConversationParticipant.purpose := raw_purpose p;
     IConversationParticipant.state := raw_state p;
     IConversationParticipant.direction := raw_direction p;
     IConversationParticipant.userId := user_id <$> raw_user p;
     IConversationParticipant.muted := raw_muted p;
     IConversationParticipant.confined := raw_confined p |}.

Definition forUser (env : Env) (participants : list IConversationParticipant.t)
    : list IConversationParticipant.t :=
  List.filter
    (λ p, match IConversationParticipant.userId p with
          | Some u => String.eqb u (personDetails_id env)
          | None => false
          end)
    participants.

Definition connected (participants : list IConversationParticipant.t)
    : list IConversationParticipant.t :=
  List.filter (λ p, String.eqb (IConversationParticipant.state p) "connected") participants.

Definition sessionContext (session : IJingleSession.t) : Details :=
  ConversationContext (IJingleSession.conversationId session)
    (Some (IJingleSession.id session)).

(** [`/conversations/calls/${session.conversationId}`] *)
Definition callPath (session : IJingleSession.t) : string :=
  String.append "/conversations/calls/" (IJingleSession.conversationId session).

(** [`/conversations/calls/${session.conversationId}/participants/${participant.id}`] *)
Definition participantPath (session : IJingleSession.t)
    (participant : IConversationParticipant.t) : string :=
  String.append (callPath session)
    (String.append "/participants/" (IConversationParticipant.id participant)).

Definition getParticipantForSession (env : Env) : Async IConversationParticipant.t :=
  let! session := this_session in
  match IJingleSession.pcParticipant session with
  | Some cached => aret cached
  | None =>
      aemit (RequestApi "get" (callPath session) NoData) ;!
      let! body := await (getCall env) in
      let participants := map toParticipant body in
      let participantsForUser := forUser env participants in
      let! participant :=
        if Nat.eqb (length participantsForUser) 1 then
          aret (head participantsForUser)
        else if Nat.ltb 1 (length participantsForUser) then
          let participantsForUser' := connected participantsForUser in
          if negb (Nat.eqb (length participantsForUser') 1) then
            athrow (createAndEmitSdkError SdkErrorTypes.generic
                      "Failed to find a connected participant for user on conversation"
                      (sessionContext session))
          else aret (head participantsForUser')
        else aret None in
      match participant with
      | None =>
          athrow (createAndEmitSdkError SdkErrorTypes.generic
                    "Failed to find a participant for session" (sessionContext session))
      | Some p => set_pcParticipant p ;! aret p
      end
  end.

Definition endSessionFallback (env : Env) : Async unit :=
  let! session := this_session in
  aemit (Log LogLevels.info "Attempting to end session directly") ;!
  try_catch
    (aemit (SuperEndSession (IJingleSession.id session)) ;!
     await (superEndSession env))
    (λ err,
       athrow (createAndEmitSdkError SdkErrorTypes.session "Failed to end session directly"
                 (ConversationContext (IJingleSession.conversationId session) None))).

(** ["terminated"] is only ever resolved, never rejected. *)
Definition terminatedPromise (env : Env) : Outcome unit :=
  if terminated env then Fulfilled tt else Pending.

Definition endSession (env : Env) : Async unit :=
  let! session := this_session in
  try_catch
    (let! participant := getParticipantForSession env in
     aemit (RequestApi "patch" (participantPath session participant)
              (PatchState "disconnected")) ;!
     aemit (SessionOnce (IJingleSession.id session) "terminated") ;!
     let! _ := await (promise_all2 (patchParticipant env) (terminatedPromise env)) in
     aret tt)
    (λ err,
       aemit (Log LogLevels.error "Failed to end session gracefully") ;!
       endSessionFallback env).

(** What the direct end yields, by the end of the base handler's
    [endSession]. *)
Definition directEnd (env : Env) (s : IJingleSession.t) : Outcome unit :=
  match superEndSession env with
  | Fulfilled _ => Fulfilled tt
  | Rejected _ =>
      Rejected (SdkError SdkErrorTypes.session "Failed to end session directly"
                  (ConversationContext (IJingleSession.conversationId s) None))
  | Pending => Pending
  end.

End SoftphoneSessionHandler.

(** ** Predicates used by the statements *)

Definition is_Log (e : Event) : bool :=
  match e with Log _ _ => true | _ => false end.

Definition is_HandlePropose (e : Event) : bool :=
  match e with HandlePropose _ _ => true | _ => false end.

(** Every entry of the registry is stored under its own id. *)
Definition keyed_by_id (reg : gmap string IPendingSession.t) : Prop :=
  map_Forall (λ k p, IPendingSession.id p = k) reg.

(** The entries of the registry that carry the id [i]. *)
Definition pendingWithId (i : string) (reg : gmap string IPendingSession.t)
    : list (string * IPendingSession.t) :=
  List.filter (λ kp, String.eqb (IPendingSession.id kp.2) i) (map_to_list reg).

(** A hook may drop pending entries (a handler that answers at once removes
    the entry it was given); the manager alone adds them. *)
Definition removes_only (hook : BaseSessionHandler.t → IPendingSession.t → Eff unit) : Prop :=
  ∀ h p m,
    SessionManager.pendingSessions (state_of (hook h p m)) ⊆ SessionManager.pendingSessions m.

(** The sessions of the transport that are active. *)
Definition activeSessions (m : SessionManager.t) : list IJingleSession.t :=
  List.filter IJingleSession.active (Object_values (SessionManager.sessions m)).

(** Every event a program can write satisfies [P], whatever the manager and
    whether or not it throws. *)
Definition writes_only {A} (P : Event → Prop) (c : Eff A) : Prop :=
  ∀ m, Forall P (trace_of (c m)).

(** The plan asks to switch the [kind] media of the session [k]. *)
Definition flagged (k : string) (kind : TrackKind.t)
    (updates : list (string * MediaToUpdate.t)) : Prop :=
  ∃ v, updates_get k updates = Some v ∧ MediaToUpdate.get kind v = true.

(** A program that writes only events satisfying [P] and, when it completes,
    returns a value satisfying [Q]. *)
Definition establishes {A} (P : Event → Prop) (Q : A → Prop) (c : Eff A) : Prop :=
  ∀ m, Forall P (trace_of (c m)) ∧ ∀ a, result_of (c m) = Ok a → Q a.

(** The transport keeps every session under its own, non-empty id; a JS
    object has each key once. *)
Definition sessions_indexed (m : SessionManager.t) : Prop :=
  NoDup (map fst (SessionManager.sessions m))
  ∧ Forall (λ kv, kv.1 = IJingleSession.id kv.2 ∧ truthy kv.1 = true)
      (SessionManager.sessions m).

(** Every active session has an owning handler. *)
Definition handlers_resolve (m : SessionManager.t) : Prop :=
  Forall (λ s, is_Ok (result_of (getSessionHandler (by_jingleSession s) m)) = true)
    (activeSessions m).

(** A session that sends audio has the outbound stream it was accepted with. *)
Definition outbound_attached (m : SessionManager.t) : Prop :=
  Forall (λ s, getSendersByTrackType s TrackKind.audio = []
               ∨ is_Some (IJingleSession._outboundStream s))
    (activeSessions m).

(** A request to switch the audio input to any device: an outgoing-media
    update whose [audioDeviceId] is set. *)
Definition is_audio_switch (e : Event) : bool :=
  match e with
  | SdkUpdateOutgoingMedia opts => selector_truthy (IUpdateOutgoingMedia.audioDeviceId opts)
  | _ => false
  end.

Definition is_video_mute (e : Event) : bool :=
  match e with HandlerSetVideoMute _ _ _ => true | _ => false end.

(** The output device the session renders to, if it has picked one, is in
    the inventory. *)
Definition outputDevicePresent (outputDevices : list MediaDeviceInfo.t)
    (s : IJingleSession.t) : bool :=
  match IJingleSession._outputAudioElement s with
  | Some el =>
      existsb (λ d, String.eqb (MediaDeviceInfo.deviceId d) (HTMLAudioElement.sinkId el))
        outputDevices
  | None => true
  end.

(** What the name of [getValidDeviceId] promises: an id it returns is the
    id of a device of the inventory. *)
Definition resolves_valid (getValidDeviceId : MediaDeviceKind.t → DeviceSelector → option string)
    (outputDevices : list MediaDeviceInfo.t) : Prop :=
  ∀ sel d, getValidDeviceId MediaDeviceKind.audiooutput sel = Some d →
           d ∈ map MediaDeviceInfo.deviceId outputDevices.

(** The sessions an output-device update is sent to. *)
Definition outputTargets (m : SessionManager.t) : list IJingleSession.t :=
  List.filter (λ s, negb (is_screenShare (IJingleSession.sessionType s))) (activeSessions m).

(** ** Example data *)

Module Examples.

(** Three handlers in the order the manager configures them.  Their address
    patterns stand in for the ones of [utils]. *)
Definition softphoneHandler : BaseSessionHandler.t :=
  BaseSessionHandler.mk SessionTypes.softphone false (String.prefix "softphone-").
Definition videoHandler : BaseSessionHandler.t :=
  BaseSessionHandler.mk SessionTypes.collaborateVideo false (String.prefix "video-").
Definition screenShareHandler : BaseSessionHandler.t :=
  BaseSessionHandler.mk SessionTypes.acdScreenShare false (String.prefix "acd-").
Definition handlers : list BaseSessionHandler.t :=
  [softphoneHandler; videoHandler; screenShareHandler].

Definition proposal (sessionId : string) (autoAnswer : bool) : ISessionInfo.t :=
  ISessionInfo.mk sessionId autoAnswer "softphone-peer" "conversation-1" None None.

Definition pending (sessionId : string) : IPendingSession.t :=
  IPendingSession.mk sessionId false "softphone-peer" "conversation-1"
    SessionTypes.softphone None None.

(** A hook in the manner of the softphone handler: an auto-answered
    proposal proceeds at once and its entry is removed. *)
Definition autoAnswerHook (h : BaseSessionHandler.t) (p : IPendingSession.t) : Eff unit :=
  if IPendingSession.autoAnswer p then removePendingSession (IPendingSession.id p)
  else ret tt.

Definition microphone : MediaStreamTrack.t :=
  MediaStreamTrack.mk "track-mic" TrackKind.audio "Built-in microphone".
Definition camera : MediaStreamTrack.t :=
  MediaStreamTrack.mk "track-cam" TrackKind.video "Built-in camera".

Definition softphoneSession (id : string) : IJingleSession.t :=
  IJingleSession.mk id "softphone-peer" "conversation-1" (Some SessionTypes.softphone)
    true [RTCRtpSender.mk (Some microphone)] None
    (Some (MediaStream.mk [microphone])) None (Some (HTMLAudioElement.mk "speaker-1")).

Definition videoSession (id : string) : IJingleSession.t :=
  IJingleSession.mk id "video-room" "conversation-2" (Some SessionTypes.collaborateVideo)
    true [RTCRtpSender.mk (Some microphone); RTCRtpSender.mk (Some camera)] None
    (Some (MediaStream.mk [microphone; camera])) None
    (Some (HTMLAudioElement.mk "speaker-1")).

Definition speaker : MediaDeviceInfo.t :=
  MediaDeviceInfo.mk "speaker-1" "Built-in speaker" MediaDeviceKind.audiooutput.
Definition webcam : MediaDeviceInfo.t :=
  MediaDeviceInfo.mk "camera-1" "USB camera" MediaDeviceKind.videoinput.
Definition builtinMicrophone : MediaDeviceInfo.t :=
  MediaDeviceInfo.mk "mic-1" "Built-in microphone" MediaDeviceKind.audioinput.
Definition builtinCamera : MediaDeviceInfo.t :=
  MediaDeviceInfo.mk "camera-0" "Built-in camera" MediaDeviceKind.videoinput.

(** A resolver over a given output inventory: the requested device when it
    is there, else the first one, else nothing. *)
Definition resolveFrom (outputDevices : list MediaDeviceInfo.t) (kind : MediaDeviceKind.t)
    (sel : DeviceSelector) : option string :=
  let requested :=
    match sel with
    | DeviceString s =>
        List.find (λ d, String.eqb (MediaDeviceInfo.deviceId d) s) outputDevices
    | _ => None
    end in
  MediaDeviceInfo.deviceId <$>
    (match requested with Some d => Some d | None => head outputDevices end).

Definition manager (sessions : list (string * IJingleSession.t)) : SessionManager.t :=
  SessionManager.mk handlers ∅ sessions.

Definition twoCalls : SessionManager.t :=
  manager [("s1", softphoneSession "s1"); ("s2", videoSession "s2")].

Definition withPending : SessionManager.t :=
  SessionManager.mk handlers {[ "p1" := pending "p1" ]} [].

Definition agent (id state : string) : SoftphoneSessionHandler.RawParticipant :=
  SoftphoneSessionHandler.Build_RawParticipant id "sip:agent" "agent" state "inbound"
    false false (Some (SoftphoneSessionHandler.Build_RawUser "user-1")).

Definition customer : SoftphoneSessionHandler.RawParticipant :=
  SoftphoneSessionHandler.Build_RawParticipant "part-0" "tel:+100" "customer" "connected"
    "inbound" false false None.

(** The collaborators of a call whose REST body is [body]. *)
Definition callEnv (body : list SoftphoneSessionHandler.RawParticipant)
    (patch : Outcome unit) (terminated : bool) (superEnd : Outcome unit)
    : SoftphoneSessionHandler.Env :=
  SoftphoneSessionHandler.Build_Env "user-1" (Fulfilled body) patch terminated superEnd.

(** A transport that, against its contract, holds an active session of a
    peer no handler owns, ahead of a softphone call. *)
Definition strayCall : SessionManager.t :=
  manager
    [("s0", IJingleSession.mk "s0" "stranger" "conversation-0" None true
              [RTCRtpSender.mk (Some microphone)] None None None None);
     ("s1", softphoneSession "s1")].


(** The same agent twice, one record left over from an earlier leg. *)
Definition twoAgents : list SoftphoneSessionHandler.RawParticipant :=
  [customer; agent "part-1" "disconnected"; agent "part-2" "connected"].

Definition secondAgent : IConversationParticipant.t :=
  SoftphoneSessionHandler.toParticipant (agent "part-2" "connected").



Definition twoAgentsEnv : SoftphoneSessionHandler.Env :=
  callEnv twoAgents (Fulfilled tt) true (Fulfilled tt).

(** Reconciliation passes over [twoCalls]: with no microphone left, with the
    built-in camera replaced by another one, and with every device there. *)
Definition passWithoutMicrophone :=
  validateOutgoingMediaTracks true [builtinCamera] [] [speaker] (resolveFrom [speaker]) twoCalls.
Definition passWithOtherCamera :=
  validateOutgoingMediaTracks true [webcam] [builtinMicrophone] [speaker]
    (resolveFrom [speaker]) twoCalls.
Definition passWithAllDevices :=
  validateOutgoingMediaTracks true [builtinCamera] [builtinMicrophone] [speaker]
    (resolveFrom [speaker]) twoCalls.

End Examples.

(** * Further entry points and overrides *)

(** ** Session manager: construction and the remaining entry points *)

Module IStartSessionParams.
Record t := mk { sessionType : SessionTypes.t; jid : option string }.
End IStartSessionParams.

Module ISessionMuteRequest.
Record t := mk { id : string; mute : bool }.
End ISessionMuteRequest.

(** A [ConversationUpdate], seen through its [id]. *)
Module ConversationUpdate.
Record t := mk { id : string }.
End ConversationUpdate.

(** The options of [updateOutgoingMedia] as the manager reads them: the
    session itself or its id, and the two device selectors. *)
Module UpdateOutgoingMediaOptions.
Record t := mk {
  session : option IJingleSession.t;
  sessionId : option string;
  videoDeviceId : option DeviceSelector;
  audioDeviceId : option DeviceSelector
}.
End UpdateOutgoingMediaOptions.

Definition by_sessionType (ty : SessionTypes.t) : HandlerParams.t :=
  HandlerParams.mk None (Some ty) None.

(** [{ sessionType: session.sessionType }], the type being absent until the
    session is initialised. *)
Definition by_typeOf (s : IJingleSession.t) : HandlerParams.t :=
  HandlerParams.mk None (IJingleSession.sessionType s) None.

(** The same for what [getSession] returned. *)
Definition by_typeOf_found (session : Property IJingleSession.t) : HandlerParams.t :=
  HandlerParams.mk None (sessionType_of session) None.

(** [{ sessionType: pendingSession.sessionType }] for what [getPendingSession]
    returned: an inherited member has no [sessionType]. *)
Definition by_typeOf_pending (pendingSession : Property IPendingSession.t) : HandlerParams.t :=
  HandlerParams.mk None
    (match pendingSession with
     | Own p => Some (IPendingSession.sessionType p)
     | Inherited _ => None
     end)
    None.

(** [handler.disabled = false] on the handler [find] returned: the first of
    its type. *)
Fixpoint enableFirst (ty : SessionTypes.t) (handlers : list BaseSessionHandler.t)
    : list BaseSessionHandler.t :=
  match handlers with
  | [] => []
  | h :: rest =>
      if SessionTypes.eqb (BaseSessionHandler.sessionType h) ty then
        BaseSessionHandler.mk (BaseSessionHandler.sessionType h) false
          (BaseSessionHandler.shouldHandleSessionByJid h) :: rest
      else h :: enableFirst ty rest
  end.

(** One turn of [allowedSessionTypes.forEach] in the constructor. *)
Definition allowSessionType (sessionType : SessionTypes.t) : Eff unit :=
  log LogLevels.info "Allow session type" ;>
  let* handler := getSessionHandler (by_sessionType sessionType) in
  modify (λ m, SessionManager.mk (enableFirst sessionType (SessionManager.sessionHandlers m))
                 (SessionManager.pendingSessions m) (SessionManager.sessions m)).

(** The constructor: [handlers] are the handlers as their own constructors
    leave them, [sessions] the transport's collection. *)
Definition construct (handlers : list BaseSessionHandler.t)
    (sessions : list (string * IJingleSession.t)) (allowedSessionTypes : list SessionTypes.t)
    : SessionManager.t * list Event * Result unit :=
  forEach allowSessionType allowedSessionTypes (SessionManager.mk handlers ∅ sessions).

(** The session after [session.sessionType = ty]. *)
Definition withSessionType (ty : SessionTypes.t) (s : IJingleSession.t) : IJingleSession.t :=
  IJingleSession.mk (IJingleSession.id s) (IJingleSession.peerID s)
    (IJingleSession.conversationId s) (Some ty)
    (IJingleSession.active s) (IJingleSession.getSenders s) (IJingleSession.pcParticipant s)
    (IJingleSession._outboundStream s) (IJingleSession._screenShareStream s)
    (IJingleSession._outputAudioElement s).

Definition setVideoMute (params : ISessionMuteRequest.t) : Eff unit :=
  let* session := getSession (IEndSessionRequest.mk (Some (ISessionMuteRequest.id params)) None) in
  let* handler := getSessionHandler (by_typeOf_found session) in
  asSession session (λ session,
    emit (HandlerSetVideoMute (BaseSessionHandler.sessionType handler)
            (IJingleSession.id session) (ISessionMuteRequest.mute params))).

Definition setAudioMute (params : ISessionMuteRequest.t) : Eff unit :=
  let* session := getSession (IEndSessionRequest.mk (Some (ISessionMuteRequest.id params)) None) in
  let* handler := getSessionHandler (by_typeOf_found session) in
  asSession session (λ session,
    emit (HandlerSetAudioMute (BaseSessionHandler.sessionType handler)
            (IJingleSession.id session) (ISessionMuteRequest.mute params))).

Section Hooks.

(** The methods of the owning handler that the manager delegates to.  They
    live in the base handler and in the concrete handlers and hold a
    reference to the manager: each is any program over the manager. *)
Variable handleSessionInit : BaseSessionHandler.t → IJingleSession.t → Eff IJingleSession.t.
Variable handleConversationUpdate_hook :
  BaseSessionHandler.t → IJingleSession.t → ConversationUpdate.t → Eff unit.
Variable updateOutgoingMedia_hook :
  BaseSessionHandler.t → IJingleSession.t → UpdateOutgoingMediaOptions.t → Eff unit.

(** The body of [sessions.forEach] in [handleConversationUpdate]. *)
Definition deliverUpdate (update : ConversationUpdate.t) (session : IJingleSession.t) : Eff unit :=
  if String.eqb (IJingleSession.conversationId session) (ConversationUpdate.id update) then
    let* handler := getSessionHandler (by_typeOf session) in
    if BaseSessionHandler.disabled handler then ret tt
    else handleConversationUpdate_hook handler session update
  else ret tt.

Definition handleConversationUpdate (update : ConversationUpdate.t) : Eff unit :=
  let* m := get in
  forEach (deliverUpdate update) (Object_values (SessionManager.sessions m)).

(** [onSessionInit]: the value is the transport's session object as the call
    leaves it. *)
Definition onSessionInit (session : IJingleSession.t) : Eff IJingleSession.t :=
  let* sessionHandler := getSessionHandler (by_jingleSession session) in
  if BaseSessionHandler.disabled sessionHandler then ret session
  else
    handleSessionInit sessionHandler
      (withSessionType (BaseSessionHandler.sessionType sessionHandler) session).

Definition updateOutgoingMedia (options : UpdateOutgoingMediaOptions.t) : Eff unit :=
  let* session :=
    match UpdateOutgoingMediaOptions.session options with
    | Some s => ret (Own s)
    | None =>
        getSession (IEndSessionRequest.mk (UpdateOutgoingMediaOptions.sessionId options) None)
    end in
  let* handler := getSessionHandler (by_found session) in
  asSession session (λ session, updateOutgoingMedia_hook handler session options).

End Hooks.

(** *** Entry points that raise errors of their own *)

(** The structured context of those errors. *)
Inductive ApiContext :=
| PendingContext (sessionId : string)
| StartContext (startSessionParams : IStartSessionParams.t)
    (allowedSessionTypes : list SessionTypes.t).

(** What such an entry point is rejected with: an error of the lookups, or
    one of its own. *)
Inductive ApiExn :=
| Inner (e : Exn)
| ApiError (type : SdkErrorTypes.t) (message : string) (context : ApiContext).

Inductive Completion (A : Type) := Done (a : A) | Failed (e : ApiExn).
Arguments Done {A} a.
Arguments Failed {A} e.

Definition Api (A : Type) : Type :=
  SessionManager.t → SessionManager.t * list Event * Completion A.

Definition lift {A} (c : Eff A) : Api A := λ m,
  match c m with
  | (m1, t1, Ok a) => (m1, t1, Done a)
  | (m1, t1, Throw e) => (m1, t1, Failed (Inner e))
  end.

Definition api_bind {A B} (c : Api A) (k : A → Api B) : Api B := λ m,
  match c m with
  | (m1, t1, Done a) => let '(m2, t2, r) := k a m1 in (m2, t1 ++ t2, r)
  | (m1, t1, Failed e) => (m1, t1, Failed e)
  end.

(** Modelled from the spec: [throwSdkError] of [utils], for the contexts
    above. *)
Definition throwApiError {A} (type : SdkErrorTypes.t) (message : string)
    (context : ApiContext) : Api A :=
  λ m, (m, [], Failed (ApiError type message context)).

Notation "'let+' x ':=' c1 'in' c2" := (api_bind c1 (λ x, c2))
  (at level 10, x name, c1 at level 100, c2 at level 200).

(** [asSession] for these entry points and the pending session they read. *)
Definition asPendingSession (pendingSession : Property IPendingSession.t)
    (k : IPendingSession.t → Api unit) : Api unit :=
  match pendingSession with
  | Own p => k p
  | Inherited name => lift (emit (InheritedMemberUsed name))
  end.

Section ApiHooks.

Variable startSession_hook : BaseSessionHandler.t → IStartSessionParams.t → Api unit.
Variable proceedWithSession_hook : BaseSessionHandler.t → IPendingSession.t → Api unit.
Variable rejectPendingSession_hook : BaseSessionHandler.t → IPendingSession.t → Api unit.

(** [sdk._config.allowedSessionTypes], which the error of [startSession] quotes. *)
Variable allowedSessionTypes : list SessionTypes.t.

Definition startSession (startSessionParams : IStartSessionParams.t) : Api unit :=
  let+ handler :=
    lift (getSessionHandler
            (by_sessionType (IStartSessionParams.sessionType startSessionParams))) in
  if BaseSessionHandler.disabled handler then
    throwApiError SdkErrorTypes.generic
      "Cannot start a session with a disabled session handler"
      (StartContext startSessionParams allowedSessionTypes)
  else startSession_hook handler startSessionParams.

Definition proceedWithSession (sessionId : string) : Api unit :=
  let+ pendingSession := lift (getPendingSession sessionId) in
  match pendingSession with
  | None =>
      throwApiError SdkErrorTypes.session
        "Could not find a pendingSession matching accept params" (PendingContext sessionId)
  | Some pendingSession =>
      let+ sessionHandler := lift (getSessionHandler (by_typeOf_pending pendingSession)) in
      asPendingSession pendingSession (λ pendingSession,
        proceedWithSession_hook sessionHandler pendingSession)
  end.

Definition rejectPendingSession (sessionId : string) : Api unit :=
  let+ pendingSession := lift (getPendingSession sessionId) in
  match pendingSession with
  | None =>
      throwApiError SdkErrorTypes.session "Could not find a pendingSession"
        (PendingContext sessionId)
  | Some pendingSession =>
      let+ sessionHandler := lift (getSessionHandler (by_typeOf_pending pendingSession)) in
      asPendingSession pendingSession (λ pendingSession,
        rejectPendingSession_hook sessionHandler pendingSession)
  end.

End ApiHooks.

(** ** Softphone session handler: the other overrides *)

Module SoftphoneOverrides.
Import SoftphoneSessionHandler.

Section Overrides.

(** The base handler's methods the overrides call, and the configuration
    they read. *)
Variable super_handlePropose : IPendingSession.t → Eff unit.
Variable proceedWithSession : IPendingSession.t → Eff unit.
Variable disableAutoAnswer : bool.
Variable super_updateOutgoingMedia :
  IJingleSession.t → UpdateOutgoingMediaOptions.t → Eff unit.

Definition handlePropose (pendingSession : IPendingSession.t) : Eff unit :=
  super_handlePropose pendingSession ;>
  if IPendingSession.autoAnswer pendingSession && negb disableAutoAnswer
  then proceedWithSession pendingSession
  else ret tt.

(** [{ ...options, videoDeviceId: undefined }] goes to the base handler. *)
Definition updateOutgoingMedia (session : IJingleSession.t)
    (options : UpdateOutgoingMediaOptions.t) : Eff unit :=
  super_updateOutgoingMedia session
    (UpdateOutgoingMediaOptions.mk (UpdateOutgoingMediaOptions.session options)
       (UpdateOutgoingMediaOptions.sessionId options) None
       (UpdateOutgoingMediaOptions.audioDeviceId options)).

(** The REST patch of [{ muted }] on a participant path. *)
Variable patchMuted : string → bool → Async unit.

(** [setAudioMute]: the context of its error is given by the conversation id
    and the session id of the request. *)
Definition setAudioMute (env : Env) (params : ISessionMuteRequest.t) : Async unit :=
  let! session := this_session in
  try_catch
    (aemit (Log LogLevels.info "Muting audio") ;!
     let! participant := getParticipantForSession env in
     patchMuted (participantPath session participant) (ISessionMuteRequest.mute params))
    (λ err,
       athrow (createAndEmitSdkError SdkErrorTypes.generic "Failed to set audioMute"
                 (ConversationContext (IJingleSession.conversationId session)
                    (Some (ISessionMuteRequest.id params))))).

End Overrides.

End SoftphoneOverrides.

(** The manager's hook for [updateOutgoingMedia] when the softphone handler
    overrides it and the other handlers use [other]. *)
Definition updateOutgoingMedia_dispatch
    (super_updateOutgoingMedia : IJingleSession.t → UpdateOutgoingMediaOptions.t → Eff unit)
    (other : BaseSessionHandler.t → IJingleSession.t → UpdateOutgoingMediaOptions.t → Eff unit)
    (h : BaseSessionHandler.t) (s : IJingleSession.t) (o : UpdateOutgoingMediaOptions.t)
    : Eff unit :=
  match BaseSessionHandler.sessionType h with
  | SessionTypes.softphone => SoftphoneOverrides.updateOutgoingMedia super_updateOutgoingMedia s o
  | _ => other h s o
  end.

(** ** More example data *)

Module MoreExamples.

(** The three handlers before the constructor's loop enabled any of them. *)
Definition disabledHandlers : list BaseSessionHandler.t :=
  [BaseSessionHandler.mk SessionTypes.softphone true (String.prefix "softphone-");
   BaseSessionHandler.mk SessionTypes.collaborateVideo true (String.prefix "video-");
   BaseSessionHandler.mk SessionTypes.acdScreenShare true (String.prefix "acd-")].

Definition headset : MediaDeviceInfo.t :=
  MediaDeviceInfo.mk "speaker-2" "Headset" MediaDeviceKind.audiooutput.

(** A softphone call, a screen share and a session that has ended. *)
Definition screenShare (id : string) : IJingleSession.t :=
  IJingleSession.mk id "acd-share" "conversation-4" (Some SessionTypes.acdScreenShare)
    true [RTCRtpSender.mk (Some Examples.camera)] None None None
    (Some (HTMLAudioElement.mk "speaker-1")).

Definition ended (id : string) : IJingleSession.t :=
  IJingleSession.mk id "video-room" "conversation-5" (Some SessionTypes.collaborateVideo)
    false [] None None None (Some (HTMLAudioElement.mk "speaker-1")).

Definition mixedCalls : SessionManager.t :=
  Examples.manager
    [("s4", screenShare "s4"); ("s1", Examples.softphoneSession "s1"); ("s5", ended "s5")].

(** A session of the softphone peer as the transport announces it, its type
    not yet set. *)
Definition announced : IJingleSession.t :=
  IJingleSession.mk "s3" "softphone-peer" "conversation-3" None true [] None None None None.

(** Handler methods that only leave a note in the log. *)
Definition noteHook {A} (message : string) (h : BaseSessionHandler.t) (a : A) : Api unit :=
  lift (log LogLevels.debug message).
Definition quietPropose (h : BaseSessionHandler.t) (p : IPendingSession.t) : Eff unit :=
  ret tt.
Definition initHook (h : BaseSessionHandler.t) (s : IJingleSession.t) : Eff IJingleSession.t :=
  log LogLevels.debug "handleSessionInit" ;> ret s.
Definition baseUpdate (s : IJingleSession.t) (o : UpdateOutgoingMediaOptions.t) : Eff unit :=
  log LogLevels.debug "updateOutgoingMedia".
Definition otherUpdate (h : BaseSessionHandler.t) (s : IJingleSession.t)
    (o : UpdateOutgoingMediaOptions.t) : Eff unit :=
  baseUpdate s o.

(** A base handler whose [handlePropose] only reports and whose
    [proceedWithSession] drops the entry it answered. *)
Definition reportPropose (p : IPendingSession.t) : Eff unit :=
  log LogLevels.info "handling propose".
Definition answer (p : IPendingSession.t) : Eff unit :=
  removePendingSession (IPendingSession.id p).

(** A patch of the mute state that the service refuses. *)
Definition patchRefused (path : string) (muted : bool) : SoftphoneSessionHandler.Async unit :=
  SoftphoneSessionHandler.abind
    (SoftphoneSessionHandler.aemit (Log LogLevels.debug path))
    (λ _, SoftphoneSessionHandler.athrow (RestError "403")).

(** A handler that only notes the conversation update it was given. *)
Definition updateHook (h : BaseSessionHandler.t) (s : IJingleSession.t)
    (u : ConversationUpdate.t) : Eff unit :=
  log LogLevels.debug "handleConversationUpdate".

(** The same agent twice, both records connected. *)
Definition twoConnected : list SoftphoneSessionHandler.RawParticipant :=
  [Examples.agent "part-1" "connected"; Examples.customer; Examples.agent "part-2" "connected"].

Definition twoConnectedEnv : SoftphoneSessionHandler.Env :=
  Examples.callEnv twoConnected (Fulfilled tt) true (Fulfilled tt).

(** The call cannot be fetched. *)
Definition callUnavailable : SoftphoneSessionHandler.Env :=
  SoftphoneSessionHandler.Build_Env "user-1" (Rejected (RestError "404")) (Fulfilled tt) true
    (Fulfilled tt).

End MoreExamples.

(** * Properties *)

(** ** The model on small inputs *)

Example getSession_by_conversation :
  result_of (getSession (IEndSessionRequest.mk None (Some "conversation-2")) Examples.twoCalls)
  = Ok (Own (Examples.videoSession "s2")).
Proof. reflexivity. Qed.

(** The lookup by id reads the members a plain object inherits. *)
Example getSession_by_inherited_name :
  result_of (getSession (IEndSessionRequest.mk (Some "constructor") None) Examples.twoCalls)
  = Ok (Inherited "constructor").
Proof. reflexivity. Qed.

Example getPendingSession_by_inherited_name :
  result_of (getPendingSession "toString" Examples.withPending) = Ok (Some (Inherited "toString")).
Proof. reflexivity. Qed.

Example getSessionHandler_by_peer :
  result_of (getSessionHandler (by_jingleSession (Examples.videoSession "s2"))
               Examples.twoCalls)
  = Ok Examples.videoHandler.
Proof. reflexivity. Qed.

Example getSessionHandler_unknown_peer :
  result_of (getSessionHandler
               (by_sessionInfo (ISessionInfo.mk "p9" false "nobody" "conversation-9" None None))
               Examples.twoCalls)
  = Throw (SdkError SdkErrorTypes.session "Failed to find session handler for session"
             (HandlerLookup
                (by_sessionInfo
                   (ISessionInfo.mk "p9" false "nobody" "conversation-9" None None)))).
Proof. reflexivity. Qed.

Example onPropose_new_proposal :
  trace_of (onPropose Examples.autoAnswerHook (Examples.proposal "p2" false)
              Examples.withPending)
  = [Log LogLevels.info "onPendingSession";
     HandlePropose SessionTypes.softphone (Examples.pending "p2")].
Proof. reflexivity. Qed.

Example onPropose_duplicate_proposal :
  trace_of (onPropose Examples.autoAnswerHook (Examples.proposal "p1" false)
              Examples.withPending)
  = [Log LogLevels.info "onPendingSession";
     Log LogLevels.info "duplicate session invitation, ignoring"].
Proof. reflexivity. Qed.

Example endSession_by_conversation :
  endSession (IEndSessionRequest.mk None (Some "conversation-1")) Examples.twoCalls
  = (Examples.twoCalls, [HandlerEndSession SessionTypes.softphone "s1"], Ok tt).
Proof. reflexivity. Qed.

Example pass_with_other_camera :
  Examples.passWithOtherCamera
  = (Examples.twoCalls,
     [Log LogLevels.debug "sessions outgoing track still has available device";
      Log LogLevels.debug "sessions outgoing track still has available device";
      Log LogLevels.info "session lost media device and will attempt to switch devices";
      SdkUpdateOutgoingMedia
        (IUpdateOutgoingMedia.mk "s2" (Some (DeviceBool true)) None)],
     Ok tt).
Proof. reflexivity. Qed.

Example plan_without_microphone :
  Scan.updates (scan true [Examples.builtinCamera] [] [Examples.speaker]
                  (activeSessions Examples.twoCalls))
  = [("s1", MediaToUpdate.mk false true); ("s2", MediaToUpdate.mk false true)].
Proof. reflexivity. Qed.

(** Why the statements on the second loop of the pass ask for a session
    collection in order: the loop is left at the first lookup that fails. *)
Example pass_stops_at_stray_session :
  validateOutgoingMediaTracks true [Examples.builtinCamera] [] [Examples.speaker]
    (Examples.resolveFrom [Examples.speaker]) Examples.strayCall
  = (Examples.strayCall,
     [Log LogLevels.info "session lost media device and will attempt to switch devices";
      Log LogLevels.info "session lost media device and will attempt to switch devices"],
     Throw (SdkError SdkErrorTypes.session "Failed to find session handler for session"
              (HandlerLookup
                 (by_jingleSession
                    (IJingleSession.mk "s0" "stranger" "conversation-0" None true
                       [RTCRtpSender.mk (Some Examples.microphone)] None None None None))))).
Proof. reflexivity. Qed.

(** ** The lookups read the manager and nothing else *)

Lemma getSessionHandler_frame (params : HandlerParams.t) (m : SessionManager.t) :
  ∃ r, getSessionHandler params m = (m, [], r).
Proof.
  unfold getSessionHandler, bind, get, throwSdkError, throw, ret.
  destruct (HandlerParams.sessionType params) as [ty|]; simpl.
  - destruct (List.find _ _); eauto.
  - destruct (js_or _ _) as [jid|]; simpl; eauto.
    destruct (truthy jid); simpl; eauto.
    destruct (List.find _ _); eauto.
Qed.

Lemma getSession_frame (params : IEndSessionRequest.t) (m : SessionManager.t) :
  ∃ r, getSession params m = (m, [], r).
Proof.
  unfold getSession, bind, get, throwSdkError, throw, ret.
  destruct (IEndSessionRequest.id params) as [i|]; simpl.
  - destruct (truthy i).
    + destruct (sessions_get _ _); eauto.
    + destruct (List.find _ _); simpl; eauto.
  - destruct (List.find _ _); simpl; eauto.
Qed.

(** ** Own and inherited properties *)

Lemma property_own {A} (own : option A) (k : string) (a : A) :
  own = Some a → property own k = Some (Own a).
Proof. by intros ->. Qed.

Lemma property_is_Some {A} (own : option A) (k : string) :
  is_Some (property own k) ↔ is_Some own ∨ inherited k = true.
Proof.
  unfold property. destruct own as [a|]; simpl.
  - split; [left|]; by eexists.
  - destruct (inherited k); split.
    + by right.
    + by eexists.
    + intros H. by apply is_Some_None in H.
    + intros [H|H]; [by apply is_Some_None in H|done].
Qed.

Lemma property_None {A} (own : option A) (k : string) :
  own = None → inherited k = false → property own k = None.
Proof. intros -> Hk. unfold property. by rewrite Hk. Qed.

Lemma lookup_session_None (k : string) (ss : list (string * IJingleSession.t)) :
  (k ∉ map fst ss) → lookup_session k ss = None.
Proof.
  intros Hk. unfold lookup_session.
  destruct (List.find _ ss) as [[k' s]|] eqn:Hf; [|done].
  apply find_some in Hf as [Hin Heq]. simpl in Heq. apply String.eqb_eq in Heq as ->.
  exfalso. apply Hk. apply list_elem_of_In in Hin. by apply (list_elem_of_fmap_2 fst _ (k, s)).
Qed.

(** An inherited member has no address and no type: the handler lookup for
    it throws before any handler is considered. *)
Lemma getSessionHandler_inherited (name : string) (m : SessionManager.t) :
  getSessionHandler (by_found (Inherited name)) m
  = (m, [],
     Throw (SdkError SdkErrorTypes.generic
              "getSessionHandler was called without any identifying information"
              (HandlerLookup (by_found (Inherited name))))).
Proof. reflexivity. Qed.

(** ** Pending registry *)

Lemma onPropose_existing hook (info : ISessionInfo.t) (m : SessionManager.t) :
  is_Some (SessionManager.pendingSessions m !! ISessionInfo.sessionId info) →
  ∃ t r, onPropose hook info m = (m, t, r) ∧ forallb is_Log t = true.
Proof.
  intros [p Hp]. unfold onPropose, bind at 1.
  destruct (getSessionHandler_frame (by_sessionInfo info) m) as [r ->].
  destruct r as [h|e]; [|by eexists _, _].
  destruct (BaseSessionHandler.disabled h); [by eexists _, _|].
  unfold bind, log, emit, getPendingSession, get, ret; simpl.
  rewrite Hp. by eexists _, _.
Qed.

(** A proposal under a name every object inherits is taken for a duplicate. *)
Lemma onPropose_inherited hook (info : ISessionInfo.t) (m : SessionManager.t) :
  inherited (ISessionInfo.sessionId info) = true →
  ∃ t r, onPropose hook info m = (m, t, r) ∧ forallb is_Log t = true.
Proof.
  intros Hinh. unfold onPropose, bind at 1.
  destruct (getSessionHandler_frame (by_sessionInfo info) m) as [r ->].
  destruct r as [h|e]; [|by eexists _, _].
  destruct (BaseSessionHandler.disabled h); [by eexists _, _|].
  unfold bind, log, emit, getPendingSession, get, ret; simpl.
  unfold property. rewrite Hinh.
  destruct (SessionManager.pendingSessions m !! ISessionInfo.sessionId info);
    by eexists _, _.
Qed.

Lemma keyed_by_id_subseteq (reg reg' : gmap string IPendingSession.t) :
  reg' ⊆ reg → keyed_by_id reg → keyed_by_id reg'.
Proof.
  intros Hsub Hk k p Hl. apply (Hk k p). by eapply lookup_weaken.
Qed.

Lemma onPropose_keyed hook (info : ISessionInfo.t) (m : SessionManager.t) :
  removes_only hook →
  keyed_by_id (SessionManager.pendingSessions m) →
  keyed_by_id (SessionManager.pendingSessions (state_of (onPropose hook info m))).
Proof.
  intros Hhook Hk. unfold onPropose, bind at 1.
  destruct (getSessionHandler_frame (by_sessionInfo info) m) as [r ->].
  destruct r as [h|e]; [|exact Hk].
  destruct (BaseSessionHandler.disabled h); [exact Hk|].
  unfold bind, log, emit, getPendingSession, get, ret, modify; simpl.
  destruct (SessionManager.pendingSessions m !! ISessionInfo.sessionId info) eqn:Hl;
    simpl; [exact Hk|].
  destruct (inherited (ISessionInfo.sessionId info)); simpl; [exact Hk|].
  match goal with |- context [hook ?a ?b ?c] =>
    specialize (Hhook a b c); destruct (hook a b c) as [[m3 t3] r3] end.
  simpl in *. eapply keyed_by_id_subseteq; [exact Hhook|].
  apply map_Forall_insert_2; [done|exact Hk].
Qed.

Lemma onProposeAll_keyed hook (infos : list ISessionInfo.t) (m : SessionManager.t) :
  removes_only hook →
  keyed_by_id (SessionManager.pendingSessions m) →
  keyed_by_id (SessionManager.pendingSessions (onProposeAll hook infos m)).
Proof.
  intros Hhook. revert m. induction infos as [|info infos IH]; intros m Hk; [done|].
  simpl. apply IH. by apply onPropose_keyed.
Qed.

Lemma filter_unique_key {V} (P : string * V → bool) (i : string) (l : list (string * V)) :
  NoDup (map fst l) →
  (∀ kv, kv ∈ l → P kv = true → kv.1 = i) →
  (length (List.filter P l) ≤ 1)%nat.
Proof.
  induction l as [|kv l IH]; intros Hnd HP; simpl; [lia|].
  apply NoDup_cons in Hnd as [Hnotin Hnd].
  assert (IHl : (length (List.filter P l) ≤ 1)%nat).
  { apply IH; [done|]. intros kv' Hin. apply HP. by right. }
  destruct (P kv) eqn:HPkv; [|done].
  simpl. destruct (List.filter P l) as [|kv' rest] eqn:Hf; [simpl; lia|].
  exfalso. apply Hnotin.
  assert (Hin' : kv' ∈ List.filter P l) by (rewrite Hf; left).
  apply list_elem_of_In, filter_In in Hin' as [Hin' HP'].
  apply list_elem_of_In in Hin'.
  rewrite (HP kv (list_elem_of_here _ _) HPkv).
  rewrite <- (HP kv' (list_elem_of_further _ _ _ Hin') HP').
  by apply list_elem_of_fmap_2.
Qed.

Lemma keyed_at_most_one (i : string) (reg : gmap string IPendingSession.t) :
  keyed_by_id reg → (length (pendingWithId i reg) ≤ 1)%nat.
Proof.
  intros Hk. unfold pendingWithId. apply (filter_unique_key _ i).
  - apply NoDup_fst_map_to_list.
  - intros [k p] Hin HP. simpl in *.
    apply elem_of_map_to_list in Hin. apply Hk in Hin.
    apply String.eqb_eq in HP. congruence.
Qed.

(** C1. A proposal whose session id already has a pending entry leaves the
    manager as it was (the entry is kept, none is added) and does nothing
    but log, so the handler's propose hook is not called; and since the
    manager stores an entry under its own id only, after any sequence of
    proposals the registry holds at most one entry per id. *)
Theorem onPropose_duplicate_is_noop
    (hook : BaseSessionHandler.t → IPendingSession.t → Eff unit)
    (m : SessionManager.t) (info : ISessionInfo.t) :
  (is_Some (SessionManager.pendingSessions m !! ISessionInfo.sessionId info) →
   state_of (onPropose hook info m) = m
   ∧ forallb is_Log (trace_of (onPropose hook info m)) = true
   ∧ existsb is_HandlePropose (trace_of (onPropose hook info m)) = false)
  ∧ (removes_only hook →
     keyed_by_id (SessionManager.pendingSessions m) →
     ∀ (infos : list ISessionInfo.t) (i : string),
       (length (pendingWithId i (SessionManager.pendingSessions (onProposeAll hook infos m)))
        ≤ 1)%nat).
Proof.
  split.
  - intros Hex. destruct (onPropose_existing hook info m Hex) as (t & r & -> & Hlog).
    unfold state_of, trace_of; simpl.
    split; [done|]. split; [done|].
    apply not_true_is_false. intros Hhp.
    apply existsb_exists in Hhp as (e & Hin & He).
    rewrite forallb_forall in Hlog. specialize (Hlog e Hin).
    by destruct e.
  - intros Hhook Hk infos i.
    apply keyed_at_most_one. by apply onProposeAll_keyed.
Qed.

Lemma autoAnswerHook_removes_only : removes_only Examples.autoAnswerHook.
Proof.
  intros h p m. unfold Examples.autoAnswerHook.
  destruct (IPendingSession.autoAnswer p); [|done].
  apply delete_subseteq.
Qed.

Lemma onPropose_duplicate_is_noop_witness :
  (state_of (onPropose Examples.autoAnswerHook (Examples.proposal "p1" true)
               Examples.withPending) = Examples.withPending
   ∧ forallb is_Log
       (trace_of (onPropose Examples.autoAnswerHook (Examples.proposal "p1" true)
                    Examples.withPending)) = true
   ∧ existsb is_HandlePropose
       (trace_of (onPropose Examples.autoAnswerHook (Examples.proposal "p1" true)
                    Examples.withPending)) = false)
  ∧ (length
       (pendingWithId "p1"
          (SessionManager.pendingSessions
             (onProposeAll Examples.autoAnswerHook
                [Examples.proposal "p1" false; Examples.proposal "p2" false;
                 Examples.proposal "p1" true]
                Examples.withPending))) ≤ 1)%nat.
Proof.
  destruct (onPropose_duplicate_is_noop Examples.autoAnswerHook Examples.withPending
              (Examples.proposal "p1" true)) as [Hdup Hall].
  split.
  - apply Hdup. exists (Examples.pending "p1"). apply lookup_singleton_eq.
  - apply Hall.
    + exact autoAnswerHook_removes_only.
    + apply map_Forall_singleton. reflexivity.
Defined.

(** ** Required identifiers and session lookup *)

(** C2. An end request without a session id and without a conversation id is
    refused by the guard before any lookup: nothing is called, and the error
    carries the guard's message.  Its kind, though, is [session], where the
    sibling guard of [acceptSession] uses [invalid_options]. *)
Theorem endSession_without_ids_raises_session_kind (m : SessionManager.t) :
  endSession (IEndSessionRequest.mk None None) m
  = (m, [],
     Throw (SdkError SdkErrorTypes.session
              "Unable to end session: must provide session id or conversationId."
              NoDetails)).
Proof. reflexivity. Qed.

Lemma acceptSession_guard (m : SessionManager.t) (p : IAcceptSessionRequest.t) :
  truthy (IAcceptSessionRequest.id p) = false →
  acceptSession (Some p) m
  = (m, [],
     Throw (SdkError SdkErrorTypes.invalid_options
              "An id representing the sessionId is required for acceptSession" NoDetails)).
Proof. intros H. unfold acceptSession. rewrite H. reflexivity. Qed.

(** C3, as amended. An accept request whose id is not empty, is not the key
    of a session of the transport and is not the name of a member every
    object inherits is rejected with a [session] error whose context is the
    lookup's argument, the id; the manager is unchanged and nothing is
    called, so no handler accepts anything. *)
Theorem acceptSession_unknown_id (m : SessionManager.t) (p : IAcceptSessionRequest.t) :
  truthy (IAcceptSessionRequest.id p) = true →
  inherited (IAcceptSessionRequest.id p) = false →
  (IAcceptSessionRequest.id p ∉ map fst (SessionManager.sessions m)) →
  acceptSession (Some p) m
  = (m, [],
     Throw (SdkError SdkErrorTypes.session "Unable to find session"
              (SessionLookup (IEndSessionRequest.mk (Some (IAcceptSessionRequest.id p)) None)))).
Proof.
  intros Ht Hinh Hl. apply lookup_session_None in Hl.
  unfold acceptSession, getSession, bind, get, throwSdkError, throw, ret.
  rewrite Ht. simpl. rewrite Ht. unfold sessions_get.
  rewrite (property_None _ _ Hl Hinh). reflexivity.
Qed.

Lemma acceptSession_unknown_id_witness :
  truthy "s3" = true
  ∧ inherited "s3" = false
  ∧ ("s3" ∉ map fst (SessionManager.sessions Examples.twoCalls))
  ∧ acceptSession (Some (IAcceptSessionRequest.mk "s3")) Examples.twoCalls
    = (Examples.twoCalls, [],
       Throw (SdkError SdkErrorTypes.session "Unable to find session"
                (SessionLookup (IEndSessionRequest.mk (Some "s3") None)))).
Proof.
  assert (H : "s3" ∉ map fst (SessionManager.sessions Examples.twoCalls)).
  { simpl. intros H. apply elem_of_cons in H as [H|H]; [discriminate|].
    apply list_elem_of_singleton in H. discriminate. }
  split; [reflexivity|]. split; [reflexivity|]. split; [exact H|].
  exact (acceptSession_unknown_id Examples.twoCalls (IAcceptSessionRequest.mk "s3")
           eq_refl eq_refl H).
Defined.

(** C3, as stated, fails for the empty id: it names no session, and the
    request is refused by the guard with an [invalid_options] error that
    carries no context. *)
Lemma acceptSession_empty_id_counterexample :
  (EmptyString ∉ map fst (SessionManager.sessions Examples.twoCalls))
  ∧ acceptSession (Some (IAcceptSessionRequest.mk EmptyString)) Examples.twoCalls
    = (Examples.twoCalls, [],
       Throw (SdkError SdkErrorTypes.invalid_options
                "An id representing the sessionId is required for acceptSession" NoDetails)).
Proof.
  split; [|reflexivity].
  simpl. intros H. apply elem_of_cons in H as [H|H]; [discriminate|].
  apply list_elem_of_singleton in H. discriminate.
Qed.

(** ** Tools for traces *)

Lemma writes_only_ret {A} P (a : A) : writes_only P (ret a).
Proof. intros m. constructor. Qed.

Lemma writes_only_throw {A} P e : writes_only P (@throw A e).
Proof. intros m. constructor. Qed.

Lemma writes_only_get P : writes_only P get.
Proof. intros m. constructor. Qed.

Lemma writes_only_emit P e : P e → writes_only P (emit e).
Proof. intros He m. by repeat constructor. Qed.

Lemma writes_only_bind {A B} P (c : Eff A) (k : A → Eff B) :
  writes_only P c → (∀ a, writes_only P (k a)) → writes_only P (bind c k).
Proof.
  intros Hc Hk m. unfold bind, trace_of. specialize (Hc m). unfold trace_of in Hc.
  destruct (c m) as [[m1 t1] [a|e]]; simpl in *; [|done].
  specialize (Hk a m1). unfold trace_of in Hk.
  destruct (k a m1) as [[m2 t2] r]; simpl in *.
  by apply Forall_app.
Qed.

Lemma writes_only_forEach {A} P (f : A → Eff unit) (l : list A) :
  (∀ x, writes_only P (f x)) → writes_only P (forEach f l).
Proof.
  intros Hf. induction l as [|x l IH]; simpl.
  - apply writes_only_ret.
  - apply writes_only_bind; [apply Hf|done].
Qed.

Lemma writes_only_getSessionHandler P params : writes_only P (getSessionHandler params).
Proof.
  intros m. destruct (getSessionHandler_frame params m) as [r ->]. constructor.
Qed.

Lemma writes_only_getSession P params : writes_only P (getSession params).
Proof.
  intros m. destruct (getSession_frame params m) as [r ->]. constructor.
Qed.

Lemma forEach_emit (l : list Event) (m : SessionManager.t) :
  forEach emit l m = (m, l, Ok tt).
Proof.
  induction l as [|e l IH]; [done|].
  simpl. unfold bind. simpl. by rewrite IH.
Qed.

(** A loop whose every turn completes and leaves the manager alone completes,
    leaves the manager alone, and its trace holds the events of every turn. *)
Lemma forEach_all_ok {A} (f : A → Eff unit) (l : list A) (m : SessionManager.t) :
  (∀ x, x ∈ l → ∃ t, f x m = (m, t, Ok tt)) →
  ∃ t, forEach f l m = (m, t, Ok tt)
       ∧ ∀ x e, x ∈ l → e ∈ trace_of (f x m) → e ∈ t.
Proof.
  induction l as [|x l IH]; intros Hok.
  - exists []. split; [done|]. intros x e Hx. by apply elem_of_nil in Hx.
  - destruct (Hok x) as [tx Hx]; [left|].
    destruct IH as (tl & Hl & Hin).
    { intros y Hy. apply Hok. by right. }
    exists (tx ++ tl). split.
    + simpl. unfold bind. rewrite Hx, Hl. done.
    + intros y e Hy He. apply elem_of_app.
      apply elem_of_cons in Hy as [->|Hy].
      * left. by rewrite Hx in He.
      * right. by eapply Hin.
Qed.

(** ** The plan built by the first loop of the reconciliation pass *)

Lemma updates_get_elem (k : string) (v : MediaToUpdate.t) updates :
  updates_get k updates = Some v → (k, v) ∈ updates.
Proof.
  induction updates as [|[k' v'] rest IH]; simpl; [done|].
  destruct (String.eqb k' k) eqn:Hk.
  - intros [= ->]. apply String.eqb_eq in Hk as ->. left.
  - intros H. right. by apply IH.
Qed.

Lemma updates_get_set_same (k : string) (v : MediaToUpdate.t) updates :
  updates_get k (updates_set k v updates) = Some v.
Proof.
  induction updates as [|[k' v'] rest IH]; simpl.
  - by rewrite String.eqb_refl.
  - destruct (String.eqb k' k) eqn:Hk; simpl; rewrite Hk; done.
Qed.

Lemma updates_get_set_other (k k' : string) (v : MediaToUpdate.t) updates :
  k ≠ k' → updates_get k' (updates_set k v updates) = updates_get k' updates.
Proof.
  intros Hne.
  assert (Hkk : String.eqb k k' = false) by by apply String.eqb_neq.
  induction updates as [|[k0 v0] rest IH]; simpl.
  - by rewrite Hkk.
  - destruct (String.eqb k0 k) eqn:Hk; simpl.
    + apply String.eqb_eq in Hk as ->. by rewrite Hkk.
    + by rewrite IH.
Qed.

Lemma updates_set_keys (P : string → Prop) (k : string) (v : MediaToUpdate.t) updates :
  P k → (∀ k' v', (k', v') ∈ updates → P k') →
  ∀ k' v', (k', v') ∈ updates_set k v updates → P k'.
Proof.
  intros HPk. induction updates as [|[k0 v0] rest IH]; simpl; intros HP k' v' Hin.
  - apply list_elem_of_singleton in Hin as [= -> ->]. done.
  - destruct (String.eqb k0 k) eqn:Hk.
    + apply elem_of_cons in Hin as [[= -> ->]|Hin].
      * apply (HP k0 v0). left.
      * apply (HP k' v'). by right.
    + apply elem_of_cons in Hin as [[= -> ->]|Hin].
      * apply (HP k0 v0). left.
      * eapply IH; [|exact Hin]. intros k1 v1 H1. apply (HP k1 v1). by right.
Qed.

Lemma updates_set_not_nil (k : string) (v : MediaToUpdate.t) updates :
  updates_set k v updates ≠ [].
Proof. destruct updates as [|[k0 v0] rest]; simpl; [done|]. by destruct (String.eqb k0 k). Qed.

Lemma MediaToUpdate_get_set_same kind v :
  MediaToUpdate.get kind (MediaToUpdate.set kind v) = true.
Proof. by destruct kind. Qed.

Lemma MediaToUpdate_get_set_mono kind kind' v :
  MediaToUpdate.get kind v = true →
  MediaToUpdate.get kind (MediaToUpdate.set kind' v) = true.
Proof. by destruct kind, kind', v. Qed.

Section ScanFacts.

Variable hasOutputDeviceSupport : bool.
Variables videoDevices audioDevices outputDevices : list MediaDeviceInfo.t.

Local Abbreviation scan_track' := (scan_track videoDevices audioDevices).
Local Abbreviation scan_session' :=
  (scan_session hasOutputDeviceSupport videoDevices audioDevices outputDevices).
Local Abbreviation scan' := (scan hasOutputDeviceSupport videoDevices audioDevices outputDevices).
Local Abbreviation deviceExists' := (deviceExists videoDevices audioDevices).
Local Abbreviation outputDeviceMissing' :=
  (outputDeviceMissing hasOutputDeviceSupport outputDevices).

(** What holds of the plan, of the flag and of the log lines after any
    number of turns, for an invariant [I] that every turn keeps. *)
Lemma scan_tracks_ind (I : Scan.t → Prop) session tracks acc :
  (∀ a t, I a → I (scan_track' session a t)) →
  I acc → I (foldl (scan_track' session) acc tracks).
Proof.
  intros Hstep. revert acc. induction tracks as [|t tracks IH]; intros acc Hacc; [done|].
  simpl. apply IH. by apply Hstep.
Qed.

Lemma scan_track_flagged_mono session acc t k kind :
  flagged k kind (Scan.updates acc) →
  flagged k kind (Scan.updates (scan_track' session acc t)).
Proof.
  intros (v & Hv & Hf). unfold scan_track.
  destruct (deviceExists' t); simpl; [by exists v|].
  destruct (decide (IJingleSession.id session = k)) as [->|Hne].
  - rewrite Hv. simpl. eexists. split; [apply updates_get_set_same|].
    by apply MediaToUpdate_get_set_mono.
  - exists v. split; [|done]. by rewrite updates_get_set_other.
Qed.

Lemma scan_track_flags session acc t :
  deviceExists' t = false →
  flagged (IJingleSession.id session) (MediaStreamTrack.kind t)
    (Scan.updates (scan_track' session acc t)).
Proof.
  intros Hd. unfold scan_track. rewrite Hd. simpl.
  eexists. split; [apply updates_get_set_same|apply MediaToUpdate_get_set_same].
Qed.

Lemma scan_tracks_flags session tracks acc t :
  t ∈ tracks → deviceExists' t = false →
  flagged (IJingleSession.id session) (MediaStreamTrack.kind t)
    (Scan.updates (foldl (scan_track' session) acc tracks)).
Proof.
  intros Hin Hd. revert acc. induction tracks as [|t' tracks IH]; intros acc.
  - by apply elem_of_nil in Hin.
  - simpl. apply elem_of_cons in Hin as [<-|Hin]; [|by apply IH].
    apply scan_tracks_ind; [intros a t0; apply scan_track_flagged_mono|].
    by apply scan_track_flags.
Qed.

Lemma scan_session_updates acc session :
  Scan.updates (scan_session' acc session)
  = Scan.updates (foldl (scan_track' session) acc (outgoingTracks session)).
Proof. unfold scan_session. by destruct (outputDeviceMissing' session). Qed.

Lemma scan_session_flagged_mono acc session k kind :
  flagged k kind (Scan.updates acc) →
  flagged k kind (Scan.updates (scan_session' acc session)).
Proof.
  intros Hf. rewrite scan_session_updates.
  apply scan_tracks_ind; [intros a t0; apply scan_track_flagged_mono|done].
Qed.

Lemma scan_sessions_flagged_mono sessions acc k kind :
  flagged k kind (Scan.updates acc) →
  flagged k kind (Scan.updates (foldl scan_session' acc sessions)).
Proof.
  revert acc. induction sessions as [|s sessions IH]; intros acc Hf; [done|].
  simpl. apply IH. by apply scan_session_flagged_mono.
Qed.

(** A missing device of an outgoing track of a scanned session puts the
    session in the plan, flagged for the kind of the track. *)
Lemma scan_flags sessions acc session t :
  session ∈ sessions → t ∈ outgoingTracks session → deviceExists' t = false →
  flagged (IJingleSession.id session) (MediaStreamTrack.kind t)
    (Scan.updates (foldl scan_session' acc sessions)).
Proof.
  intros Hs Ht Hd. revert acc. induction sessions as [|s sessions IH]; intros acc.
  - by apply elem_of_nil in Hs.
  - simpl. apply elem_of_cons in Hs as [<-|Hs]; [|by apply IH].
    apply scan_sessions_flagged_mono. rewrite scan_session_updates.
    by apply scan_tracks_flags.
Qed.

(** The keys of the plan are ids of scanned sessions. *)
Lemma scan_keys (P : string → Prop) sessions acc :
  (∀ s, s ∈ sessions → P (IJingleSession.id s)) →
  (∀ k v, (k, v) ∈ Scan.updates acc → P k) →
  ∀ k v, (k, v) ∈ Scan.updates (foldl scan_session' acc sessions) → P k.
Proof.
  revert acc. induction sessions as [|s sessions IH]; intros acc HP Hacc; [done|].
  simpl. apply IH; [intros s' Hs'; apply HP; by right|].
  rewrite scan_session_updates.
  apply (scan_tracks_ind (λ a, ∀ k v, (k, v) ∈ Scan.updates a → P k)); [|done].
  intros a t Ha. unfold scan_track. destruct (deviceExists' t); simpl; [done|].
  apply updates_set_keys; [|done]. apply HP. left.
Qed.

(** The first loop writes log lines only. *)
Lemma scan_logged sessions acc :
  Forall (λ e, is_Log e = true) (Scan.logged acc) →
  Forall (λ e, is_Log e = true) (Scan.logged (foldl scan_session' acc sessions)).
Proof.
  revert acc. induction sessions as [|s sessions IH]; intros acc Hacc; [done|].
  simpl. apply IH. unfold scan_session.
  assert (Htracks : Forall (λ e, is_Log e = true)
            (Scan.logged (foldl (scan_track' s) acc (outgoingTracks s)))).
  { apply (scan_tracks_ind (λ a, Forall (λ e, is_Log e = true) (Scan.logged a))); [|done].
    intros a t Ha. unfold scan_track.
    destruct (deviceExists' t); simpl; apply Forall_app; by repeat constructor. }
  destruct (outputDeviceMissing' s); simpl; [|done].
  apply Forall_app. by repeat constructor.
Qed.

(** When nothing is missing, the plan stays empty and the output flag down. *)
Lemma scan_nothing_missing sessions acc :
  Forall (λ s, forallb deviceExists' (outgoingTracks s) = true
               ∧ outputDeviceMissing' s = false) sessions →
  Scan.updates acc = [] → Scan.updateOutputDeviceForAllSessions acc = false →
  Scan.updates (foldl scan_session' acc sessions) = []
  ∧ Scan.updateOutputDeviceForAllSessions (foldl scan_session' acc sessions) = false.
Proof.
  revert acc. induction sessions as [|s sessions IH]; intros acc Hall Hu Hf; [done|].
  apply Forall_cons in Hall as [[Htr Hout] Hall].
  simpl. apply IH; [done| |]; unfold scan_session; rewrite Hout.
  - rewrite forallb_forall in Htr.
    assert (Hgen : ∀ tracks a, (∀ t, In t tracks → deviceExists' t = true) →
              Scan.updates a = [] → Scan.updates (foldl (scan_track' s) a tracks) = []).
    { induction tracks as [|t tracks IHt]; intros a Hex Ha; [done|].
      simpl. apply IHt; [intros t' Ht'; apply Hex; by right|].
      unfold scan_track. rewrite (Hex t); [done|by left]. }
    by apply Hgen.
  - apply (scan_tracks_ind (λ a, Scan.updateOutputDeviceForAllSessions a = false)); [|done].
    intros a t Ha. unfold scan_track. by destruct (deviceExists' t).
Qed.

End ScanFacts.

(** ** Running programs whose parts are known to complete *)

Lemma bind_ok {A B} (c : Eff A) (k : A → Eff B) m m1 t1 a :
  c m = (m1, t1, Ok a) →
  bind c k m = (let '(m2, t2, r) := k a m1 in (m2, t1 ++ t2, r)).
Proof. intros H. unfold bind. by rewrite H. Qed.

Lemma establishes_writes_only {A} P (Q : A → Prop) (c : Eff A) :
  establishes P Q c → writes_only P c.
Proof. intros H m. apply H. Qed.

Lemma writes_only_bind_post {A B} P (Q : A → Prop) (c : Eff A) (k : A → Eff B) :
  establishes P Q c → (∀ a, Q a → writes_only P (k a)) → writes_only P (bind c k).
Proof.
  intros Hc Hk m. unfold bind, trace_of. destruct (Hc m) as [Ht Hr].
  unfold trace_of, result_of in *.
  destruct (c m) as [[m1 t1] [a|e]]; simpl in *; [|done].
  specialize (Hk a (Hr a eq_refl) m1). unfold trace_of in Hk.
  destruct (k a m1) as [[m2 t2] r]; simpl in *.
  by apply Forall_app.
Qed.

Lemma writes_only_forEach_in {A} P (f : A → Eff unit) (l : list A) :
  (∀ x, x ∈ l → writes_only P (f x)) → writes_only P (forEach f l).
Proof.
  induction l as [|x l IH]; intros Hf; simpl.
  - apply writes_only_ret.
  - apply writes_only_bind; [apply Hf; left|].
    intros _. apply IH. intros y Hy. apply Hf. by right.
Qed.

Lemma writes_only_weaken {A} (P P' : Event → Prop) (c : Eff A) :
  (∀ e, P e → P' e) → writes_only P c → writes_only P' c.
Proof. intros HPP Hc m. eapply Forall_impl; [apply Hc|done]. Qed.

(** ** Looking up an indexed session *)

Lemma lookup_session_indexed (ss : list (string * IJingleSession.t)) k s :
  NoDup (map fst ss) → (k, s) ∈ ss → lookup_session k ss = Some s.
Proof.
  unfold lookup_session. induction ss as [|[k0 s0] ss IH]; intros Hnd Hin.
  - by apply elem_of_nil in Hin.
  - simpl in *. apply NoDup_cons in Hnd as [Hnotin Hnd].
    apply elem_of_cons in Hin as [[= -> ->]|Hin].
    + by rewrite String.eqb_refl.
    + destruct (String.eqb k0 k) eqn:Hk.
      * apply String.eqb_eq in Hk as ->. exfalso. apply Hnotin.
        by apply (list_elem_of_fmap_2 fst _ (k, s)).
      * by apply IH.
Qed.

Lemma active_session_indexed (m : SessionManager.t) (s : IJingleSession.t) :
  sessions_indexed m → s ∈ activeSessions m →
  truthy (IJingleSession.id s) = true
  ∧ lookup_session (IJingleSession.id s) (SessionManager.sessions m) = Some s.
Proof.
  intros [Hnd Hkey] Hs. unfold activeSessions, Object_values in Hs.
  apply list_elem_of_In, filter_In in Hs as [Hs _].
  apply in_map_iff in Hs as ([k s'] & Heq & Hin). simpl in Heq. subst s'.
  apply list_elem_of_In in Hin.
  rewrite Forall_forall in Hkey. destruct (Hkey _ Hin) as [Hk Ht]. simpl in *. subst k.
  split; [done|]. by apply lookup_session_indexed.
Qed.

Lemma getSession_by_id (m : SessionManager.t) (k : string) (s : IJingleSession.t) :
  truthy k = true → lookup_session k (SessionManager.sessions m) = Some s →
  getSession (IEndSessionRequest.mk (Some k) None) m = (m, [], Ok (Own s)).
Proof.
  intros Ht Hl. unfold getSession, bind, get, ret. simpl. rewrite Ht.
  unfold sessions_get. by rewrite (property_own _ _ _ Hl).
Qed.

Lemma writes_only_asSession {A} P (session : Property A) (k : A → Eff unit) :
  (∀ name, P (InheritedMemberUsed name)) →
  (∀ s, writes_only P (k s)) → writes_only P (asSession session k).
Proof.
  intros Hm Hk. destruct session as [s|name]; [apply Hk|].
  apply writes_only_emit. apply Hm.
Qed.

Lemma handler_resolved (m : SessionManager.t) (s : IJingleSession.t) :
  handlers_resolve m → s ∈ activeSessions m →
  ∃ h, getSessionHandler (by_jingleSession s) m = (m, [], Ok h).
Proof.
  intros Hres Hs. unfold handlers_resolve in Hres. rewrite Forall_forall in Hres.
  specialize (Hres s Hs).
  destruct (getSessionHandler_frame (by_jingleSession s) m) as [r Hr].
  rewrite Hr in Hres. destruct r as [h|e]; [by exists h|done].
Qed.

(** Membership of an event in a trace written as literals and appends. *)
Ltac in_trace :=
  first [ assumption
        | apply list_elem_of_here
        | apply list_elem_of_further; in_trace
        | apply elem_of_app; first [ left; in_trace | right; in_trace ] ].

Section ReconcileFacts.

Variable hasOutputDeviceSupport : bool.
Variables videoDevices audioDevices outputDevices : list MediaDeviceInfo.t.
Variable getValidDeviceId : MediaDeviceKind.t → DeviceSelector → option string.

Local Abbreviation scan' := (scan hasOutputDeviceSupport videoDevices audioDevices outputDevices).
Local Abbreviation deviceExists' := (deviceExists videoDevices audioDevices).
Local Abbreviation switchVideo' := (switchVideo videoDevices).
Local Abbreviation switchAudio' := (switchAudio audioDevices).
Local Abbreviation updateSession' := (updateSession videoDevices audioDevices).
Local Abbreviation updateOutput' := (updateOutputDeviceForAllSessions getValidDeviceId).
Local Abbreviation validate' :=
  (validateOutgoingMediaTracks hasOutputDeviceSupport videoDevices audioDevices outputDevices
     getValidDeviceId).

Lemma dropSender_ok h s sender m :
  is_Some (IJingleSession._outboundStream s) →
  ∃ t, dropSender h s sender m = (m, t, Ok tt)
       ∧ ∀ tr, RTCRtpSender.track sender = Some tr →
           TrackStop (IJingleSession.id s) tr ∈ t
           ∧ HandlerRemoveMediaFromSession (BaseSessionHandler.sessionType h)
               (IJingleSession.id s) tr ∈ t
           ∧ OutboundStreamRemoveTrack (IJingleSession.id s) tr ∈ t.
Proof.
  intros [stream Hs]. unfold dropSender. rewrite Hs.
  destruct (RTCRtpSender.track sender) as [tr|].
  - eexists. split; [reflexivity|]. intros tr' [= <-]. simpl. repeat split; in_trace.
  - eexists. split; [reflexivity|]. done.
Qed.

Lemma dropSenders_ok h s m :
  getSendersByTrackType s TrackKind.audio = [] ∨ is_Some (IJingleSession._outboundStream s) →
  ∃ t, forEach (dropSender h s) (getSendersByTrackType s TrackKind.audio) m = (m, t, Ok tt)
       ∧ ∀ sender tr, sender ∈ IJingleSession.getSenders s →
           RTCRtpSender.track sender = Some tr →
           MediaStreamTrack.kind tr = TrackKind.audio →
           TrackStop (IJingleSession.id s) tr ∈ t
           ∧ HandlerRemoveMediaFromSession (BaseSessionHandler.sessionType h)
               (IJingleSession.id s) tr ∈ t
           ∧ OutboundStreamRemoveTrack (IJingleSession.id s) tr ∈ t.
Proof.
  intros Hout.
  assert (Hmem : ∀ sender tr, sender ∈ IJingleSession.getSenders s →
            RTCRtpSender.track sender = Some tr →
            MediaStreamTrack.kind tr = TrackKind.audio →
            sender ∈ getSendersByTrackType s TrackKind.audio).
  { intros sender tr Hin Htr Hk. unfold getSendersByTrackType.
    apply list_elem_of_In, filter_In. split; [by apply list_elem_of_In|].
    by rewrite Htr, Hk. }
  destruct Hout as [Hnil|Hsome].
  - rewrite Hnil. exists []. split; [done|].
    intros sender tr Hin Htr Hk. specialize (Hmem sender tr Hin Htr Hk).
    rewrite Hnil in Hmem. by apply elem_of_nil in Hmem.
  - destruct (forEach_all_ok (dropSender h s) (getSendersByTrackType s TrackKind.audio) m)
      as (t & Hrun & Hin).
    { intros sender _. destruct (dropSender_ok h s sender m Hsome) as (t & Ht & _). eauto. }
    exists t. split; [done|]. intros sender tr Hs Htr Hk.
    destruct (dropSender_ok h s sender m Hsome) as (ts & Hts & Hev).
    destruct (Hev tr Htr) as (H1 & H2 & H3).
    specialize (Hmem sender tr Hs Htr Hk).
    repeat split; eapply Hin; try exact Hmem; by rewrite Hts.
Qed.

Lemma switchVideo_ok h s mt m :
  ∃ t v, switchVideo' h s mt m = (m, t, Ok v)
         ∧ (MediaToUpdate.video mt = true → videoDevices ≠ [] → v = Some (DeviceBool true)).
Proof.
  unfold switchVideo. destruct (MediaToUpdate.video mt).
  - destruct videoDevices as [|d ds]; eexists _, _; (split; [reflexivity|]); done.
  - eexists _, _. split; [reflexivity|]. done.
Qed.

Lemma switchAudio_ok h s mt m :
  getSendersByTrackType s TrackKind.audio = [] ∨ is_Some (IJingleSession._outboundStream s) →
  ∃ t v, switchAudio' h s mt m = (m, t, Ok v)
         ∧ (MediaToUpdate.audio mt = true → audioDevices = [] →
            HandlerSetAudioMute (BaseSessionHandler.sessionType h) (IJingleSession.id s) true ∈ t
            ∧ ∀ sender tr, sender ∈ IJingleSession.getSenders s →
                RTCRtpSender.track sender = Some tr →
                MediaStreamTrack.kind tr = TrackKind.audio →
                TrackStop (IJingleSession.id s) tr ∈ t
                ∧ HandlerRemoveMediaFromSession (BaseSessionHandler.sessionType h)
                    (IJingleSession.id s) tr ∈ t
                ∧ OutboundStreamRemoveTrack (IJingleSession.id s) tr ∈ t).
Proof.
  intros Hout. unfold switchAudio. destruct (MediaToUpdate.audio mt).
  - destruct audioDevices as [|d ds].
    + destruct (dropSenders_ok h s m Hout) as (td & Hd & Hev).
      unfold bind, log, emit, ret. simpl. rewrite Hd.
      eexists _, _. split; [reflexivity|]. intros _ _. simpl. split; [in_trace|].
      intros sender tr Hs Htr Hk. destruct (Hev sender tr Hs Htr Hk) as (H1 & H2 & H3).
      rewrite app_nil_r. simpl. repeat split; in_trace.
    + eexists _, _. split; [reflexivity|]. done.
  - eexists _, _. split; [reflexivity|]. done.
Qed.

(** One turn of the second loop, for a session that can be looked up, has a
    handler and, if it sends audio, an outbound stream. *)
Lemma updateSession_ok m s h mt :
  truthy (IJingleSession.id s) = true →
  lookup_session (IJingleSession.id s) (SessionManager.sessions m) = Some s →
  getSessionHandler (by_jingleSession s) m = (m, [], Ok h) →
  getSendersByTrackType s TrackKind.audio = [] ∨ is_Some (IJingleSession._outboundStream s) →
  ∃ t, updateSession' (IJingleSession.id s, mt) m = (m, t, Ok tt)
       ∧ (MediaToUpdate.video mt = true → videoDevices ≠ [] →
          ∃ a, SdkUpdateOutgoingMedia
                 (IUpdateOutgoingMedia.mk (IJingleSession.id s) (Some (DeviceBool true)) a) ∈ t)
       ∧ (MediaToUpdate.audio mt = true → audioDevices = [] →
          HandlerSetAudioMute (BaseSessionHandler.sessionType h) (IJingleSession.id s) true ∈ t
          ∧ ∀ sender tr, sender ∈ IJingleSession.getSenders s →
              RTCRtpSender.track sender = Some tr →
              MediaStreamTrack.kind tr = TrackKind.audio →
              TrackStop (IJingleSession.id s) tr ∈ t
              ∧ HandlerRemoveMediaFromSession (BaseSessionHandler.sessionType h)
                  (IJingleSession.id s) tr ∈ t
              ∧ OutboundStreamRemoveTrack (IJingleSession.id s) tr ∈ t).
Proof.
  intros Ht Hl Hh Hout. unfold updateSession.
  rewrite (bind_ok _ _ _ _ _ _ (getSession_by_id m _ s Ht Hl)).
  change (by_found (Own s)) with (by_jingleSession s).
  rewrite (bind_ok _ _ _ _ _ _ Hh). unfold asSession.
  destruct (switchVideo_ok h s mt m) as (tv & v & Hv & Hvid).
  destruct (switchAudio_ok h s mt m Hout) as (ta & a & Ha & Haud).
  rewrite (bind_ok _ _ _ _ _ _ Hv), (bind_ok _ _ _ _ _ _ Ha).
  unfold when, emit, ret.
  destruct (selector_truthy v || selector_truthy a) eqn:Hsel; simpl.
  - eexists. split; [reflexivity|]. split.
    + intros H1 H2. rewrite (Hvid H1 H2). exists a. in_trace.
    + intros H1 H2. destruct (Haud H1 H2) as [Hmute Hdrop]. split; [in_trace|].
      intros sender tr Hs Htr Hk. destruct (Hdrop sender tr Hs Htr Hk) as (?&?&?).
      repeat split; in_trace.
  - eexists. split; [reflexivity|]. split.
    + intros H1 H2. rewrite (Hvid H1 H2) in Hsel. done.
    + intros H1 H2. destruct (Haud H1 H2) as [Hmute Hdrop]. split; [in_trace|].
      intros sender tr Hs Htr Hk. destruct (Hdrop sender tr Hs Htr Hk) as (?&?&?).
      repeat split; in_trace.
Qed.

Lemma getAllActiveSessions_run m :
  getAllActiveSessions m = (m, [], Ok (activeSessions m)).
Proof. reflexivity. Qed.

Lemma writes_only_when P b (c : Eff unit) : writes_only P c → writes_only P (when b c).
Proof. intros Hc. destruct b; [done|apply writes_only_ret]. Qed.

Lemma writes_only_log P level message :
  (∀ e, is_Log e = true → P e) → writes_only P (log level message).
Proof. intros HP. apply writes_only_emit. by apply HP. Qed.

Lemma updateOutput_writes_only P sel :
  (∀ e, is_Log e = true → P e) →
  (∀ h i d, P (HandlerUpdateOutputDevice h i d)) →
  writes_only P (updateOutput' sel).
Proof.
  intros Hlog Hout. unfold updateOutputDeviceForAllSessions.
  match goal with |- context [if ?b then _ else _] => destruct b end.
  - by apply writes_only_log.
  - apply writes_only_bind; [intros m; constructor|]. intros active.
    apply writes_only_bind; [by apply writes_only_log|]. intros _.
    apply writes_only_forEach. intros s.
    apply writes_only_bind; [apply writes_only_getSessionHandler|]. intros h.
    by apply writes_only_emit.
Qed.

Lemma dropSender_writes_only P h s sender :
  (∀ i tr, P (TrackStop i tr)) →
  (∀ ty i tr, P (HandlerRemoveMediaFromSession ty i tr)) →
  (∀ i tr, P (OutboundStreamRemoveTrack i tr)) →
  writes_only P (dropSender h s sender).
Proof.
  intros H1 H2 H3. unfold dropSender. destruct (RTCRtpSender.track sender) as [tr|].
  - apply writes_only_bind; [by apply writes_only_emit|]. intros _.
    apply writes_only_bind; [by apply writes_only_emit|]. intros _.
    destruct (IJingleSession._outboundStream s).
    + by apply writes_only_emit.
    + apply writes_only_throw.
  - apply writes_only_ret.
Qed.

(** With a camera left, no turn of the second loop mutes video. *)
Lemma updateSession_no_video_mute entry :
  videoDevices ≠ [] → writes_only (λ e, is_video_mute e = false) (updateSession' entry).
Proof.
  intros Hv. destruct entry as [k mt]. unfold updateSession.
  apply writes_only_bind; [apply writes_only_getSession|]. intros found.
  apply writes_only_bind; [apply writes_only_getSessionHandler|]. intros h.
  apply writes_only_asSession; [done|]. intros s.
  apply writes_only_bind.
  { unfold switchVideo. destruct (MediaToUpdate.video mt); [|apply writes_only_ret].
    destruct videoDevices; [done|apply writes_only_ret]. }
  intros v. apply writes_only_bind.
  { unfold switchAudio. destruct (MediaToUpdate.audio mt); [|apply writes_only_ret].
    destruct audioDevices; [|apply writes_only_ret].
    apply writes_only_bind; [by apply writes_only_emit|]. intros _.
    apply writes_only_bind; [by apply writes_only_emit|]. intros _.
    apply writes_only_bind; [|intros _; apply writes_only_ret].
    apply writes_only_forEach. intros sender. by apply dropSender_writes_only. }
  intros a. apply writes_only_when. by apply writes_only_emit.
Qed.

(** Without a microphone left, no turn of the second loop asks for an audio
    switch. *)
Lemma updateSession_no_audio_switch entry :
  audioDevices = [] → writes_only (λ e, is_audio_switch e = false) (updateSession' entry).
Proof.
  intros Ha. destruct entry as [k mt]. unfold updateSession.
  apply writes_only_bind; [apply writes_only_getSession|]. intros found.
  apply writes_only_bind; [apply writes_only_getSessionHandler|]. intros h.
  apply writes_only_asSession; [done|]. intros s.
  apply writes_only_bind.
  { unfold switchVideo. destruct (MediaToUpdate.video mt); [|apply writes_only_ret].
    destruct videoDevices; [|apply writes_only_ret].
    apply writes_only_bind; [by apply writes_only_emit|]. intros _.
    apply writes_only_bind; [by apply writes_only_emit|]. intros _.
    apply writes_only_ret. }
  intros v. apply (writes_only_bind_post _ (λ a, a = None)).
  { intros m. unfold switchAudio. rewrite Ha.
    destruct (MediaToUpdate.audio mt).
    - split.
      + apply writes_only_bind; [by apply writes_only_emit|]. intros _.
        apply writes_only_bind; [by apply writes_only_emit|]. intros _.
        apply writes_only_bind; [|intros _; apply writes_only_ret].
        apply writes_only_forEach. intros sender. by apply dropSender_writes_only.
      + intros a. unfold bind, log, emit, ret, result_of. simpl.
        destruct (forEach _ _ m) as [[m1 t1] [[]|e]]; simpl; congruence.
    - split; [constructor|]. intros a [= <-]. done. }
  intros a ->. apply writes_only_when. apply writes_only_emit. simpl.
  destruct v as [[| |]|]; done.
Qed.

Lemma validate_writes_only P :
  (∀ e, is_Log e = true → P e) →
  (∀ entry, writes_only P (updateSession' entry)) →
  writes_only P (updateOutput' (DeviceBool true)) →
  writes_only P validate'.
Proof.
  intros Hlog Hupd Hout. unfold validateOutgoingMediaTracks.
  apply writes_only_bind; [intros m; constructor|]. intros sessions.
  apply writes_only_bind.
  { apply writes_only_forEach_in. intros e He. apply writes_only_emit. apply Hlog.
    pose proof (scan_logged hasOutputDeviceSupport videoDevices audioDevices outputDevices
                  sessions Scan.init (Forall_nil_2 _)) as Hl.
    rewrite Forall_forall in Hl. by apply Hl. }
  intros _.
  assert (Hrun : ∀ updates flag,
            writes_only P (forEach updateSession' updates ;> when flag (updateOutput' (DeviceBool true)))).
  { intros updates flag. apply writes_only_bind; [by apply writes_only_forEach|].
    intros _. by apply writes_only_when. }
  destruct (Scan.updates (scan' sessions)) as [|u us]; [|apply Hrun].
  destruct (Scan.updateOutputDeviceForAllSessions (scan' sessions)); [apply Hrun|].
  by apply writes_only_log.
Qed.

(** With a non-empty plan and well-formed sessions, every turn of the second
    loop runs, and what it writes is part of the trace of the pass. *)
Lemma validate_runs_plan m s mt e :
  sessions_indexed m → handlers_resolve m → outbound_attached m →
  s ∈ activeSessions m →
  (IJingleSession.id s, mt) ∈ Scan.updates (scan' (activeSessions m)) →
  e ∈ trace_of (updateSession' (IJingleSession.id s, mt) m) →
  e ∈ trace_of (validate' m).
Proof.
  intros Hidx Hres Hout Hs Hentry He. unfold validateOutgoingMediaTracks.
  rewrite (bind_ok _ _ _ _ _ _ (getAllActiveSessions_run m)).
  rewrite (bind_ok _ _ _ _ _ _ (forEach_emit _ m)).
  destruct (forEach_all_ok updateSession' (Scan.updates (scan' (activeSessions m))) m)
    as (t & Hrun & Hin).
  { intros [k v] Hkv.
    destruct (scan_keys hasOutputDeviceSupport videoDevices audioDevices outputDevices
                (λ k, ∃ s', s' ∈ activeSessions m ∧ IJingleSession.id s' = k)
                (activeSessions m) Scan.init) with (k := k) (v := v) as (s' & Hs' & <-).
    - intros s0 Hs0. by exists s0.
    - intros k0 v0 H0. by apply elem_of_nil in H0.
    - exact Hkv.
    - destruct (active_session_indexed m s' Hidx Hs') as [Ht Hl].
      destruct (handler_resolved m s' Hres Hs') as [h Hh].
      unfold outbound_attached in Hout. rewrite Forall_forall in Hout.
      destruct (updateSession_ok m s' h v Ht Hl Hh (Hout s' Hs')) as (t & Ht' & _).
      by exists t. }
  specialize (Hin _ e Hentry He).
  destruct (Scan.updates (scan' (activeSessions m))) as [|u us] eqn:Hu.
  { by apply elem_of_nil in Hentry. }
  rewrite (bind_ok _ _ _ _ _ _ Hrun).
  destruct (when _ _ m) as [[m2 t2] r2]. unfold trace_of. simpl.
  apply elem_of_app. right. apply elem_of_app. by left.
Qed.

(** C5. In a pass where an active session has an outgoing audio track whose
    device is gone and the inventory has no audio input left, the pass asks
    for no audio switch at all; and, the sessions being kept under their ids
    with a handler each and an outbound stream where they send audio, the
    owning handler is asked to mute the audio of that session and every
    track of an audio sender of the session is stopped, removed from the
    session and taken off its outbound stream. *)
Theorem reconcile_without_microphone_mutes_and_drops
    (m : SessionManager.t) (s : IJingleSession.t) (tr : MediaStreamTrack.t) :
  s ∈ activeSessions m →
  tr ∈ outgoingTracks s →
  MediaStreamTrack.kind tr = TrackKind.audio →
  deviceExists' tr = false →
  audioDevices = [] →
  (∀ e, e ∈ trace_of (validate' m) → is_audio_switch e = false)
  ∧ (sessions_indexed m → handlers_resolve m → outbound_attached m →
     ∃ h, getSessionHandler (by_jingleSession s) m = (m, [], Ok h)
          ∧ HandlerSetAudioMute (BaseSessionHandler.sessionType h) (IJingleSession.id s) true
              ∈ trace_of (validate' m)
          ∧ (∀ sender t', sender ∈ IJingleSession.getSenders s →
               RTCRtpSender.track sender = Some t' →
               MediaStreamTrack.kind t' = TrackKind.audio →
               TrackStop (IJingleSession.id s) t' ∈ trace_of (validate' m)
               ∧ HandlerRemoveMediaFromSession (BaseSessionHandler.sessionType h)
                   (IJingleSession.id s) t' ∈ trace_of (validate' m)
               ∧ OutboundStreamRemoveTrack (IJingleSession.id s) t'
                   ∈ trace_of (validate' m))).
Proof.
  intros Hs Htr Hkind Hmissing Hnone. split.
  - intros e He.
    assert (Hw : writes_only (λ e, is_audio_switch e = false) validate').
    { apply validate_writes_only.
      - by intros [].
      - intros entry. by apply updateSession_no_audio_switch.
      - apply updateOutput_writes_only; [by intros []|done]. }
    specialize (Hw m). rewrite Forall_forall in Hw. by apply Hw.
  - intros Hidx Hres Hout.
    destruct (handler_resolved m s Hres Hs) as [h Hh]. exists h. split; [done|].
    destruct (scan_flags hasOutputDeviceSupport videoDevices audioDevices outputDevices
                (activeSessions m) Scan.init s tr Hs Htr Hmissing) as (mt & Hget & Hflag).
    rewrite Hkind in Hflag. simpl in Hflag.
    apply updates_get_elem in Hget.
    destruct (active_session_indexed m s Hidx Hs) as [Ht Hl].
    pose proof Hout as Hout'. unfold outbound_attached in Hout'.
    rewrite Forall_forall in Hout'.
    destruct (updateSession_ok m s h mt Ht Hl Hh (Hout' s Hs)) as (t & Hrun & _ & Haud).
    destruct (Haud Hflag Hnone) as [Hmute Hdrop].
    assert (Hpass : ∀ e, e ∈ t → e ∈ trace_of (validate' m)).
    { intros e He. apply (validate_runs_plan m s mt e); try done. by rewrite Hrun. }
    split; [by apply Hpass|].
    intros sender t' Hsender Htrack Hk.
    destruct (Hdrop sender t' Hsender Htrack Hk) as (H1 & H2 & H3).
    repeat split; by apply Hpass.
Qed.

(** C6. In a pass where an active session has an outgoing video track whose
    device is gone while the inventory still has a video input, the pass
    mutes no video; and, the sessions being kept under their ids with a
    handler each and an outbound stream where they send audio, it asks the
    SDK to update the outgoing media of that session with the video
    selector [true] (pick any). *)
Theorem reconcile_with_camera_left_switches_video
    (m : SessionManager.t) (s : IJingleSession.t) (tr : MediaStreamTrack.t) :
  s ∈ activeSessions m →
  tr ∈ outgoingTracks s →
  MediaStreamTrack.kind tr = TrackKind.video →
  deviceExists' tr = false →
  videoDevices ≠ [] →
  (∀ e, e ∈ trace_of (validate' m) → is_video_mute e = false)
  ∧ (sessions_indexed m → handlers_resolve m → outbound_attached m →
     ∃ a, SdkUpdateOutgoingMedia
            (IUpdateOutgoingMedia.mk (IJingleSession.id s) (Some (DeviceBool true)) a)
            ∈ trace_of (validate' m)).
Proof.
  intros Hs Htr Hkind Hmissing Hsome. split.
  - intros e He.
    assert (Hw : writes_only (λ e, is_video_mute e = false) validate').
    { apply validate_writes_only.
      - by intros [].
      - intros entry. by apply updateSession_no_video_mute.
      - apply updateOutput_writes_only; [by intros []|done]. }
    specialize (Hw m). rewrite Forall_forall in Hw. by apply Hw.
  - intros Hidx Hres Hout.
    destruct (handler_resolved m s Hres Hs) as [h Hh].
    destruct (scan_flags hasOutputDeviceSupport videoDevices audioDevices outputDevices
                (activeSessions m) Scan.init s tr Hs Htr Hmissing) as (mt & Hget & Hflag).
    rewrite Hkind in Hflag. simpl in Hflag.
    apply updates_get_elem in Hget.
    destruct (active_session_indexed m s Hidx Hs) as [Ht Hl].
    pose proof Hout as Hout'. unfold outbound_attached in Hout'.
    rewrite Forall_forall in Hout'.
    destruct (updateSession_ok m s h mt Ht Hl Hh (Hout' s Hs)) as (t & Hrun & Hvid & _).
    destruct (Hvid Hflag Hsome) as [a Ha]. exists a.
    apply (validate_runs_plan m s mt); try done. by rewrite Hrun.
Qed.

Lemma outputDevicePresent_not_missing s :
  outputDevicePresent outputDevices s = true →
  outputDeviceMissing hasOutputDeviceSupport outputDevices s = false.
Proof.
  unfold outputDevicePresent, outputDeviceMissing.
  destruct (IJingleSession._outputAudioElement s); [|done].
  intros ->. by rewrite andb_false_r.
Qed.

(** C7. A pass in which every outgoing track of every active session (the
    tracks of a screen-share stream left aside) still has its device, and
    every output device a session has selected is still in the inventory,
    completes, leaves the manager as it was and writes log lines only: no
    media switch, no mute, no track removal, no output-device update. *)
Theorem reconcile_nothing_missing_is_noop (m : SessionManager.t) :
  Forall (λ s, forallb deviceExists' (outgoingTracks s) = true
               ∧ outputDevicePresent outputDevices s = true) (activeSessions m) →
  ∃ t, validate' m = (m, t, Ok tt) ∧ forallb is_Log t = true.
Proof.
  intros Hall. unfold validateOutgoingMediaTracks.
  rewrite (bind_ok _ _ _ _ _ _ (getAllActiveSessions_run m)).
  rewrite (bind_ok _ _ _ _ _ _ (forEach_emit _ m)).
  destruct (scan_nothing_missing hasOutputDeviceSupport videoDevices audioDevices
              outputDevices (activeSessions m) Scan.init) as [Hu Hf]; [|done|done|].
  { eapply Forall_impl; [exact Hall|]. intros s [H1 H2]. split; [done|].
    by apply outputDevicePresent_not_missing. }
  unfold scan. rewrite Hu, Hf. unfold log, emit. simpl.
  eexists. split; [reflexivity|].
  rewrite forallb_app. simpl. rewrite andb_true_r.
  apply forallb_forall. intros e He.
  pose proof (scan_logged hasOutputDeviceSupport videoDevices audioDevices outputDevices
                (activeSessions m) Scan.init (Forall_nil_2 _)) as Hl.
  rewrite Forall_forall in Hl. apply Hl. by apply list_elem_of_In.
Qed.

End ReconcileFacts.

(** ** Bulk output-device update *)

(** The sessions an output-device update is sent to, spelled out on the
    collection. *)
Lemma outputTargets_spelled (m : SessionManager.t) :
  outputTargets m
  = List.filter
      (λ s, match IJingleSession.sessionType s with
            | Some SessionTypes.acdScreenShare => false
            | _ => IJingleSession.active s
            end)
      (map snd (SessionManager.sessions m)).
Proof.
  unfold outputTargets, activeSessions, Object_values.
  induction (map snd (SessionManager.sessions m)) as [|s l IH]; [done|].
  simpl. destruct (IJingleSession.active s) eqn:Ha; simpl.
  - rewrite IH. by destruct (IJingleSession.sessionType s) as [[]|].
  - rewrite IH. by destruct (IJingleSession.sessionType s) as [[]|].
Qed.

(** The handler that owns a session is the first one whose pattern accepts
    the peer of the session. *)
Lemma getSessionHandler_by_peer_find (m : SessionManager.t) (s : IJingleSession.t)
    (h : BaseSessionHandler.t) :
  getSessionHandler (by_jingleSession s) m = (m, [], Ok h) →
  List.find (λ h', BaseSessionHandler.shouldHandleSessionByJid h' (IJingleSession.peerID s))
    (SessionManager.sessionHandlers m) = Some h.
Proof.
  unfold getSessionHandler, bind, get, ret, throwSdkError, throw. simpl.
  destruct (truthy (IJingleSession.peerID s)); simpl; [|done].
  destruct (List.find _ _) as [h'|]; simpl; [|done]. by intros [= ->].
Qed.

Section OutputDeviceFacts.

Variable outputDevices : list MediaDeviceInfo.t.
Variable getValidDeviceId : MediaDeviceKind.t → DeviceSelector → option string.

Local Abbreviation updateOutput' := (updateOutputDeviceForAllSessions getValidDeviceId).
Local Abbreviation resolved' := (resolvedOutputDeviceId getValidDeviceId).

Lemma resolved_spelled (sel : DeviceSelector) :
  resolved' sel
  = match getValidDeviceId MediaDeviceKind.audiooutput sel with
    | Some d => d
    | None => EmptyString
    end.
Proof.
  unfold resolvedOutputDeviceId.
  destruct (getValidDeviceId MediaDeviceKind.audiooutput sel) as [[|c d]|]; done.
Qed.

(** A literal id other than the resolved one makes the update return at its
    guard: the only thing written is the warning. *)
Lemma updateOutputDevice_guard (m : SessionManager.t) (id : string) :
  match getValidDeviceId MediaDeviceKind.audiooutput (DeviceString id) with
  | Some d => d
  | None => EmptyString
  end ≠ id →
  updateOutput' (DeviceString id) m
  = (m, [Log LogLevels.warn "Output deviceId not found. Not updating output media"], Ok tt).
Proof.
  intros Hne. rewrite <- resolved_spelled in Hne. apply String.eqb_neq in Hne.
  unfold updateOutputDeviceForAllSessions. by rewrite Hne.
Qed.

(** A literal id that is not empty and is not in the output inventory is
    stopped at the guard. *)
Lemma updateOutputDevice_literal_outside_inventory (m : SessionManager.t) (id : string) :
  resolves_valid getValidDeviceId outputDevices →
  truthy id = true →
  (id ∉ map MediaDeviceInfo.deviceId outputDevices) →
  updateOutput' (DeviceString id) m
  = (m, [Log LogLevels.warn "Output deviceId not found. Not updating output media"], Ok tt).
Proof.
  intros Hvalid Hid Hnotin. apply updateOutputDevice_guard.
  destruct (getValidDeviceId MediaDeviceKind.audiooutput (DeviceString id)) as [d|] eqn:Hd.
  - intros ->. apply Hnotin. by apply (Hvalid (DeviceString id)).
  - intros <-. done.
Qed.

Lemma fanOut_run (m : SessionManager.t) (deviceId : string) (targets : list IJingleSession.t) :
  Forall (λ s, is_Ok (result_of (getSessionHandler (by_jingleSession s) m)) = true) targets →
  ∃ t, forEach
         (λ session,
            let* handler := getSessionHandler (by_jingleSession session) in
            emit (HandlerUpdateOutputDevice (BaseSessionHandler.sessionType handler)
                    (IJingleSession.id session) deviceId))
         targets m = (m, t, Ok tt)
       ∧ Forall2
           (λ s e, ∃ h, getSessionHandler (by_jingleSession s) m = (m, [], Ok h)
                        ∧ e = HandlerUpdateOutputDevice (BaseSessionHandler.sessionType h)
                                (IJingleSession.id s) deviceId)
           targets t.
Proof.
  induction targets as [|s targets IH]; intros Hres.
  - exists []. split; [done|constructor].
  - apply Forall_cons in Hres as [Hs Hres]. destruct (IH Hres) as (t & Hrun & Hall).
    destruct (getSessionHandler_frame (by_jingleSession s) m) as [r Hr].
    rewrite Hr in Hs. destruct r as [h|e]; [|done].
    assert (Hturn : (let* handler := getSessionHandler (by_jingleSession s) in
                     emit (HandlerUpdateOutputDevice (BaseSessionHandler.sessionType handler)
                             (IJingleSession.id s) deviceId)) m
                    = (m, [HandlerUpdateOutputDevice (BaseSessionHandler.sessionType h)
                             (IJingleSession.id s) deviceId], Ok tt)).
    { unfold bind. rewrite Hr. reflexivity. }
    eexists. split.
    + simpl. rewrite (bind_ok _ _ _ _ _ _ Hturn), Hrun. reflexivity.
    + constructor; [|exact Hall]. by exists h.
Qed.

(** Past the guard, with a handler for every active session: the update is
    logged, and the first handler that accepts the peer of each active
    session that is not a screen share is asked, in the order of the
    collection, to use the resolved id. *)
Lemma updateOutputDevice_past_guard (m : SessionManager.t) (sel : DeviceSelector) :
  match sel with
  | DeviceString id => resolved' sel = id
  | _ => True
  end →
  handlers_resolve m →
  ∃ t, updateOutput' sel m
       = (m, Log LogLevels.info "Updating output deviceId for all active sessions" :: t, Ok tt)
       ∧ Forall2
           (λ s e,
              ∃ h, List.find
                     (λ h', BaseSessionHandler.shouldHandleSessionByJid h'
                              (IJingleSession.peerID s))
                     (SessionManager.sessionHandlers m) = Some h
                   ∧ e = HandlerUpdateOutputDevice (BaseSessionHandler.sessionType h)
                           (IJingleSession.id s)
                           match getValidDeviceId MediaDeviceKind.audiooutput sel with
                           | Some d => d
                           | None => EmptyString
                           end)
           (List.filter
              (λ s, match IJingleSession.sessionType s with
                    | Some SessionTypes.acdScreenShare => false
                    | _ => IJingleSession.active s
                    end)
              (map snd (SessionManager.sessions m)))
           t.
Proof.
  intros Hsel Hres.
  assert (Htargets : Forall (λ s, is_Ok (result_of (getSessionHandler (by_jingleSession s) m))
                                  = true) (outputTargets m)).
  { unfold handlers_resolve in Hres. rewrite Forall_forall in Hres |- *.
    intros s Hs. apply Hres. unfold outputTargets in Hs.
    apply list_elem_of_In, filter_In in Hs as [Hs _]. by apply list_elem_of_In. }
  destruct (fanOut_run m (resolved' sel) (outputTargets m) Htargets) as (t & Hrun & Hall).
  exists t. split.
  - unfold updateOutputDeviceForAllSessions. unfold outputTargets in Hrun.
    assert (Hguard : match sel with
                     | DeviceString s => negb (String.eqb (resolved' sel) s)
                     | _ => false
                     end = false).
    { destruct sel as [id| |]; [|done..]. rewrite Hsel. by rewrite String.eqb_refl. }
    rewrite Hguard.
    rewrite (bind_ok _ _ _ _ _ _ (getAllActiveSessions_run m)).
    rewrite (bind_ok _ _ _ _ _ _
               (eq_refl : log LogLevels.info _ m = (m, [Log LogLevels.info _], Ok tt))).
    rewrite Hrun. reflexivity.
  - rewrite <- outputTargets_spelled, <- resolved_spelled.
    eapply Forall2_impl; [exact Hall|].
    intros s e (h & Hh & ->). exists h. split; [|done].
    by apply getSessionHandler_by_peer_find.
Qed.

(** C8. The claim fails on the code for the empty literal when no output
    device is resolved: [getValidDeviceId(...) || ''] is then the argument
    itself, the guard that is to stop an id that was not found does not
    fire, and every active session that is not a screen share is asked to
    use the empty id, although the empty string is the id of no device. *)
Theorem updateOutputDevice_empty_literal_passes_guard (m : SessionManager.t) :
  getValidDeviceId MediaDeviceKind.audiooutput (DeviceString EmptyString) = None →
  handlers_resolve m →
  ∃ t, updateOutput' (DeviceString EmptyString) m
       = (m, Log LogLevels.info "Updating output deviceId for all active sessions" :: t, Ok tt)
       ∧ Forall2
           (λ s e,
              ∃ h, List.find
                     (λ h', BaseSessionHandler.shouldHandleSessionByJid h'
                              (IJingleSession.peerID s))
                     (SessionManager.sessionHandlers m) = Some h
                   ∧ e = HandlerUpdateOutputDevice (BaseSessionHandler.sessionType h)
                           (IJingleSession.id s) EmptyString)
           (List.filter
              (λ s, match IJingleSession.sessionType s with
                    | Some SessionTypes.acdScreenShare => false
                    | _ => IJingleSession.active s
                    end)
              (map snd (SessionManager.sessions m)))
           t.
Proof.
  intros Hnone Hres.
  destruct (updateOutputDevice_past_guard m (DeviceString EmptyString)) as (t & Hrun & Hall);
    [by rewrite resolved_spelled, Hnone|done|].
  exists t. split; [done|]. by rewrite Hnone in Hall.
Qed.

(** C10. Called with anything but a string (the sentinel [true] of the
    reconciliation pass, [false] or [null]), the update never takes the
    not-found return: the warning of that return is not written.  And, every
    active session having a handler, it logs the update and asks the owning
    handler of every active session whose type is not [acdScreenShare], in
    the order of the collection and of no other session, to use the id that
    [getValidDeviceId] resolved, or the empty string when it resolved
    none. *)
Theorem updateOutputDevice_sentinel_fans_out (m : SessionManager.t) (sel : DeviceSelector) :
  (∀ id, sel ≠ DeviceString id) →
  (∀ e, e ∈ trace_of (updateOutput' sel m) →
        e ≠ Log LogLevels.warn "Output deviceId not found. Not updating output media")
  ∧ (handlers_resolve m →
     ∃ t, updateOutput' sel m
          = (m, Log LogLevels.info "Updating output deviceId for all active sessions" :: t,
             Ok tt)
          ∧ Forall2
              (λ s e,
                 ∃ h, List.find
                        (λ h', BaseSessionHandler.shouldHandleSessionByJid h'
                                 (IJingleSession.peerID s))
                        (SessionManager.sessionHandlers m) = Some h
                      ∧ e = HandlerUpdateOutputDevice (BaseSessionHandler.sessionType h)
                              (IJingleSession.id s)
                              match getValidDeviceId MediaDeviceKind.audiooutput sel with
                              | Some d => d
                              | None => EmptyString
                              end)
              (List.filter
                 (λ s, match IJingleSession.sessionType s with
                       | Some SessionTypes.acdScreenShare => false
                       | _ => IJingleSession.active s
                       end)
                 (map snd (SessionManager.sessions m)))
              t).
Proof.
  intros Hsel. split.
  - assert (Hw : writes_only
                   (λ e, e ≠ Log LogLevels.warn
                               "Output deviceId not found. Not updating output media")
                   (updateOutput' sel)).
    { unfold updateOutputDeviceForAllSessions.
      destruct sel as [id| |]; [by destruct (Hsel id)| |]; lazy beta iota zeta;
        (apply writes_only_bind; [intros m'; constructor|]; intros active;
         apply writes_only_bind; [by apply writes_only_emit|]; intros _;
         apply writes_only_forEach; intros s;
         apply writes_only_bind; [apply writes_only_getSessionHandler|]; intros h;
         by apply writes_only_emit). }
    intros e He. specialize (Hw m). rewrite Forall_forall in Hw. by apply Hw.
  - intros Hres. apply updateOutputDevice_past_guard; [|done].
    destruct sel as [id| |]; [by destruct (Hsel id)|done..].
Qed.

End OutputDeviceFacts.

(** ** Softphone handler: participant resolution and ending a session *)

Module SoftphoneFacts.
Import SoftphoneSessionHandler.

Lemma forUser_spec env participants :
  Forall (λ p, IConversationParticipant.userId p = Some (personDetails_id env))
    (forUser env participants).
Proof.
  apply Forall_forall. intros p Hp. unfold forUser in Hp.
  apply list_elem_of_In, filter_In in Hp as [_ Hp].
  destruct (IConversationParticipant.userId p) as [u|]; [|done].
  by apply String.eqb_eq in Hp as ->.
Qed.

Lemma getParticipant_cached env s p :
  IJingleSession.pcParticipant s = Some p →
  getParticipantForSession env s = (s, [], Fulfilled p).
Proof.
  intros Hp. unfold getParticipantForSession, abind, this_session, aret. by rewrite Hp.
Qed.

(** The body of the fetch branch, run on a session without a cached
    participant once the REST answer [body] is in. *)
Lemma getParticipant_fetch env s body :
  IJingleSession.pcParticipant s = None →
  getCall env = Fulfilled body →
  getParticipantForSession env s
  = let participantsForUser := forUser env (map toParticipant body) in
    let fetch := RequestApi "get" (callPath s) NoData in
    let none :=
      (s, [fetch],
       Rejected (createAndEmitSdkError SdkErrorTypes.generic
                   "Failed to find a participant for session" (sessionContext s))) in
    match participantsForUser with
    | [] => none
    | [p] => (withParticipant p s, [fetch], Fulfilled p)
    | _ :: _ :: _ =>
        match connected participantsForUser with
        | [p] => (withParticipant p s, [fetch], Fulfilled p)
        | _ =>
            (s, [fetch],
             Rejected (createAndEmitSdkError SdkErrorTypes.generic
                         "Failed to find a connected participant for user on conversation"
                         (sessionContext s)))
        end
    end.
Proof.
  intros Hnone Hcall.
  unfold getParticipantForSession, abind, this_session, aemit, await, athrow, aret,
    set_pcParticipant.
  rewrite Hnone, Hcall. lazy zeta.
  destruct (forUser env (map toParticipant body)) as [|p1 [|p2 rest]]; [done|done|].
  change (Nat.eqb (length (p1 :: p2 :: rest)) 1) with false.
  change (Nat.ltb 1 (length (p1 :: p2 :: rest))) with true.
  lazy iota.
  destruct (connected (p1 :: p2 :: rest)) as [|q1 [|q2 qs]]; done.
Qed.

Lemma filter_map_comm {A B} (f : A → B) (P : B → bool) (l : list A) :
  List.filter P (map f l) = map f (List.filter (λ a, P (f a)) l).
Proof.
  induction l as [|a l IH]; [done|]. simpl. destruct (P (f a)); simpl; by rewrite IH.
Qed.

(** The two narrowings, on the records as the REST body carries them. *)
Lemma forUser_raw env (body : list RawParticipant) :
  forUser env (map toParticipant body)
  = map toParticipant
      (List.filter
         (λ r, match raw_user r with
               | Some u => String.eqb (user_id u) (personDetails_id env)
               | None => false
               end)
         body).
Proof.
  unfold forUser. rewrite filter_map_comm. f_equal.
  apply filter_ext. intros r. simpl. by destruct (raw_user r).
Qed.

Lemma connected_raw (l : list RawParticipant) :
  connected (map toParticipant l)
  = map toParticipant (List.filter (λ r, String.eqb (raw_state r) "connected") l).
Proof. unfold connected. by rewrite filter_map_comm. Qed.

(** C9. For a session without a cached participant, the fetched list is
    narrowed to the records whose user is the local user.  One record is the
    answer; several are narrowed to those in state "connected", and unless
    exactly one is left the call is rejected with a [generic] error, none
    being picked and nothing cached; no record at all is rejected likewise.
    The answer carries the picked fields of the record and the id of its
    user; it is stored on the session, and a later call on that session
    returns it without any request, whatever the REST service would say
    then. *)
Theorem getParticipantForSession_resolution
    (env : Env) (s : IJingleSession.t) (body : list RawParticipant) :
  IJingleSession.pcParticipant s = None →
  getCall env = Fulfilled body →
  let mine :=
    List.filter
      (λ r, match raw_user r with
            | Some u => String.eqb (user_id u) (personDetails_id env)
            | None => false
            end)
      body in
  let connectedOnes := List.filter (λ r, String.eqb (raw_state r) "connected") mine in
  let picked r :=
    IConversationParticipant.mk (raw_id r) (raw_address r) (raw_purpose r) (raw_state r)
      (raw_direction r) (user_id <$> raw_user r) (raw_muted r) (raw_confined r) in
  let caching p :=
    IJingleSession.mk (IJingleSession.id s) (IJingleSession.peerID s)
      (IJingleSession.conversationId s) (IJingleSession.sessionType s)
      (IJingleSession.active s) (IJingleSession.getSenders s) (Some p)
      (IJingleSession._outboundStream s) (IJingleSession._screenShareStream s)
      (IJingleSession._outputAudioElement s) in
  let fetch :=
    RequestApi "get"
      (String.append "/conversations/calls/" (IJingleSession.conversationId s)) NoData in
  let context :=
    ConversationContext (IJingleSession.conversationId s) (Some (IJingleSession.id s)) in
  (∀ r, mine = [r] ∨ ((1 < length mine)%nat ∧ connectedOnes = [r]) →
        getParticipantForSession env s = (caching (picked r), [fetch], Fulfilled (picked r))
        ∧ ∀ env', getParticipantForSession env' (caching (picked r))
                  = (caching (picked r), [], Fulfilled (picked r)))
  ∧ ((1 < length mine)%nat →
     length connectedOnes ≠ 1%nat →
     getParticipantForSession env s
     = (s, [fetch],
        Rejected (SdkError SdkErrorTypes.generic
                    "Failed to find a connected participant for user on conversation"
                    context)))
  ∧ (mine = [] →
     getParticipantForSession env s
     = (s, [fetch],
        Rejected (SdkError SdkErrorTypes.generic "Failed to find a participant for session"
                    context))).
Proof.
  intros Hnone Hcall mine connectedOnes picked caching fetch context.
  pose proof (getParticipant_fetch env s body Hnone Hcall) as Hrun.
  lazy zeta in Hrun. rewrite forUser_raw in Hrun. fold mine in Hrun.
  split; [|split].
  - intros r Hr. split; [|intros env'; by apply getParticipant_cached].
    rewrite Hrun. destruct Hr as [->|[Hlen Hconn]]; [done|].
    destruct mine as [|r1 [|r2 rest]] eqn:Hmine; simpl in Hlen; [lia|lia|].
    change (toParticipant r1 :: toParticipant r2 :: map toParticipant rest)
      with (map toParticipant (r1 :: r2 :: rest)).
    rewrite connected_raw. fold connectedOnes. by rewrite Hconn.
  - intros Hlen Hconn. rewrite Hrun.
    destruct mine as [|r1 [|r2 rest]] eqn:Hmine; simpl in Hlen; [lia|lia|].
    change (toParticipant r1 :: toParticipant r2 :: map toParticipant rest)
      with (map toParticipant (r1 :: r2 :: rest)).
    rewrite connected_raw. fold connectedOnes.
    destruct connectedOnes as [|q1 [|q2 qs]]; done.
  - intros Hnil. rewrite Hrun, Hnil. done.
Qed.



(** An end that was rejected is a rejected direct end. *)
Lemma directEnd_rejected env s e :
  directEnd env s = Rejected e →
  e = SdkError SdkErrorTypes.session "Failed to end session directly"
        (ConversationContext (IJingleSession.conversationId s) None)
  ∧ ∃ e', superEndSession env = Rejected e'.
Proof.
  unfold directEnd. destruct (superEndSession env) as [[]|e'|]; [done| |done].
  intros [= <-]. eauto.
Qed.


End SoftphoneFacts.

(** ** The statements at work on example data *)

Lemma twoCalls_indexed : sessions_indexed Examples.twoCalls.
Proof.
  split.
  - simpl. apply NoDup_cons. split; [|apply NoDup_singleton].
    intros H. apply list_elem_of_singleton in H. discriminate.
  - repeat constructor.
Qed.

Lemma twoCalls_resolve : handlers_resolve Examples.twoCalls.
Proof. repeat constructor. Qed.

Lemma twoCalls_outbound : outbound_attached Examples.twoCalls.
Proof.
  unfold outbound_attached.
  change (activeSessions Examples.twoCalls)
    with [Examples.softphoneSession "s1"; Examples.videoSession "s2"].
  apply Forall_cons. split; [right; by eexists|].
  apply Forall_cons. split; [right; by eexists|constructor].
Qed.

Lemma first_call_active : Examples.softphoneSession "s1" ∈ activeSessions Examples.twoCalls.
Proof. left. Qed.

Lemma second_call_active : Examples.videoSession "s2" ∈ activeSessions Examples.twoCalls.
Proof. right. left. Qed.

Lemma resolveFrom_valid (outputDevices : list MediaDeviceInfo.t) :
  resolves_valid (Examples.resolveFrom outputDevices) outputDevices.
Proof.
  intros sel d. unfold Examples.resolveFrom.
  assert (Hhead : ∀ d', head outputDevices = Some d' → d' ∈ outputDevices).
  { intros d' H. destruct outputDevices; [done|]. injection H as ->. left. }
  assert (Hfind : ∀ s d', List.find (λ d0, String.eqb (MediaDeviceInfo.deviceId d0) s)
                            outputDevices = Some d' → d' ∈ outputDevices).
  { intros s d' H. apply find_some in H as [H _]. by apply list_elem_of_In. }
  intros H. apply fmap_Some in H as (d' & Hd' & ->).
  apply list_elem_of_fmap_2.
  destruct sel as [s| |]; [|by apply Hhead..].
  destruct (List.find _ _) as [d0|] eqn:Hf; [|by apply Hhead].
  injection Hd' as <-. by eapply Hfind.
Qed.

Lemma reconcile_without_microphone_mutes_and_drops_witness :
  (∀ e, e ∈ trace_of Examples.passWithoutMicrophone → is_audio_switch e = false)
  ∧ ∃ h, getSessionHandler (by_jingleSession (Examples.softphoneSession "s1"))
           Examples.twoCalls = (Examples.twoCalls, [], Ok h)
         ∧ HandlerSetAudioMute (BaseSessionHandler.sessionType h) "s1" true
             ∈ trace_of Examples.passWithoutMicrophone
         ∧ (∀ sender t',
              sender ∈ IJingleSession.getSenders (Examples.softphoneSession "s1") →
              RTCRtpSender.track sender = Some t' →
              MediaStreamTrack.kind t' = TrackKind.audio →
              TrackStop "s1" t' ∈ trace_of Examples.passWithoutMicrophone
              ∧ HandlerRemoveMediaFromSession (BaseSessionHandler.sessionType h) "s1" t'
                  ∈ trace_of Examples.passWithoutMicrophone
              ∧ OutboundStreamRemoveTrack "s1" t' ∈ trace_of Examples.passWithoutMicrophone).
Proof.
  destruct (reconcile_without_microphone_mutes_and_drops true [Examples.builtinCamera] []
              [Examples.speaker] (Examples.resolveFrom [Examples.speaker])
              Examples.twoCalls (Examples.softphoneSession "s1") Examples.microphone)
    as [Hnone Hdone].
  - exact first_call_active.
  - left.
  - reflexivity.
  - reflexivity.
  - reflexivity.
  - split; [exact Hnone|].
    exact (Hdone twoCalls_indexed twoCalls_resolve twoCalls_outbound).
Defined.

Lemma reconcile_with_camera_left_switches_video_witness :
  (∀ e, e ∈ trace_of Examples.passWithOtherCamera → is_video_mute e = false)
  ∧ ∃ a, SdkUpdateOutgoingMedia (IUpdateOutgoingMedia.mk "s2" (Some (DeviceBool true)) a)
           ∈ trace_of Examples.passWithOtherCamera.
Proof.
  destruct (reconcile_with_camera_left_switches_video true [Examples.webcam]
              [Examples.builtinMicrophone] [Examples.speaker]
              (Examples.resolveFrom [Examples.speaker])
              Examples.twoCalls (Examples.videoSession "s2") Examples.camera)
    as [Hnone Hdone].
  - exact second_call_active.
  - right. left.
  - reflexivity.
  - reflexivity.
  - discriminate.
  - split; [exact Hnone|].
    exact (Hdone twoCalls_indexed twoCalls_resolve twoCalls_outbound).
Defined.

Lemma reconcile_nothing_missing_is_noop_witness :
  ∃ t, Examples.passWithAllDevices = (Examples.twoCalls, t, Ok tt)
       ∧ forallb is_Log t = true.
Proof.
  apply (reconcile_nothing_missing_is_noop true [Examples.builtinCamera]
           [Examples.builtinMicrophone] [Examples.speaker]
           (Examples.resolveFrom [Examples.speaker]) Examples.twoCalls).
  repeat constructor.
Defined.

Lemma mixedCalls_resolve : handlers_resolve MoreExamples.mixedCalls.
Proof. repeat constructor. Qed.

(** The guard at work: a literal id that is not in the inventory. *)
Example updateOutputDevice_unknown_literal_run :
  updateOutputDeviceForAllSessions (Examples.resolveFrom [Examples.speaker])
    (DeviceString "speaker-9") Examples.twoCalls
  = (Examples.twoCalls,
     [Log LogLevels.warn "Output deviceId not found. Not updating output media"], Ok tt).
Proof. reflexivity. Qed.

(** The empty literal with nothing to resolve: both calls are asked to use
    the empty id. *)
Example updateOutputDevice_empty_literal_run :
  updateOutputDeviceForAllSessions (Examples.resolveFrom []) (DeviceString EmptyString)
    Examples.twoCalls
  = (Examples.twoCalls,
     [Log LogLevels.info "Updating output deviceId for all active sessions";
      HandlerUpdateOutputDevice SessionTypes.softphone "s1" EmptyString;
      HandlerUpdateOutputDevice SessionTypes.collaborateVideo "s2" EmptyString],
     Ok tt).
Proof. reflexivity. Qed.

Lemma updateOutputDevice_empty_literal_passes_guard_witness :
  Examples.resolveFrom [] MediaDeviceKind.audiooutput (DeviceString EmptyString) = None
  ∧ handlers_resolve Examples.twoCalls
  ∧ ∃ t, updateOutputDeviceForAllSessions (Examples.resolveFrom []) (DeviceString EmptyString)
           Examples.twoCalls
         = (Examples.twoCalls,
            Log LogLevels.info "Updating output deviceId for all active sessions" :: t, Ok tt)
         ∧ Forall2
             (λ s e,
                ∃ h, List.find
                       (λ h', BaseSessionHandler.shouldHandleSessionByJid h'
                                (IJingleSession.peerID s))
                       Examples.handlers = Some h
                     ∧ e = HandlerUpdateOutputDevice (BaseSessionHandler.sessionType h)
                             (IJingleSession.id s) EmptyString)
             [Examples.softphoneSession "s1"; Examples.videoSession "s2"] t.
Proof.
  split; [reflexivity|]. split; [exact twoCalls_resolve|].
  exact (updateOutputDevice_empty_literal_passes_guard (Examples.resolveFrom [])
           Examples.twoCalls eq_refl twoCalls_resolve).
Defined.

(** The sentinel on a collection with a screen share and an ended session:
    the softphone call alone is asked, with the resolved id, and with the
    empty id when there is no output device. *)
Example updateOutputDevice_sentinel_run :
  updateOutputDeviceForAllSessions (Examples.resolveFrom [Examples.speaker]) (DeviceBool true)
    MoreExamples.mixedCalls
  = (MoreExamples.mixedCalls,
     [Log LogLevels.info "Updating output deviceId for all active sessions";
      HandlerUpdateOutputDevice SessionTypes.softphone "s1" "speaker-1"],
     Ok tt)
  ∧ updateOutputDeviceForAllSessions (Examples.resolveFrom []) DeviceNull
      MoreExamples.mixedCalls
    = (MoreExamples.mixedCalls,
       [Log LogLevels.info "Updating output deviceId for all active sessions";
        HandlerUpdateOutputDevice SessionTypes.softphone "s1" EmptyString],
       Ok tt).
Proof. split; reflexivity. Qed.

Lemma updateOutputDevice_sentinel_fans_out_witness :
  (∀ id, DeviceBool true ≠ DeviceString id)
  ∧ (∀ e, e ∈ trace_of (updateOutputDeviceForAllSessions
                          (Examples.resolveFrom [Examples.speaker]) (DeviceBool true)
                          MoreExamples.mixedCalls) →
          e ≠ Log LogLevels.warn "Output deviceId not found. Not updating output media")
  ∧ ∃ t, updateOutputDeviceForAllSessions (Examples.resolveFrom [Examples.speaker])
           (DeviceBool true) MoreExamples.mixedCalls
         = (MoreExamples.mixedCalls,
            Log LogLevels.info "Updating output deviceId for all active sessions" :: t, Ok tt)
         ∧ Forall2
             (λ s e,
                ∃ h, List.find
                       (λ h', BaseSessionHandler.shouldHandleSessionByJid h'
                                (IJingleSession.peerID s))
                       Examples.handlers = Some h
                     ∧ e = HandlerUpdateOutputDevice (BaseSessionHandler.sessionType h)
                             (IJingleSession.id s) "speaker-1")
             [Examples.softphoneSession "s1"] t.
Proof.
  destruct (updateOutputDevice_sentinel_fans_out (Examples.resolveFrom [Examples.speaker])
              MoreExamples.mixedCalls (DeviceBool true)) as (Hguard & Hfan).
  - discriminate.
  - split; [discriminate|]. split; [exact Hguard|]. exact (Hfan mixedCalls_resolve).
Defined.

Lemma getParticipantForSession_resolution_witness :
  (SoftphoneSessionHandler.getParticipantForSession Examples.twoAgentsEnv
     (Examples.softphoneSession "s1")
   = (SoftphoneSessionHandler.withParticipant Examples.secondAgent
        (Examples.softphoneSession "s1"),
      [RequestApi "get" "/conversations/calls/conversation-1" NoData],
      Fulfilled Examples.secondAgent)
   ∧ ∀ env', SoftphoneSessionHandler.getParticipantForSession env'
               (SoftphoneSessionHandler.withParticipant Examples.secondAgent
                  (Examples.softphoneSession "s1"))
             = (SoftphoneSessionHandler.withParticipant Examples.secondAgent
                  (Examples.softphoneSession "s1"),
                [], Fulfilled Examples.secondAgent))
  ∧ SoftphoneSessionHandler.getParticipantForSession MoreExamples.twoConnectedEnv
      (Examples.softphoneSession "s1")
    = (Examples.softphoneSession "s1",
       [RequestApi "get" "/conversations/calls/conversation-1" NoData],
       Rejected (SdkError SdkErrorTypes.generic
                   "Failed to find a connected participant for user on conversation"
                   (ConversationContext "conversation-1" (Some "s1")))).
Proof.
  split.
  - destruct (SoftphoneFacts.getParticipantForSession_resolution Examples.twoAgentsEnv
                (Examples.softphoneSession "s1") Examples.twoAgents eq_refl eq_refl)
      as (Hfound & _ & _).
    apply (Hfound (Examples.agent "part-2" "connected")).
    right. split; [simpl; lia|reflexivity].
  - destruct (SoftphoneFacts.getParticipantForSession_resolution MoreExamples.twoConnectedEnv
                (Examples.softphoneSession "s1") MoreExamples.twoConnected eq_refl eq_refl)
      as (_ & Hnone & _).
    apply Hnone; [simpl; lia|simpl; lia].
Defined.



(** * Properties of the further entry points and overrides *)

(** ** Lookups *)

Lemma find_first {A} (f : A → bool) (l : list A) (x : A) :
  List.find f l = Some x →
  ∃ before after, l = before ++ x :: after ∧ f x = true
                  ∧ Forall (λ y, f y = false) before.
Proof.
  induction l as [|y l IH]; simpl; [done|].
  destruct (f y) eqn:Hy.
  - intros [= ->]. exists [], l. by repeat split.
  - intros Hfind. destruct (IH Hfind) as (before & after & -> & Hx & Hbefore).
    exists (y :: before), after. repeat split; [done|]. by constructor.
Qed.

Lemma find_none {A} (f : A → bool) (l : list A) :
  List.find f l = None → Forall (λ y, f y = false) l.
Proof.
  induction l as [|y l IH]; simpl; [constructor|].
  destruct (f y) eqn:Hy; [done|]. intros H. constructor; [done|by apply IH].
Qed.

Lemma find_is_Some {A} (f : A → bool) (l : list A) (x : A) :
  x ∈ l → f x = true → is_Some (List.find f l).
Proof.
  intros Hin Hx. destruct (List.find f l) eqn:Hf; [by eexists|].
  apply find_none in Hf. rewrite Forall_forall in Hf. rewrite (Hf x Hin) in Hx. done.
Qed.

(** X1. Without a usable id, [getSession] goes by the conversation id and
    answers with the first session of that conversation in the order of the
    collection; it fails, with a [session] error quoting its argument, exactly
    when the collection has no session of that conversation. *)
Theorem getSession_by_conversation_is_first
    (m : SessionManager.t) (params : IEndSessionRequest.t) (c : string) :
  truthy_opt (IEndSessionRequest.id params) = false →
  IEndSessionRequest.conversationId params = Some c →
  match result_of (getSession params m) with
  | Ok (Own s) =>
      ∃ before after,
        Object_values (SessionManager.sessions m) = before ++ s :: after
        ∧ IJingleSession.conversationId s = c
        ∧ Forall (λ s', IJingleSession.conversationId s' ≠ c) before
  | Ok (Inherited _) => False
  | Throw e =>
      e = SdkError SdkErrorTypes.session "Unable to find session" (SessionLookup params)
      ∧ Forall (λ s', IJingleSession.conversationId s' ≠ c)
          (Object_values (SessionManager.sessions m))
  end.
Proof.
  intros Hid Hconv.
  assert (Hrun : getSession params m
                 = (m, [],
                    match List.find (λ s, strict_eq_opt (IJingleSession.conversationId s)
                                            (IEndSessionRequest.conversationId params))
                            (Object_values (SessionManager.sessions m)) with
                    | Some s => Ok (Own s)
                    | None => Throw (SdkError SdkErrorTypes.session "Unable to find session"
                                       (SessionLookup params))
                    end)).
  { unfold getSession, bind, get, throwSdkError, throw, ret. simpl.
    destruct (IEndSessionRequest.id params) as [i|]; simpl in Hid.
    - rewrite Hid. by destruct (List.find _ _).
    - by destruct (List.find _ _). }
  rewrite Hrun. clear Hrun. unfold result_of. simpl. rewrite Hconv.
  assert (Hne : ∀ l, Forall (λ y : IJingleSession.t,
                               strict_eq_opt (IJingleSession.conversationId y) (Some c) = false) l →
                     Forall (λ s', IJingleSession.conversationId s' ≠ c) l).
  { intros l Hl. eapply Forall_impl; [exact Hl|].
    intros s' Hs'. simpl in Hs'. by apply String.eqb_neq. }
  destruct (List.find _ _) as [s|] eqn:Hfind.
  - apply find_first in Hfind as (before & after & Hsplit & Hs & Hbefore).
    exists before, after. split; [done|]. split; [|by apply Hne].
    simpl in Hs. by apply String.eqb_eq.
  - split; [done|]. apply Hne. by apply find_none.
Qed.

Lemma getSession_by_conversation_is_first_witness :
  ∃ before after,
    Object_values (SessionManager.sessions Examples.twoCalls)
    = before ++ Examples.videoSession "s2" :: after
    ∧ IJingleSession.conversationId (Examples.videoSession "s2") = "conversation-2"
    ∧ Forall (λ s', IJingleSession.conversationId s' ≠ "conversation-2") before.
Proof.
  exact (getSession_by_conversation_is_first Examples.twoCalls
           (IEndSessionRequest.mk None (Some "conversation-2")) "conversation-2"
           eq_refl eq_refl).
Defined.

(** X2. With a non-empty id, [endSession] ends the session stored under that
    id through the handler that owns its peer address; the conversation id
    of the request is not consulted, whatever it is. *)
Theorem endSession_id_wins
    (m : SessionManager.t) (i : string) (c : option string)
    (s : IJingleSession.t) (h : BaseSessionHandler.t) :
  truthy i = true →
  lookup_session i (SessionManager.sessions m) = Some s →
  getSessionHandler (by_jingleSession s) m = (m, [], Ok h) →
  endSession (IEndSessionRequest.mk (Some i) c) m
  = (m, [HandlerEndSession (BaseSessionHandler.sessionType h) (IJingleSession.id s)], Ok tt).
Proof.
  intros Hi Hl Hh. unfold endSession. simpl. rewrite Hi. simpl.
  assert (Hget : getSession (IEndSessionRequest.mk (Some i) c) m = (m, [], Ok (Own s))).
  { unfold getSession, bind, get, ret. simpl. rewrite Hi.
    unfold sessions_get. by rewrite (property_own _ _ _ Hl). }
  unfold bind at 1. unfold ret at 1.
  rewrite (bind_ok _ _ _ _ _ _ Hget).
  change (by_found (Own s)) with (by_jingleSession s).
  rewrite (bind_ok _ _ _ _ _ _ Hh). reflexivity.
Qed.

Lemma endSession_id_wins_witness :
  endSession (IEndSessionRequest.mk (Some "s1") (Some "conversation-2")) Examples.twoCalls
  = (Examples.twoCalls, [HandlerEndSession SessionTypes.softphone "s1"], Ok tt).
Proof.
  exact (endSession_id_wins Examples.twoCalls "s1" (Some "conversation-2")
           (Examples.softphoneSession "s1") Examples.softphoneHandler
           eq_refl eq_refl eq_refl).
Defined.

(** X3. Given a session type, [getSessionHandler] answers with the first
    registered handler of that type, whatever proposal or session comes
    with the request; it fails, with a [session] error, exactly when no
    handler of that type is registered. *)
Theorem getSessionHandler_by_type_is_first
    (m : SessionManager.t) (si : option ISessionInfo.t)
    (js : option (Property IJingleSession.t)) (ty : SessionTypes.t) :
  match result_of (getSessionHandler (HandlerParams.mk si (Some ty) js) m) with
  | Ok h =>
      ∃ before after,
        SessionManager.sessionHandlers m = before ++ h :: after
        ∧ BaseSessionHandler.sessionType h = ty
        ∧ Forall (λ h', BaseSessionHandler.sessionType h' ≠ ty) before
  | Throw e =>
      e = SdkError SdkErrorTypes.session "Failed to find session handler for session"
            (HandlerLookup (HandlerParams.mk si (Some ty) js))
      ∧ Forall (λ h', BaseSessionHandler.sessionType h' ≠ ty) (SessionManager.sessionHandlers m)
  end.
Proof.
  unfold getSessionHandler, bind, get, ret, throwSdkError, throw, result_of. simpl.
  assert (Hne : ∀ l, Forall (λ y, SessionTypes.eqb (BaseSessionHandler.sessionType y) ty = false) l →
                     Forall (λ h', BaseSessionHandler.sessionType h' ≠ ty) l).
  { intros l Hl. eapply Forall_impl; [exact Hl|]. intros h' Hh' Heq.
    simpl in Hh'. rewrite Heq in Hh'. by destruct ty. }
  destruct (List.find _ _) as [h|] eqn:Hfind; simpl.
  - apply find_first in Hfind as (before & after & Hsplit & Hh & Hbefore).
    exists before, after. split; [done|]. split; [|by apply Hne].
    simpl in Hh. by destruct (BaseSessionHandler.sessionType h), ty.
  - split; [done|]. apply Hne. by apply find_none.
Qed.

(** X4. Without a session type, the address that identifies the request is
    the sender of the proposal when that is not empty, else the peer of the
    session, which an inherited member passed for a session does not have.
    [getSessionHandler] answers with the first registered handler whose
    pattern accepts that address; it fails with a [generic] error when
    there is no such address, and with a [session] error when no pattern
    accepts it. *)
Theorem getSessionHandler_by_address_is_first
    (m : SessionManager.t) (si : option ISessionInfo.t)
    (js : option (Property IJingleSession.t)) :
  let peer :=
    match js with
    | Some (Own s) => Some (IJingleSession.peerID s)
    | _ => None
    end in
  let address :=
    match si with
    | Some i =>
        if truthy (ISessionInfo.fromJid i) then Some (ISessionInfo.fromJid i)
        else peer
    | None => peer
    end in
  match result_of (getSessionHandler (HandlerParams.mk si None js) m) with
  | Ok h =>
      ∃ jid before after,
        address = Some jid ∧ truthy jid = true
        ∧ SessionManager.sessionHandlers m = before ++ h :: after
        ∧ BaseSessionHandler.shouldHandleSessionByJid h jid = true
        ∧ Forall (λ h', BaseSessionHandler.shouldHandleSessionByJid h' jid = false) before
  | Throw e =>
      (truthy_opt address = false
       ∧ e = SdkError SdkErrorTypes.generic
               "getSessionHandler was called without any identifying information"
               (HandlerLookup (HandlerParams.mk si None js)))
      ∨ (∃ jid, address = Some jid ∧ truthy jid = true
                ∧ e = SdkError SdkErrorTypes.session
                        "Failed to find session handler for session"
                        (HandlerLookup (HandlerParams.mk si None js))
                ∧ Forall (λ h', BaseSessionHandler.shouldHandleSessionByJid h' jid = false)
                    (SessionManager.sessionHandlers m))
  end.
Proof.
  intros peer address.
  assert (Hpeer : js ≫= peerID_of = peer).
  { unfold peer. by destruct js as [[s|name]|]. }
  assert (Haddr : js_or (ISessionInfo.fromJid <$> si) (js ≫= peerID_of) = address).
  { rewrite Hpeer. unfold js_or, address. destruct si as [i|]; simpl; [|done].
    by destruct (truthy (ISessionInfo.fromJid i)). }
  unfold getSessionHandler, bind, get, ret, throwSdkError, throw, result_of. simpl.
  rewrite Haddr. clear Haddr. destruct address as [jid|]; simpl; [|by left].
  destruct (truthy jid) eqn:Hjid; simpl; [|by left].
  destruct (List.find _ _) as [h|] eqn:Hfind; simpl.
  - apply find_first in Hfind as (before & after & Hsplit & Hh & Hbefore).
    by exists jid, before, after.
  - right. exists jid. repeat split; try done. by apply find_none.
Qed.

(** ** The plan of the reconciliation pass *)

Lemma updates_set_keys_old (k : string) (v : MediaToUpdate.t) updates :
  k ∈ map fst updates → map fst (updates_set k v updates) = map fst updates.
Proof.
  induction updates as [|[k0 v0] rest IH]; simpl; intros Hin.
  - by apply elem_of_nil in Hin.
  - destruct (String.eqb k0 k) eqn:Hk; simpl; [done|].
    apply String.eqb_neq in Hk. apply elem_of_cons in Hin as [->|Hin]; [done|].
    by rewrite IH.
Qed.

Lemma updates_set_keys_new (k : string) (v : MediaToUpdate.t) updates :
  k ∉ map fst updates → map fst (updates_set k v updates) = map fst updates ++ [k].
Proof.
  induction updates as [|[k0 v0] rest IH]; simpl; intros Hnotin; [done|].
  destruct (String.eqb k0 k) eqn:Hk; simpl.
  - apply String.eqb_eq in Hk as ->. exfalso. apply Hnotin. left.
  - rewrite IH; [done|]. intros Hin. apply Hnotin. by right.
Qed.

Lemma updates_set_NoDup (k : string) (v : MediaToUpdate.t) updates :
  NoDup (map fst updates) → NoDup (map fst (updates_set k v updates)).
Proof.
  intros Hnd. destruct (decide (k ∈ map fst updates)) as [Hin|Hnotin].
  - by rewrite updates_set_keys_old.
  - rewrite updates_set_keys_new; [|done].
    apply NoDup_app. split; [done|]. split; [|apply NoDup_singleton].
    intros x Hx Hx'. apply list_elem_of_singleton in Hx' as ->. done.
Qed.

Lemma flagged_set_inv (k k' : string) (kind kind' : TrackKind.t) updates :
  flagged k kind
    (updates_set k' (MediaToUpdate.set kind'
                       (default MediaToUpdate.empty (updates_get k' updates))) updates) →
  flagged k kind updates ∨ (k = k' ∧ kind = kind').
Proof.
  intros (v & Hv & Hf). destruct (decide (k' = k)) as [->|Hne].
  - rewrite updates_get_set_same in Hv. injection Hv as <-.
    destruct (updates_get k updates) as [v0|] eqn:Hget; simpl in Hf.
    + destruct kind, kind'; try (by right); left; exists v0; (split; [done|]);
        by destruct v0.
    + destruct kind, kind'; try (by right); done.
  - left. exists v. split; [|done]. by rewrite updates_get_set_other in Hv.
Qed.

Lemma outgoingTracks_elem
    (s : IJingleSession.t) (t : MediaStreamTrack.t) :
  t ∈ outgoingTracks s
  ↔ (∃ sender, sender ∈ IJingleSession.getSenders s ∧ RTCRtpSender.track sender = Some t)
    ∧ ∀ stream, IJingleSession._screenShareStream s = Some stream →
                MediaStreamTrack.id t ∉ map MediaStreamTrack.id (MediaStream.getTracks stream).
Proof.
  unfold outgoingTracks. rewrite list_elem_of_omap.
  assert (Hex : ∀ ids, existsb (String.eqb (MediaStreamTrack.id t)) ids = true
                       ↔ MediaStreamTrack.id t ∈ ids).
  { intros ids. rewrite existsb_exists. split.
    - intros (x & Hin & Hx). apply String.eqb_eq in Hx as ->. by apply list_elem_of_In.
    - intros Hin. exists (MediaStreamTrack.id t). split; [by apply list_elem_of_In|].
      apply String.eqb_refl. }
  split.
  - intros (sender & Hin & Hsome).
    destruct (RTCRtpSender.track sender) as [t'|] eqn:Ht'; [|done].
    destruct (existsb _ _) eqn:Hig; [done|]. injection Hsome as ->.
    split; [by exists sender|]. intros stream Hstream Hin'.
    rewrite Hstream in Hig. apply Hex in Hin'. by rewrite Hin' in Hig.
  - intros [(sender & Hin & Ht') Hscreen]. exists sender. split; [done|].
    rewrite Ht'. destruct (existsb _ _) eqn:Hig; [|done]. exfalso.
    destruct (IJingleSession._screenShareStream s) as [stream|]; [|done].
    apply Hex in Hig. by apply (Hscreen stream).
Qed.

Lemma updates_get_of_elem (k : string) (v : MediaToUpdate.t) updates :
  NoDup (map fst updates) → (k, v) ∈ updates → updates_get k updates = Some v.
Proof.
  induction updates as [|[k0 v0] rest IH]; simpl; intros Hnd Hin.
  - by apply elem_of_nil in Hin.
  - apply NoDup_cons in Hnd as [Hnotin Hnd].
    apply elem_of_cons in Hin as [[= -> ->]|Hin]; [by rewrite String.eqb_refl|].
    destruct (String.eqb k0 k) eqn:Hk; [|by apply IH].
    apply String.eqb_eq in Hk as ->. exfalso. apply Hnotin.
    by apply (list_elem_of_fmap_2 fst _ (k, v)).
Qed.

Section PlanFacts.

Variable hasOutputDeviceSupport : bool.
Variables videoDevices audioDevices outputDevices : list MediaDeviceInfo.t.

Local Abbreviation scan_track' := (scan_track videoDevices audioDevices).
Local Abbreviation scan_session' :=
  (scan_session hasOutputDeviceSupport videoDevices audioDevices outputDevices).
Local Abbreviation scan' := (scan hasOutputDeviceSupport videoDevices audioDevices outputDevices).
Local Abbreviation deviceExists' := (deviceExists videoDevices audioDevices).
Local Abbreviation outputDeviceMissing' :=
  (outputDeviceMissing hasOutputDeviceSupport outputDevices).

(** The reason for a flag of the plan: a scanned session with that id has an
    outgoing track of that kind whose device is gone. *)
Local Abbreviation lostDevice sessions k kind :=
  (∃ s t, s ∈ (sessions : list IJingleSession.t) ∧ IJingleSession.id s = k
          ∧ t ∈ outgoingTracks s
          ∧ MediaStreamTrack.kind t = kind ∧ deviceExists' t = false).

Lemma scan_tracks_sound sessions s tracks acc :
  s ∈ sessions →
  (∀ t, t ∈ tracks → t ∈ outgoingTracks s) →
  (∀ k kind, flagged k kind (Scan.updates acc) → lostDevice sessions k kind) →
  ∀ k kind, flagged k kind (Scan.updates (foldl (scan_track' s) acc tracks)) →
            lostDevice sessions k kind.
Proof.
  intros Hs. revert acc. induction tracks as [|t tracks IH]; intros acc Htracks Hacc; [done|].
  simpl. apply IH; [intros t' Ht'; apply Htracks; by right|].
  intros k kind. unfold scan_track. destruct (deviceExists' t) eqn:Hd; simpl; [apply Hacc|].
  intros Hf. apply flagged_set_inv in Hf as [Hf|[-> ->]]; [by apply Hacc|].
  exists s, t. repeat split; try done. apply Htracks. left.
Qed.

Lemma scan_sound_from sessions scanned acc :
  (∀ s, s ∈ scanned → s ∈ sessions) →
  (∀ k kind, flagged k kind (Scan.updates acc) → lostDevice sessions k kind) →
  ∀ k kind, flagged k kind (Scan.updates (foldl scan_session' acc scanned)) →
            lostDevice sessions k kind.
Proof.
  revert acc. induction scanned as [|s scanned IH]; intros acc Hsub Hacc; [done|].
  simpl. apply IH; [intros s' Hs'; apply Hsub; by right|].
  rewrite scan_session_updates.
  apply (scan_tracks_sound sessions s); [apply Hsub; left|done|done].
Qed.

Lemma plan_flags_lost (sessions : list IJingleSession.t) (k : string) (kind : TrackKind.t) :
  flagged k kind (Scan.updates (scan' sessions)) ↔ lostDevice sessions k kind.
Proof.
  split.
  - apply scan_sound_from; [done|]. intros k' kind' (v & Hv & _). done.
  - intros (s & t & Hs & <- & Ht & <- & Hd).
    by apply (scan_flags hasOutputDeviceSupport videoDevices audioDevices outputDevices
                sessions Scan.init s t).
Qed.

(** A track has lost its device when the list for its kind holds no device
    with its label whose kind starts with the kind of the track. *)
Lemma deviceExists_false (t : MediaStreamTrack.t) :
  deviceExists' t = false
  ↔ ¬ ∃ d, d ∈ match MediaStreamTrack.kind t with
               | TrackKind.video => videoDevices
               | TrackKind.audio => audioDevices
               end
           ∧ MediaDeviceInfo.label d = MediaStreamTrack.label t
           ∧ match MediaDeviceInfo.kind d with
             | MediaDeviceKind.videoinput => TrackKind.video
             | _ => TrackKind.audio
             end = MediaStreamTrack.kind t.
Proof.
  unfold deviceExists. rewrite <- not_true_iff_false, existsb_exists.
  split; intros Hno Hex; apply Hno.
  - destruct Hex as (d & Hin & Hl & Hk). exists d. split; [by apply list_elem_of_In|].
    rewrite Hl, String.eqb_refl. simpl. unfold MediaDeviceKind.slice5.
    destruct (MediaDeviceInfo.kind d), (MediaStreamTrack.kind t); done.
  - destruct Hex as (d & Hin & Hd). apply andb_true_iff in Hd as [Hl Hk].
    exists d. split; [by apply list_elem_of_In|]. split; [by apply String.eqb_eq|].
    unfold MediaDeviceKind.slice5 in Hk.
    destruct (MediaDeviceInfo.kind d), (MediaStreamTrack.kind t); done.
Qed.

Lemma scan_tracks_NoDup s tracks acc :
  NoDup (map fst (Scan.updates acc)) →
  NoDup (map fst (Scan.updates (foldl (scan_track' s) acc tracks))).
Proof.
  apply (scan_tracks_ind videoDevices audioDevices
           (λ a, NoDup (map fst (Scan.updates a)))).
  intros a t Ha. unfold scan_track. destruct (deviceExists' t); simpl; [done|].
  by apply updates_set_NoDup.
Qed.

Lemma scan_NoDup (sessions : list IJingleSession.t) :
  NoDup (map fst (Scan.updates (scan' sessions))).
Proof.
  unfold scan.
  assert (Hgen : ∀ acc, NoDup (map fst (Scan.updates acc)) →
                        NoDup (map fst (Scan.updates (foldl scan_session' acc sessions)))).
  { induction sessions as [|s ss IH]; intros acc Hacc; [done|].
    simpl. apply IH. rewrite scan_session_updates. by apply scan_tracks_NoDup. }
  apply Hgen. constructor.
Qed.

(** X6. The plan holds an entry for a session id with a kind of media set
    exactly when a scanned session with that id has a sender whose track is
    of that kind, is not a track of the session's screen-share stream, and
    has lost its device: the device list of that kind holds no device with
    the label of the track whose kind starts with the kind of the track. *)
Theorem plan_flags_exactly_lost_devices
    (sessions : list IJingleSession.t) (k : string) (kind : TrackKind.t) :
  (∃ v, (k, v) ∈ Scan.updates (scan' sessions)
        ∧ match kind with
          | TrackKind.video => MediaToUpdate.video v
          | TrackKind.audio => MediaToUpdate.audio v
          end = true)
  ↔ ∃ s sender t,
      s ∈ sessions ∧ IJingleSession.id s = k
      ∧ sender ∈ IJingleSession.getSenders s ∧ RTCRtpSender.track sender = Some t
      ∧ (∀ stream, IJingleSession._screenShareStream s = Some stream →
                   MediaStreamTrack.id t ∉ map MediaStreamTrack.id (MediaStream.getTracks stream))
      ∧ MediaStreamTrack.kind t = kind
      ∧ ¬ ∃ d, d ∈ match kind with
                   | TrackKind.video => videoDevices
                   | TrackKind.audio => audioDevices
                   end
               ∧ MediaDeviceInfo.label d = MediaStreamTrack.label t
               ∧ match MediaDeviceInfo.kind d with
                 | MediaDeviceKind.videoinput => TrackKind.video
                 | _ => TrackKind.audio
                 end = kind.
Proof.
  assert (Hflag : (∃ v, (k, v) ∈ Scan.updates (scan' sessions)
                        ∧ match kind with
                          | TrackKind.video => MediaToUpdate.video v
                          | TrackKind.audio => MediaToUpdate.audio v
                          end = true)
                  ↔ flagged k kind (Scan.updates (scan' sessions))).
  { split; intros (v & Hv & Hf); exists v; (split; [|exact Hf]).
    - apply updates_get_of_elem; [apply scan_NoDup|done].
    - by apply updates_get_elem. }
  rewrite Hflag, plan_flags_lost. split.
  - intros (s & t & Hs & Hk & Ht & Hkind & Hd).
    apply outgoingTracks_elem in Ht as [(sender & Hsender & Htrack) Hscreen].
    apply deviceExists_false in Hd. rewrite Hkind in Hd.
    by exists s, sender, t.
  - intros (s & sender & t & Hs & Hk & Hsender & Htrack & Hscreen & Hkind & Hd).
    exists s, t. repeat split; try done.
    + apply outgoingTracks_elem. split; [by exists sender|done].
    + apply deviceExists_false. by rewrite Hkind.
Qed.

(** X7. However many tracks a session has lost, and however many sessions
    share an id, the plan holds one entry per session id: the second loop
    looks a session up, and asks for its media update, at most once. *)
Theorem plan_has_one_entry_per_session (sessions : list IJingleSession.t) :
  NoDup (map fst (Scan.updates (scan' sessions))).
Proof. apply scan_NoDup. Qed.

Lemma scan_tracks_flag s tracks acc :
  Scan.updateOutputDeviceForAllSessions (foldl (scan_track' s) acc tracks)
  = Scan.updateOutputDeviceForAllSessions acc.
Proof.
  revert acc. induction tracks as [|t tracks IH]; intros acc; [done|].
  simpl. rewrite IH. unfold scan_track. by destruct (deviceExists' t).
Qed.

Lemma scan_output_flag (sessions : list IJingleSession.t) :
  Scan.updateOutputDeviceForAllSessions (scan' sessions)
  = hasOutputDeviceSupport
    && existsb
         (λ s, match IJingleSession._outputAudioElement s with
               | Some el =>
                   negb (existsb (λ d, String.eqb (MediaDeviceInfo.deviceId d)
                                         (HTMLAudioElement.sinkId el)) outputDevices)
               | None => false
               end)
         sessions.
Proof.
  unfold scan.
  assert (Hgen : ∀ acc,
            Scan.updateOutputDeviceForAllSessions (foldl scan_session' acc sessions)
            = Scan.updateOutputDeviceForAllSessions acc
              || existsb outputDeviceMissing' sessions).
  { induction sessions as [|s ss IH]; intros acc; simpl; [by rewrite orb_false_r|].
    rewrite IH. unfold scan_session.
    destruct (outputDeviceMissing' s) eqn:Hs; simpl.
    - by rewrite orb_true_r.
    - by rewrite scan_tracks_flag. }
  rewrite Hgen. simpl. clear Hgen.
  induction sessions as [|s ss IH]; simpl; [by rewrite andb_false_r|].
  rewrite IH. unfold outputDeviceMissing.
  destruct (IJingleSession._outputAudioElement s); simpl; [|done].
  destruct hasOutputDeviceSupport; simpl; done.
Qed.

(** X8. The pass decides on a bulk output-device update exactly when some
    active session has an output element whose [sinkId] is not the id of an
    output device of the inventory, on a platform that can select output
    devices; on a platform that cannot, never. *)
Theorem output_flag_is_some_sink_missing (sessions : list IJingleSession.t) :
  Scan.updateOutputDeviceForAllSessions (scan' sessions)
  = hasOutputDeviceSupport
    && existsb
         (λ s, match IJingleSession._outputAudioElement s with
               | Some el =>
                   negb (existsb (λ d, String.eqb (MediaDeviceInfo.deviceId d)
                                         (HTMLAudioElement.sinkId el)) outputDevices)
               | None => false
               end)
         sessions.
Proof. apply scan_output_flag. Qed.

End PlanFacts.

(** X9. The tracks the pass looks at are the tracks of the session's senders
    whose id is not the id of a track of its screen-share stream: a sender
    without a track and a screen-share track are never a reason to switch. *)
Theorem outgoingTracks_are_sender_tracks_outside_screen_share
    (s : IJingleSession.t) (t : MediaStreamTrack.t) :
  t ∈ outgoingTracks s
  ↔ (∃ sender, sender ∈ IJingleSession.getSenders s ∧ RTCRtpSender.track sender = Some t)
    ∧ ∀ stream, IJingleSession._screenShareStream s = Some stream →
                MediaStreamTrack.id t ∉ map MediaStreamTrack.id (MediaStream.getTracks stream).
Proof. apply outgoingTracks_elem. Qed.

(** ** More on the pass and on the bulk output update *)

Section PassFacts.

Variable hasOutputDeviceSupport : bool.
Variables videoDevices audioDevices outputDevices : list MediaDeviceInfo.t.
Variable getValidDeviceId : MediaDeviceKind.t → DeviceSelector → option string.

Local Abbreviation scan' := (scan hasOutputDeviceSupport videoDevices audioDevices outputDevices).
Local Abbreviation deviceExists' := (deviceExists videoDevices audioDevices).
Local Abbreviation updateSession' := (updateSession videoDevices audioDevices).
Local Abbreviation updateOutput' := (updateOutputDeviceForAllSessions getValidDeviceId).
Local Abbreviation validate' :=
  (validateOutgoingMediaTracks hasOutputDeviceSupport videoDevices audioDevices outputDevices
     getValidDeviceId).

Lemma scan_all_devices_present sessions :
  Forall (λ s, forallb deviceExists' (outgoingTracks s) = true) sessions →
  Scan.updates (scan' sessions) = [].
Proof.
  unfold scan.
  assert (Htracks : ∀ s tracks acc,
            (∀ t, In t tracks → deviceExists' t = true) → Scan.updates acc = [] →
            Scan.updates (foldl (scan_track videoDevices audioDevices s) acc tracks) = []).
  { intros s. induction tracks as [|t tracks IH]; intros acc Hex Hacc; [done|].
    simpl. apply IH; [intros t' Ht'; apply Hex; by right|].
    unfold scan_track. rewrite (Hex t); [done|by left]. }
  assert (Hgen : ∀ acc,
            Forall (λ s, forallb deviceExists' (outgoingTracks s) = true) sessions →
            Scan.updates acc = [] →
            Scan.updates
              (foldl (scan_session hasOutputDeviceSupport videoDevices audioDevices
                        outputDevices) acc sessions) = []).
  { induction sessions as [|s ss IH]; intros acc Hall Hacc; [done|].
    apply Forall_cons in Hall as [Hs Hall]. simpl. apply IH; [done|].
    rewrite scan_session_updates. apply Htracks; [|done].
    by apply forallb_forall. }
  intros Hall. by apply Hgen.
Qed.

(** X10. When every outgoing track still has its device and only an output
    device is lost, the pass is the bulk output-device update with the
    sentinel [true], preceded by the log lines of its first loop: it looks
    no session up by id, switches no input and mutes nothing of its own. *)
Theorem pass_with_only_output_lost_is_the_bulk_update (m : SessionManager.t) :
  Forall (λ s, forallb deviceExists' (outgoingTracks s) = true) (activeSessions m) →
  Scan.updateOutputDeviceForAllSessions (scan' (activeSessions m)) = true →
  validate' m
  = (state_of (updateOutput' (DeviceBool true) m),
     Scan.logged (scan' (activeSessions m)) ++ trace_of (updateOutput' (DeviceBool true) m),
     result_of (updateOutput' (DeviceBool true) m)).
Proof.
  intros Hall Hflag. unfold validateOutgoingMediaTracks.
  rewrite (bind_ok _ _ _ _ _ _ (getAllActiveSessions_run m)).
  rewrite (bind_ok _ _ _ _ _ _ (forEach_emit _ m)).
  rewrite (scan_all_devices_present _ Hall), Hflag.
  simpl. unfold bind at 1, ret at 1, when.
  destruct (updateOutput' (DeviceBool true) m) as [[m2 t2] r2]. reflexivity.
Qed.

(** Without platform support the first loop never reports a lost output
    device. *)
Lemma scan_logged_tracks_only sessions :
  hasOutputDeviceSupport = false →
  Forall (λ e, e = Log LogLevels.debug "sessions outgoing track still has available device"
               ∨ e = Log LogLevels.info
                       "session lost media device and will attempt to switch devices")
    (Scan.logged (scan' sessions)).
Proof.
  intros Hsupport. unfold scan.
  assert (Hgen : ∀ acc,
            Forall (λ e, e = Log LogLevels.debug
                               "sessions outgoing track still has available device"
                         ∨ e = Log LogLevels.info
                                 "session lost media device and will attempt to switch devices")
              (Scan.logged acc) →
            Forall (λ e, e = Log LogLevels.debug
                               "sessions outgoing track still has available device"
                         ∨ e = Log LogLevels.info
                                 "session lost media device and will attempt to switch devices")
              (Scan.logged
                 (foldl (scan_session hasOutputDeviceSupport videoDevices audioDevices
                           outputDevices) acc sessions))).
  { induction sessions as [|s ss IH]; intros acc Hacc; [done|].
    simpl. apply IH. unfold scan_session, outputDeviceMissing. rewrite Hsupport.
    assert (Hno : match IJingleSession._outputAudioElement s with
                  | Some el =>
                      false && negb (existsb (λ d, String.eqb (MediaDeviceInfo.deviceId d)
                                                     (HTMLAudioElement.sinkId el))
                                       outputDevices)
                  | None => false
                  end = false) by by destruct (IJingleSession._outputAudioElement s).
    rewrite Hno.
    apply (scan_tracks_ind videoDevices audioDevices
             (λ a, Forall (λ e, e = Log LogLevels.debug
                                      "sessions outgoing track still has available device"
                                ∨ e = Log LogLevels.info
                                        "session lost media device and will attempt to switch devices")
                     (Scan.logged a))); [|done].
    intros a t Ha. unfold scan_track.
    destruct (deviceExists' t); simpl; apply Forall_app; split; try done;
      repeat constructor; by (left + right). }
  apply Hgen. constructor.
Qed.

(** X11. On a platform that cannot select output devices, no pass ever asks
    a handler to update an output device, reports a lost output device or
    announces the bulk output update, whatever the sessions render to and
    whatever the inventory holds. *)
Theorem pass_without_output_support_never_updates_output (m : SessionManager.t) :
  hasOutputDeviceSupport = false →
  ∀ e, e ∈ trace_of (validate' m) →
       (∀ ty id deviceId, e ≠ HandlerUpdateOutputDevice ty id deviceId)
       ∧ e ≠ Log LogLevels.info "Updating output deviceId for all active sessions"
       ∧ e ≠ Log LogLevels.info
               "session lost output device and will attempt to switch device".
Proof.
  intros Hsupport.
  pose (P := λ e : Event,
          (∀ ty id deviceId, e ≠ HandlerUpdateOutputDevice ty id deviceId)
          ∧ e ≠ Log LogLevels.info "Updating output deviceId for all active sessions"
          ∧ e ≠ Log LogLevels.info
                  "session lost output device and will attempt to switch device").
  assert (Hemit : ∀ e, (∀ ty id deviceId, e ≠ HandlerUpdateOutputDevice ty id deviceId) →
                       e ≠ Log LogLevels.info "Updating output deviceId for all active sessions" →
                       e ≠ Log LogLevels.info
                               "session lost output device and will attempt to switch device" →
                       writes_only P (emit e)).
  { intros e H1 H2 H3. by apply writes_only_emit. }
  assert (Hupdate : ∀ entry, writes_only P (updateSession' entry)).
  { intros [k mt]. unfold updateSession.
    apply writes_only_bind; [apply writes_only_getSession|]. intros found.
    apply writes_only_bind; [apply writes_only_getSessionHandler|]. intros h.
    apply writes_only_asSession; [by repeat split|]. intros s.
    apply writes_only_bind.
    { unfold switchVideo. destruct (MediaToUpdate.video mt); [|apply writes_only_ret].
      destruct videoDevices; [|apply writes_only_ret].
      apply writes_only_bind; [by apply Hemit|]. intros _.
      apply writes_only_bind; [by apply Hemit|]. intros _.
      apply writes_only_ret. }
    intros v. apply writes_only_bind.
    { unfold switchAudio. destruct (MediaToUpdate.audio mt); [|apply writes_only_ret].
      destruct audioDevices; [|apply writes_only_ret].
      apply writes_only_bind; [by apply Hemit|]. intros _.
      apply writes_only_bind; [by apply Hemit|]. intros _.
      apply writes_only_bind; [|intros _; apply writes_only_ret].
      apply writes_only_forEach. intros sender.
      apply dropSender_writes_only; by repeat split. }
    intros a. apply writes_only_when. by apply Hemit. }
  assert (Hw : writes_only P validate').
  { unfold validateOutgoingMediaTracks.
    apply writes_only_bind; [intros m'; constructor|]. intros sessions.
    apply writes_only_bind.
    { apply writes_only_forEach_in. intros e He.
      pose proof (scan_logged_tracks_only sessions Hsupport) as Hl.
      rewrite Forall_forall in Hl. destruct (Hl e He) as [->| ->]; by apply Hemit. }
    intros _.
    rewrite (scan_output_flag hasOutputDeviceSupport videoDevices
               audioDevices outputDevices sessions), Hsupport. cbn [andb].
    destruct (Scan.updates _) as [|u us]; lazy iota beta.
    - by apply Hemit.
    - apply writes_only_bind; [|intros _; apply writes_only_ret].
      by apply writes_only_forEach. }
  intros e He. specialize (Hw m). rewrite Forall_forall in Hw. by apply Hw.
Qed.

(** X12. A literal output device id that the resolver confirms is taken to
    every active session whose type is not [acdScreenShare], in the order
    of the collection and to no other session, through the first handler
    that accepts the peer of the session, provided every active session has
    a handler; the manager is unchanged. *)
Theorem updateOutputDevice_known_literal_fans_out (m : SessionManager.t) (id : string) :
  getValidDeviceId MediaDeviceKind.audiooutput (DeviceString id) = Some id →
  handlers_resolve m →
  ∃ t, updateOutput' (DeviceString id) m
       = (m, Log LogLevels.info "Updating output deviceId for all active sessions" :: t, Ok tt)
       ∧ Forall2
           (λ s e,
              ∃ h, List.find
                     (λ h', BaseSessionHandler.shouldHandleSessionByJid h'
                              (IJingleSession.peerID s))
                     (SessionManager.sessionHandlers m) = Some h
                   ∧ e = HandlerUpdateOutputDevice (BaseSessionHandler.sessionType h)
                           (IJingleSession.id s) id)
           (List.filter
              (λ s, match IJingleSession.sessionType s with
                    | Some SessionTypes.acdScreenShare => false
                    | _ => IJingleSession.active s
                    end)
              (map snd (SessionManager.sessions m)))
           t.
Proof.
  intros Hvalid Hres.
  destruct (updateOutputDevice_past_guard getValidDeviceId m (DeviceString id))
    as (t & Hrun & Hall); [by rewrite resolved_spelled, Hvalid|done|].
  exists t. split; [done|]. by rewrite Hvalid in Hall.
Qed.

End PassFacts.

Lemma SessionTypes_eqb_eq (a b : SessionTypes.t) : SessionTypes.eqb a b = true ↔ a = b.
Proof. destruct a, b; simpl; split; congruence. Qed.

Lemma getSessionHandler_by_type_run (m : SessionManager.t) (ty : SessionTypes.t)
    (h : BaseSessionHandler.t) :
  result_of (getSessionHandler (by_sessionType ty) m) = Ok h →
  getSessionHandler (by_sessionType ty) m = (m, [], Ok h)
  ∧ BaseSessionHandler.sessionType h = ty.
Proof.
  intros Hh. destruct (getSessionHandler_frame (by_sessionType ty) m) as [r Hr].
  rewrite Hr in Hh. unfold result_of in Hh. simpl in Hh. subst r. split; [done|].
  unfold getSessionHandler, bind, get, ret, throwSdkError, throw in Hr. simpl in Hr.
  destruct (List.find _ _) as [h'|] eqn:Hfind; simpl in Hr; [|done].
  injection Hr as ->. apply find_some in Hfind as [_ Hfind].
  by apply SessionTypes_eqb_eq.
Qed.

(** ** Muting and accepting through the manager *)

(** X13. A mute request finds its session by id and its handler by the type
    recorded on the session, not by the peer address: on a session that has
    not been initialised (no type yet) it fails with a [generic] error
    although the session exists; on a session with a type it asks the first
    handler of that type, and nothing else happens. *)
Theorem mute_goes_by_the_recorded_type
    (m : SessionManager.t) (params : ISessionMuteRequest.t) (s : IJingleSession.t) :
  truthy (ISessionMuteRequest.id params) = true →
  lookup_session (ISessionMuteRequest.id params) (SessionManager.sessions m) = Some s →
  match IJingleSession.sessionType s with
  | None =>
      let e := SdkError SdkErrorTypes.generic
                 "getSessionHandler was called without any identifying information"
                 (HandlerLookup (by_typeOf s)) in
      setVideoMute params m = (m, [], Throw e) ∧ setAudioMute params m = (m, [], Throw e)
  | Some ty =>
      ∀ h, result_of (getSessionHandler (by_sessionType ty) m) = Ok h →
           setVideoMute params m
           = (m, [HandlerSetVideoMute ty (IJingleSession.id s) (ISessionMuteRequest.mute params)],
              Ok tt)
           ∧ setAudioMute params m
             = (m, [HandlerSetAudioMute ty (IJingleSession.id s)
                      (ISessionMuteRequest.mute params)],
                Ok tt)
  end.
Proof.
  intros Hid Hl. pose proof (getSession_by_id m _ s Hid Hl) as Hget.
  destruct (IJingleSession.sessionType s) as [ty|] eqn:Hty.
  - intros h Hh.
    pose proof (getSessionHandler_by_type_run m ty h Hh) as [Hrun Htype].
    unfold setVideoMute, setAudioMute.
    rewrite !(bind_ok _ _ _ _ _ _ Hget). unfold by_typeOf_found, sessionType_of. rewrite Hty.
    fold (by_sessionType ty). rewrite !(bind_ok _ _ _ _ _ _ Hrun), Htype. done.
  - unfold setVideoMute, setAudioMute.
    rewrite !(bind_ok _ _ _ _ _ _ Hget).
    unfold by_typeOf_found, sessionType_of, by_typeOf, getSessionHandler, bind, get,
      throwSdkError, throw, ret.
    rewrite Hty. done.
Qed.

(** X14. [acceptSession] with the id of a live session hands that session to
    the handler that owns its peer address, and does nothing else; the type
    recorded on the session plays no part. *)
Theorem acceptSession_delegates_by_address
    (m : SessionManager.t) (p : IAcceptSessionRequest.t)
    (s : IJingleSession.t) (h : BaseSessionHandler.t) :
  truthy (IAcceptSessionRequest.id p) = true →
  lookup_session (IAcceptSessionRequest.id p) (SessionManager.sessions m) = Some s →
  getSessionHandler (by_jingleSession s) m = (m, [], Ok h) →
  acceptSession (Some p) m
  = (m, [HandlerAcceptSession (BaseSessionHandler.sessionType h) (IJingleSession.id s)], Ok tt).
Proof.
  intros Hid Hl Hh. unfold acceptSession. rewrite Hid. simpl.
  rewrite (bind_ok _ _ _ _ _ _ (getSession_by_id m _ s Hid Hl)).
  change (by_found (Own s)) with (by_jingleSession s).
  rewrite (bind_ok _ _ _ _ _ _ Hh). reflexivity.
Qed.

(** ** The pending registry *)

Lemma getSessionHandler_reads_handlers params (m1 m2 : SessionManager.t) :
  SessionManager.sessionHandlers m1 = SessionManager.sessionHandlers m2 →
  result_of (getSessionHandler params m1) = result_of (getSessionHandler params m2).
Proof.
  intros Heq. unfold getSessionHandler, bind, get, ret, throwSdkError, throw, result_of.
  simpl. rewrite Heq.
  destruct (HandlerParams.sessionType params); simpl.
  - by destruct (List.find _ _).
  - destruct (js_or _ _) as [jid|]; simpl; [|done].
    destruct (truthy jid); simpl; [|done]. by destruct (List.find _ _).
Qed.


Lemma onPropose_fresh_run hook (info : ISessionInfo.t) (m : SessionManager.t)
    (h : BaseSessionHandler.t) :
  getSessionHandler (by_sessionInfo info) m = (m, [], Ok h) →
  BaseSessionHandler.disabled h = false →
  SessionManager.pendingSessions m !! ISessionInfo.sessionId info = None →
  inherited (ISessionInfo.sessionId info) = false →
  let p :=
    IPendingSession.mk (ISessionInfo.sessionId info) (ISessionInfo.autoAnswer info)
      (ISessionInfo.fromJid info) (ISessionInfo.conversationId info)
      (BaseSessionHandler.sessionType h) (ISessionInfo.originalRoomJid info)
      (ISessionInfo.fromUserId info) in
  let m1 :=
    SessionManager.mk (SessionManager.sessionHandlers m)
      (<[ISessionInfo.sessionId info := p]> (SessionManager.pendingSessions m))
      (SessionManager.sessions m) in
  onPropose hook info m
  = (state_of (hook h p m1),
     [Log LogLevels.info "onPendingSession";
      HandlePropose (BaseSessionHandler.sessionType h) p] ++ trace_of (hook h p m1),
     result_of (hook h p m1)).
Proof.
  intros Hh Hen Hnone Hname p m1. unfold onPropose.
  rewrite (bind_ok _ _ _ _ _ _ Hh). rewrite Hen.
  unfold bind, log, emit, getPendingSession, get, ret, modify. simpl.
  rewrite (property_None _ _ Hnone Hname). simpl. fold p. fold m1.
  by destruct (hook h p m1) as [[m2 t2] r2].
Qed.

(** X15. A proposal with a new id, which is not the name of a member every
    object inherits, from an address whose handler is enabled, is stored
    before the handler hears of it: the entry carries the fields of the
    proposal and the type of the handler, it is stored under the proposal's
    id, and the hook runs on the manager that already holds it. *)
Theorem onPropose_registers_before_the_hook
    (hook : BaseSessionHandler.t → IPendingSession.t → Eff unit)
    (info : ISessionInfo.t) (m : SessionManager.t) (h : BaseSessionHandler.t) :
  getSessionHandler (by_sessionInfo info) m = (m, [], Ok h) →
  BaseSessionHandler.disabled h = false →
  SessionManager.pendingSessions m !! ISessionInfo.sessionId info = None →
  inherited (ISessionInfo.sessionId info) = false →
  let p :=
    IPendingSession.mk (ISessionInfo.sessionId info) (ISessionInfo.autoAnswer info)
      (ISessionInfo.fromJid info) (ISessionInfo.conversationId info)
      (BaseSessionHandler.sessionType h) (ISessionInfo.originalRoomJid info)
      (ISessionInfo.fromUserId info) in
  let m1 :=
    SessionManager.mk (SessionManager.sessionHandlers m)
      (<[ISessionInfo.sessionId info := p]> (SessionManager.pendingSessions m))
      (SessionManager.sessions m) in
  SessionManager.pendingSessions m1 !! ISessionInfo.sessionId info = Some p
  ∧ (∀ j, j ≠ ISessionInfo.sessionId info →
          SessionManager.pendingSessions m1 !! j = SessionManager.pendingSessions m !! j)
  ∧ onPropose hook info m
    = (state_of (hook h p m1),
       [Log LogLevels.info "onPendingSession";
        HandlePropose (BaseSessionHandler.sessionType h) p] ++ trace_of (hook h p m1),
       result_of (hook h p m1)).
Proof.
  intros Hh Hen Hnone Hname p m1. split; [apply lookup_insert_eq|]. split.
  - intros j Hj. simpl. by rewrite lookup_insert_ne.
  - by apply onPropose_fresh_run.
Qed.

(** X16. Removing a pending session forgets that id and no other, and leaves
    handlers and sessions alone; a later proposal with the same id is then a
    new one, stored again and handed to the handler's hook, unless the id is
    the name of a member every object inherits: the lookup still reads that
    member, and the proposal is taken for a duplicate. *)
Theorem removePendingSession_allows_a_new_proposal
    (hook : BaseSessionHandler.t → IPendingSession.t → Eff unit)
    (info : ISessionInfo.t) (m : SessionManager.t) (h : BaseSessionHandler.t) :
  getSessionHandler (by_sessionInfo info) m = (m, [], Ok h) →
  BaseSessionHandler.disabled h = false →
  let m' := state_of (removePendingSession (ISessionInfo.sessionId info) m) in
  SessionManager.pendingSessions m' !! ISessionInfo.sessionId info = None
  ∧ (∀ j, j ≠ ISessionInfo.sessionId info →
          SessionManager.pendingSessions m' !! j = SessionManager.pendingSessions m !! j)
  ∧ SessionManager.sessionHandlers m' = SessionManager.sessionHandlers m
  ∧ SessionManager.sessions m' = SessionManager.sessions m
  ∧ existsb is_HandlePropose (trace_of (onPropose hook info m'))
    = negb (existsb (String.eqb (ISessionInfo.sessionId info))
              ["constructor"; "__defineGetter__"; "__defineSetter__"; "hasOwnProperty";
               "__lookupGetter__"; "__lookupSetter__"; "isPrototypeOf";
               "propertyIsEnumerable"; "toString"; "valueOf"; "__proto__";
               "toLocaleString"]).
Proof.
  intros Hh Hen m'.
  assert (Hgone : SessionManager.pendingSessions m' !! ISessionInfo.sessionId info = None)
    by apply lookup_delete_eq.
  split; [done|]. split; [intros j Hj; simpl; by rewrite lookup_delete_ne|].
  split; [done|]. split; [done|].
  assert (Hh' : getSessionHandler (by_sessionInfo info) m' = (m', [], Ok h)).
  { destruct (getSessionHandler_frame (by_sessionInfo info) m') as [r Hr]. rewrite Hr.
    f_equal.
    assert (Hres : result_of (getSessionHandler (by_sessionInfo info) m')
                   = result_of (getSessionHandler (by_sessionInfo info) m))
      by by apply getSessionHandler_reads_handlers.
    rewrite Hr, Hh in Hres. exact Hres. }
  change (existsb (String.eqb (ISessionInfo.sessionId info)) _)
    with (inherited (ISessionInfo.sessionId info)).
  destruct (inherited (ISessionInfo.sessionId info)) eqn:Hname.
  - destruct (onPropose_inherited hook info m' Hname) as (t & r & -> & Hlog).
    unfold trace_of. simpl. apply not_true_is_false. intros Hhp.
    apply existsb_exists in Hhp as (e & Hin & He).
    rewrite forallb_forall in Hlog. specialize (Hlog e Hin). by destruct e.
  - rewrite (onPropose_fresh_run hook info m' h Hh' Hen Hgone Hname). reflexivity.
Qed.

(** ** Construction *)

Lemma getSessionHandler_by_type_find (m : SessionManager.t) (ty : SessionTypes.t) :
  getSessionHandler (by_sessionType ty) m
  = (m, [],
     match List.find (λ h, SessionTypes.eqb (BaseSessionHandler.sessionType h) ty)
             (SessionManager.sessionHandlers m) with
     | Some h => Ok h
     | None => Throw (SdkError SdkErrorTypes.session
                        "Failed to find session handler for session"
                        (HandlerLookup (by_sessionType ty)))
     end).
Proof.
  unfold getSessionHandler, bind, get, ret, throwSdkError, throw. simpl.
  by destruct (List.find _ _).
Qed.

Lemma enableFirst_types ty hs :
  map BaseSessionHandler.sessionType (enableFirst ty hs) = map BaseSessionHandler.sessionType hs.
Proof.
  induction hs as [|h hs IH]; simpl; [done|].
  destruct (SessionTypes.eqb _ _); simpl; [done|]. by rewrite IH.
Qed.

Lemma enableFirst_patterns ty hs :
  map BaseSessionHandler.shouldHandleSessionByJid (enableFirst ty hs)
  = map BaseSessionHandler.shouldHandleSessionByJid hs.
Proof.
  induction hs as [|h hs IH]; simpl; [done|].
  destruct (SessionTypes.eqb _ _); simpl; [done|]. by rewrite IH.
Qed.

Lemma find_enableFirst_same ty hs h :
  List.find (λ h, SessionTypes.eqb (BaseSessionHandler.sessionType h) ty) hs = Some h →
  List.find (λ h, SessionTypes.eqb (BaseSessionHandler.sessionType h) ty) (enableFirst ty hs)
  = Some (BaseSessionHandler.mk (BaseSessionHandler.sessionType h) false
            (BaseSessionHandler.shouldHandleSessionByJid h)).
Proof.
  induction hs as [|h0 hs IH]; simpl; [done|].
  destruct (SessionTypes.eqb (BaseSessionHandler.sessionType h0) ty) eqn:Hty; simpl.
  - intros [= ->]. by rewrite Hty.
  - rewrite Hty. apply IH.
Qed.

Lemma find_enableFirst_other ty ty' hs :
  ty' ≠ ty →
  List.find (λ h, SessionTypes.eqb (BaseSessionHandler.sessionType h) ty') (enableFirst ty hs)
  = List.find (λ h, SessionTypes.eqb (BaseSessionHandler.sessionType h) ty') hs.
Proof.
  intros Hne. induction hs as [|h0 hs IH]; simpl; [done|].
  destruct (SessionTypes.eqb (BaseSessionHandler.sessionType h0) ty) eqn:Hty; simpl.
  - apply SessionTypes_eqb_eq in Hty.
    destruct (SessionTypes.eqb (BaseSessionHandler.sessionType h0) ty') eqn:Hty'; [|done].
    apply SessionTypes_eqb_eq in Hty'. congruence.
  - destruct (SessionTypes.eqb (BaseSessionHandler.sessionType h0) ty'); [done|apply IH].
Qed.

(** After [enableFirst], a type that had a handler still has one, and an
    enabled first handler of a type stays enabled. *)
Lemma find_enableFirst_keeps ty ty' hs h :
  List.find (λ h, SessionTypes.eqb (BaseSessionHandler.sessionType h) ty') hs = Some h →
  ∃ h', List.find (λ h, SessionTypes.eqb (BaseSessionHandler.sessionType h) ty')
          (enableFirst ty hs) = Some h'
        ∧ (BaseSessionHandler.disabled h = false ∨ ty' = ty →
           BaseSessionHandler.disabled h' = false).
Proof.
  intros Hfind. destruct (SessionTypes.eqb ty' ty) eqn:Heq.
  - apply SessionTypes_eqb_eq in Heq as ->. eexists. split; [by apply find_enableFirst_same|].
    done.
  - assert (Hne : ty' ≠ ty).
    { intros ->. by destruct ty. }
    exists h. rewrite find_enableFirst_other; [|done]. split; [done|].
    intros [Hd|Hd]; done.
Qed.

Lemma allowSessionType_run (m : SessionManager.t) (ty : SessionTypes.t) (h : BaseSessionHandler.t) :
  List.find (λ h, SessionTypes.eqb (BaseSessionHandler.sessionType h) ty)
    (SessionManager.sessionHandlers m) = Some h →
  allowSessionType ty m
  = (SessionManager.mk (enableFirst ty (SessionManager.sessionHandlers m))
       (SessionManager.pendingSessions m) (SessionManager.sessions m),
     [Log LogLevels.info "Allow session type"], Ok tt).
Proof.
  intros Hfind. unfold allowSessionType.
  assert (Hh : getSessionHandler (by_sessionType ty) m = (m, [], Ok h))
    by by rewrite getSessionHandler_by_type_find, Hfind.
  rewrite (bind_ok _ _ _ _ _ _
             (eq_refl : log LogLevels.info _ m = (m, [Log LogLevels.info _], Ok tt))).
  rewrite (bind_ok _ _ _ _ _ _ Hh). reflexivity.
Qed.

Lemma allowAll_run (allowed : list SessionTypes.t) (m0 : SessionManager.t) :
  (∀ ty, ty ∈ allowed →
         is_Some (List.find (λ h, SessionTypes.eqb (BaseSessionHandler.sessionType h) ty)
                    (SessionManager.sessionHandlers m0))) →
  ∃ m t,
    forEach allowSessionType allowed m0 = (m, t, Ok tt)
    ∧ SessionManager.pendingSessions m = SessionManager.pendingSessions m0
    ∧ SessionManager.sessions m = SessionManager.sessions m0
    ∧ map BaseSessionHandler.sessionType (SessionManager.sessionHandlers m)
      = map BaseSessionHandler.sessionType (SessionManager.sessionHandlers m0)
    ∧ map BaseSessionHandler.shouldHandleSessionByJid (SessionManager.sessionHandlers m)
      = map BaseSessionHandler.shouldHandleSessionByJid (SessionManager.sessionHandlers m0)
    ∧ (∀ ty h,
         List.find (λ h, SessionTypes.eqb (BaseSessionHandler.sessionType h) ty)
           (SessionManager.sessionHandlers m0) = Some h →
         ∃ h', List.find (λ h, SessionTypes.eqb (BaseSessionHandler.sessionType h) ty)
                 (SessionManager.sessionHandlers m) = Some h'
               ∧ (BaseSessionHandler.disabled h = false ∨ ty ∈ allowed →
                  BaseSessionHandler.disabled h' = false))
    ∧ (∀ ty, ty ∉ allowed →
         List.find (λ h, SessionTypes.eqb (BaseSessionHandler.sessionType h) ty)
           (SessionManager.sessionHandlers m)
         = List.find (λ h, SessionTypes.eqb (BaseSessionHandler.sessionType h) ty)
             (SessionManager.sessionHandlers m0)).
Proof.
  revert m0. induction allowed as [|ty allowed IH]; intros m0 Hhave.
  - exists m0, []. repeat split; try done.
    intros ty h Hfind. exists h. split; [done|]. intros [Hd|Hin]; [done|].
    by apply elem_of_nil in Hin.
  - destruct (Hhave ty) as [h0 Hh0]; [left|].
    pose proof (allowSessionType_run m0 ty h0 Hh0) as Hstep.
    set (m1 := SessionManager.mk (enableFirst ty (SessionManager.sessionHandlers m0))
                 (SessionManager.pendingSessions m0) (SessionManager.sessions m0)) in *.
    destruct (IH m1) as (m & t & Hrun & Hpend & Hsess & Htypes & Hpat & Hkeep & Hother).
    { intros ty' Hin. destruct (Hhave ty') as [h' Hh']; [by right|].
      destruct (find_enableFirst_keeps ty ty' _ h' Hh') as (h'' & Hh'' & _). by exists h''. }
    exists m, ([Log LogLevels.info "Allow session type"] ++ t).
    split; [simpl; by rewrite (bind_ok _ _ _ _ _ _ Hstep), Hrun|].
    split; [done|]. split; [done|].
    split; [rewrite Htypes; apply enableFirst_types|].
    split; [rewrite Hpat; apply enableFirst_patterns|]. split.
    + intros ty' h Hfind.
      destruct (find_enableFirst_keeps ty ty' _ h Hfind) as (h1 & Hh1 & Hen1).
      destruct (Hkeep ty' h1 Hh1) as (h' & Hh' & Hen'). exists h'. split; [done|].
      intros [Hd|Hin].
      * apply Hen'. left. apply Hen1. by left.
      * apply elem_of_cons in Hin as [->|Hin].
        -- apply Hen'. left. apply Hen1. by right.
        -- apply Hen'. by right.
    + intros ty' Hnotin. rewrite Hother; [|intros Hin; apply Hnotin; by right].
      apply find_enableFirst_other. intros ->. apply Hnotin. left.
Qed.

Lemma construct_run
    (handlers : list BaseSessionHandler.t) (sessions : list (string * IJingleSession.t))
    (allowed : list SessionTypes.t) :
  (∀ ty, ty ∈ allowed → ∃ h, h ∈ handlers ∧ BaseSessionHandler.sessionType h = ty) →
  ∃ m t,
    construct handlers sessions allowed = (m, t, Ok tt)
    ∧ SessionManager.pendingSessions m = ∅
    ∧ SessionManager.sessions m = sessions
    ∧ map BaseSessionHandler.sessionType (SessionManager.sessionHandlers m)
      = map BaseSessionHandler.sessionType handlers
    ∧ map BaseSessionHandler.shouldHandleSessionByJid (SessionManager.sessionHandlers m)
      = map BaseSessionHandler.shouldHandleSessionByJid handlers
    ∧ (∀ ty, ty ∈ allowed →
         ∃ h, result_of (getSessionHandler (by_sessionType ty) m) = Ok h
              ∧ BaseSessionHandler.disabled h = false)
    ∧ (∀ ty, ty ∉ allowed →
         result_of (getSessionHandler (by_sessionType ty) m)
         = result_of (getSessionHandler (by_sessionType ty)
                        (SessionManager.mk handlers ∅ sessions))).
Proof.
  intros Hcover.
  assert (Hhave : ∀ ty, ty ∈ allowed →
            is_Some (List.find (λ h, SessionTypes.eqb (BaseSessionHandler.sessionType h) ty)
                       handlers)).
  { intros ty Hin. destruct (Hcover ty Hin) as (h & Hh & Hty).
    apply (find_is_Some _ _ h); [done|]. by apply SessionTypes_eqb_eq. }
  destruct (allowAll_run allowed (SessionManager.mk handlers ∅ sessions) Hhave)
    as (m & t & Hrun & Hpend & Hsess & Htypes & Hpat & Hkeep & Hother).
  exists m, t. repeat split; try done.
  - intros ty Hin. destruct (Hhave ty Hin) as [h Hh].
    destruct (Hkeep ty h Hh) as (h' & Hh' & Hen). exists h'.
    rewrite getSessionHandler_by_type_find. unfold result_of. simpl. rewrite Hh'.
    split; [done|]. apply Hen. by right.
  - intros ty Hnotin. rewrite !getSessionHandler_by_type_find. unfold result_of. simpl.
    by rewrite (Hother ty Hnotin).
Qed.

(** X17. Built from handlers that cover the allowed session types, the
    manager starts with no pending session and the transport's collection;
    its handlers keep their order, types and address patterns; the handler
    found for each allowed type is enabled; and for a type that is not
    allowed the handler found is the one the handler's own constructor left,
    flag included. *)
Theorem construct_enables_the_allowed_types
    (handlers : list BaseSessionHandler.t) (sessions : list (string * IJingleSession.t))
    (allowed : list SessionTypes.t) :
  (∀ ty, ty ∈ allowed → ∃ h, h ∈ handlers ∧ BaseSessionHandler.sessionType h = ty) →
  ∃ m t,
    construct handlers sessions allowed = (m, t, Ok tt)
    ∧ SessionManager.pendingSessions m = ∅
    ∧ SessionManager.sessions m = sessions
    ∧ map BaseSessionHandler.sessionType (SessionManager.sessionHandlers m)
      = map BaseSessionHandler.sessionType handlers
    ∧ map BaseSessionHandler.shouldHandleSessionByJid (SessionManager.sessionHandlers m)
      = map BaseSessionHandler.shouldHandleSessionByJid handlers
    ∧ (∀ ty, ty ∈ allowed →
         ∃ h, result_of (getSessionHandler (by_sessionType ty) m) = Ok h
              ∧ BaseSessionHandler.disabled h = false)
    ∧ (∀ ty, ty ∉ allowed →
         result_of (getSessionHandler (by_sessionType ty) m)
         = result_of (getSessionHandler (by_sessionType ty)
                        (SessionManager.mk handlers ∅ sessions))).
Proof. apply construct_run. Qed.

(** ** Starting, proceeding with and rejecting sessions *)

Lemma lift_getSessionHandler_by_type (m : SessionManager.t) (ty : SessionTypes.t) :
  lift (getSessionHandler (by_sessionType ty)) m
  = (m, [],
     match result_of (getSessionHandler (by_sessionType ty) m) with
     | Ok h => Done h
     | Throw e => Failed (Inner e)
     end).
Proof.
  unfold lift. destruct (getSessionHandler_frame (by_sessionType ty) m) as [r ->].
  by destruct r.
Qed.

Lemma startSession_run hook allowed (params : IStartSessionParams.t) (m : SessionManager.t) :
  startSession hook allowed params m
  = match result_of (getSessionHandler
                       (by_sessionType (IStartSessionParams.sessionType params)) m) with
    | Ok h =>
        if BaseSessionHandler.disabled h then
          (m, [], Failed (ApiError SdkErrorTypes.generic
                            "Cannot start a session with a disabled session handler"
                            (StartContext params allowed)))
        else hook h params m
    | Throw e => (m, [], Failed (Inner e))
    end.
Proof.
  unfold startSession, api_bind. rewrite lift_getSessionHandler_by_type.
  destruct (result_of _) as [h|e]; [|done].
  destruct (BaseSessionHandler.disabled h); [done|].
  by destruct (hook h params m) as [[m2 t2] r2].
Qed.

(** X18. After construction, starting a session of an allowed type runs the
    [startSession] of the handler found for that type, and nothing else.
    Starting a session of a type that is not allowed, whose handler was
    built disabled, fails with a [generic] error that quotes the request and
    the allowed types; the handler is not called and nothing changes. *)
Theorem startSession_after_construction
    (hook : BaseSessionHandler.t → IStartSessionParams.t → Api unit)
    (handlers : list BaseSessionHandler.t) (sessions : list (string * IJingleSession.t))
    (allowed : list SessionTypes.t) (params : IStartSessionParams.t) :
  (∀ ty, ty ∈ allowed → ∃ h, h ∈ handlers ∧ BaseSessionHandler.sessionType h = ty) →
  ∃ m, state_of (construct handlers sessions allowed) = m
       ∧ (IStartSessionParams.sessionType params ∈ allowed →
          ∃ h, result_of (getSessionHandler
                            (by_sessionType (IStartSessionParams.sessionType params)) m) = Ok h
               ∧ startSession hook allowed params m = hook h params m)
       ∧ (IStartSessionParams.sessionType params ∉ allowed →
          ∀ h0, result_of (getSessionHandler
                             (by_sessionType (IStartSessionParams.sessionType params))
                             (SessionManager.mk handlers ∅ sessions)) = Ok h0 →
                BaseSessionHandler.disabled h0 = true →
                startSession hook allowed params m
                = (m, [], Failed (ApiError SdkErrorTypes.generic
                                    "Cannot start a session with a disabled session handler"
                                    (StartContext params allowed)))).
Proof.
  intros Hcover.
  destruct (construct_run handlers sessions allowed Hcover)
    as (m & t & Hrun & _ & _ & _ & _ & Hallowed & Hother).
  exists m. split; [by rewrite Hrun|]. split.
  - intros Hin. destruct (Hallowed _ Hin) as (h & Hh & Hen). exists h. split; [done|].
    by rewrite startSession_run, Hh, Hen.
  - intros Hnotin h0 Hh0 Hdis. rewrite startSession_run, (Hother _ Hnotin), Hh0, Hdis. done.
Qed.

Lemma lift_getPendingSession (m : SessionManager.t) (sessionId : string) :
  lift (getPendingSession sessionId) m
  = (m, [], Done (property (SessionManager.pendingSessions m !! sessionId) sessionId)).
Proof. reflexivity. Qed.

Lemma proceedWithSession_run hook (sessionId : string) (m : SessionManager.t) :
  proceedWithSession hook sessionId m
  = match property (SessionManager.pendingSessions m !! sessionId) sessionId with
    | None =>
        (m, [], Failed (ApiError SdkErrorTypes.session
                          "Could not find a pendingSession matching accept params"
                          (PendingContext sessionId)))
    | Some (Own p) =>
        match result_of (getSessionHandler
                           (by_sessionType (IPendingSession.sessionType p)) m) with
        | Ok h => hook h p m
        | Throw e => (m, [], Failed (Inner e))
        end
    | Some (Inherited _) =>
        (m, [], Failed (Inner (SdkError SdkErrorTypes.generic
                                 "getSessionHandler was called without any identifying information"
                                 (HandlerLookup (HandlerParams.mk None None None)))))
    end.
Proof.
  unfold proceedWithSession, api_bind at 1. rewrite lift_getPendingSession.
  destruct (property _ _) as [[p|name]|]; [| |done].
  - unfold api_bind. change (by_typeOf_pending (Own p))
      with (by_sessionType (IPendingSession.sessionType p)).
    rewrite lift_getSessionHandler_by_type.
    destruct (result_of _) as [h|e]; [|done]. simpl.
    by destruct (hook h p m) as [[m2 t2] r2].
  - reflexivity.
Qed.

Lemma rejectPendingSession_run hook (sessionId : string) (m : SessionManager.t) :
  rejectPendingSession hook sessionId m
  = match property (SessionManager.pendingSessions m !! sessionId) sessionId with
    | None =>
        (m, [], Failed (ApiError SdkErrorTypes.session "Could not find a pendingSession"
                          (PendingContext sessionId)))
    | Some (Own p) =>
        match result_of (getSessionHandler
                           (by_sessionType (IPendingSession.sessionType p)) m) with
        | Ok h => hook h p m
        | Throw e => (m, [], Failed (Inner e))
        end
    | Some (Inherited _) =>
        (m, [], Failed (Inner (SdkError SdkErrorTypes.generic
                                 "getSessionHandler was called without any identifying information"
                                 (HandlerLookup (HandlerParams.mk None None None)))))
    end.
Proof.
  unfold rejectPendingSession, api_bind at 1. rewrite lift_getPendingSession.
  destruct (property _ _) as [[p|name]|]; [| |done].
  - unfold api_bind. change (by_typeOf_pending (Own p))
      with (by_sessionType (IPendingSession.sessionType p)).
    rewrite lift_getSessionHandler_by_type.
    destruct (result_of _) as [h|e]; [|done]. simpl.
    by destruct (hook h p m) as [[m2 t2] r2].
  - reflexivity.
Qed.

(** X19. Once a pending session is removed, or for an id that was never
    proposed, proceeding with it and rejecting it both fail, no handler is
    called and the manager is as before.  The failure is a [session] error
    that quotes the id, unless the id is the name of a member every object
    inherits: the lookup then reads that member, which has no type, and the
    failure is the [generic] error of the handler lookup. *)
Theorem proceed_and_reject_need_a_pending_session
    (proceed_hook reject_hook : BaseSessionHandler.t → IPendingSession.t → Api unit)
    (m : SessionManager.t) (sessionId : string) :
  let m' := state_of (removePendingSession sessionId m) in
  let isInherited :=
    existsb (String.eqb sessionId)
      ["constructor"; "__defineGetter__"; "__defineSetter__"; "hasOwnProperty";
       "__lookupGetter__"; "__lookupSetter__"; "isPrototypeOf"; "propertyIsEnumerable";
       "toString"; "valueOf"; "__proto__"; "toLocaleString"] in
  let noInformation :=
    Inner (SdkError SdkErrorTypes.generic
             "getSessionHandler was called without any identifying information"
             (HandlerLookup (HandlerParams.mk None None None))) in
  let notFound message :=
    if isInherited then noInformation
    else ApiError SdkErrorTypes.session message (PendingContext sessionId) in
  proceedWithSession proceed_hook sessionId m'
  = (m', [], Failed (notFound "Could not find a pendingSession matching accept params"))
  ∧ rejectPendingSession reject_hook sessionId m'
    = (m', [], Failed (notFound "Could not find a pendingSession"))
  ∧ (SessionManager.pendingSessions m !! sessionId = None →
     proceedWithSession proceed_hook sessionId m
     = (m, [], Failed (notFound "Could not find a pendingSession matching accept params"))
     ∧ rejectPendingSession reject_hook sessionId m
       = (m, [], Failed (notFound "Could not find a pendingSession"))).
Proof.
  intros m' isInherited noInformation notFound.
  assert (Hrun : ∀ m0, SessionManager.pendingSessions m0 !! sessionId = None →
            proceedWithSession proceed_hook sessionId m0
            = (m0, [], Failed (notFound
                                 "Could not find a pendingSession matching accept params"))
            ∧ rejectPendingSession reject_hook sessionId m0
              = (m0, [], Failed (notFound "Could not find a pendingSession"))).
  { intros m0 Hnone. rewrite proceedWithSession_run, rejectPendingSession_run, Hnone.
    unfold notFound, property. fold (inherited sessionId). fold isInherited.
    change isInherited with (inherited sessionId).
    by destruct (inherited sessionId). }
  assert (Hgone : SessionManager.pendingSessions m' !! sessionId = None)
    by apply lookup_delete_eq.
  destruct (Hrun m' Hgone) as [H1 H2]. split; [done|]. split; [done|]. apply Hrun.
Qed.

(** X20. A proposal that was stored (a new id that no object inherits, an
    enabled handler) can be proceeded with and rejected: if
    the hook of the proposal leaves the manager as it got it, the entry is
    found again under the proposal's id, a handler of the recorded type is
    found, and both calls are the handler's own [proceedWithSession] and
    [rejectPendingSession] on that entry. *)
Theorem proposal_then_proceed_or_reject
    (propose_hook : BaseSessionHandler.t → IPendingSession.t → Eff unit)
    (proceed_hook reject_hook : BaseSessionHandler.t → IPendingSession.t → Api unit)
    (info : ISessionInfo.t) (m : SessionManager.t) (h : BaseSessionHandler.t) :
  getSessionHandler (by_sessionInfo info) m = (m, [], Ok h) →
  BaseSessionHandler.disabled h = false →
  SessionManager.pendingSessions m !! ISessionInfo.sessionId info = None →
  inherited (ISessionInfo.sessionId info) = false →
  (∀ h p m1, state_of (propose_hook h p m1) = m1) →
  let m' := state_of (onPropose propose_hook info m) in
  ∃ p h',
    SessionManager.pendingSessions m' !! ISessionInfo.sessionId info = Some p
    ∧ IPendingSession.id p = ISessionInfo.sessionId info
    ∧ IPendingSession.sessionType p = BaseSessionHandler.sessionType h
    ∧ result_of (getSessionHandler (by_sessionType (BaseSessionHandler.sessionType h)) m')
      = Ok h'
    ∧ proceedWithSession proceed_hook (ISessionInfo.sessionId info) m' = proceed_hook h' p m'
    ∧ rejectPendingSession reject_hook (ISessionInfo.sessionId info) m' = reject_hook h' p m'.
Proof.
  intros Hh Hen Hnone Hname Hframe m'.
  pose proof (onPropose_fresh_run propose_hook info m h Hh Hen Hnone Hname) as Hrun.
  lazy zeta in Hrun.
  set (p := IPendingSession.mk _ _ _ _ _ _ _) in Hrun.
  set (m1 := SessionManager.mk _ _ _) in Hrun.
  assert (Hm' : m' = m1).
  { unfold m'. rewrite Hrun. exact (Hframe h p m1). }
  clearbody m'. subst m'. clear Hrun.
  assert (Hp : SessionManager.pendingSessions m1 !! ISessionInfo.sessionId info = Some p)
    by apply lookup_insert_eq.
  assert (Hin : h ∈ SessionManager.sessionHandlers m1).
  { unfold getSessionHandler, bind, get, ret, throwSdkError, throw in Hh. simpl in Hh.
    destruct (js_or _ _) as [jid|]; simpl in Hh; [|done].
    destruct (truthy jid); simpl in Hh; [|done].
    destruct (List.find _ _) as [h0|] eqn:Hfind; simpl in Hh; [|done].
    injection Hh as ->. apply find_some in Hfind as [Hfind _]. by apply list_elem_of_In. }
  destruct (find_is_Some
              (λ h0, SessionTypes.eqb (BaseSessionHandler.sessionType h0)
                       (BaseSessionHandler.sessionType h))
              (SessionManager.sessionHandlers m1) h Hin) as [h' Hh'].
  { by apply SessionTypes_eqb_eq. }
  assert (Hres : result_of (getSessionHandler
                              (by_sessionType (BaseSessionHandler.sessionType h)) m1) = Ok h').
  { rewrite getSessionHandler_by_type_find. unfold result_of. cbn [snd]. by rewrite Hh'. }
  exists p, h'. split; [done|]. split; [done|]. split; [done|]. split; [done|].
  rewrite proceedWithSession_run, rejectPendingSession_run, Hp. simpl.
  by rewrite Hres.
Qed.

(** ** Initialising sessions, conversation updates, outgoing media *)

(** X21. [onSessionInit] finds the handler by the peer address.  If that
    handler is disabled the session is left as it is and the handler is not
    called.  Otherwise the handler's [handleSessionInit] gets the session
    with the handler's own type written on it, whatever type it carried, and
    nothing else changed; from then on the lookup by the session's type
    cannot fail. *)
Theorem onSessionInit_stamps_the_handler_type
    (hook : BaseSessionHandler.t → IJingleSession.t → Eff IJingleSession.t)
    (m : SessionManager.t) (s : IJingleSession.t) (h : BaseSessionHandler.t) :
  getSessionHandler (by_jingleSession s) m = (m, [], Ok h) →
  let s' := withSessionType (BaseSessionHandler.sessionType h) s in
  (BaseSessionHandler.disabled h = true → onSessionInit hook s m = (m, [], Ok s))
  ∧ (BaseSessionHandler.disabled h = false → onSessionInit hook s m = hook h s' m)
  ∧ IJingleSession.sessionType s' = Some (BaseSessionHandler.sessionType h)
  ∧ IJingleSession.id s' = IJingleSession.id s
  ∧ IJingleSession.peerID s' = IJingleSession.peerID s
  ∧ IJingleSession.conversationId s' = IJingleSession.conversationId s
  ∧ is_Ok (result_of (getSessionHandler (by_typeOf s') m)) = true.
Proof.
  intros Hh s'.
  assert (Hrun : onSessionInit hook s m
                 = if BaseSessionHandler.disabled h then (m, [], Ok s) else hook h s' m).
  { unfold onSessionInit. rewrite (bind_ok _ _ _ _ _ _ Hh).
    destruct (BaseSessionHandler.disabled h); [done|].
    fold s'. by destruct (hook h s' m) as [[m2 t2] r2]. }
  split; [intros Hd; by rewrite Hrun, Hd|]. split; [intros Hd; by rewrite Hrun, Hd|].
  repeat split.
  assert (Hin : h ∈ SessionManager.sessionHandlers m).
  { unfold getSessionHandler, bind, get, ret, throwSdkError, throw in Hh. simpl in Hh.
    destruct (truthy (IJingleSession.peerID s)); simpl in Hh; [|done].
    destruct (List.find _ _) as [h0|] eqn:Hfind; simpl in Hh; [|done].
    injection Hh as ->. apply find_some in Hfind as [Hfind _]. by apply list_elem_of_In. }
  destruct (find_is_Some
              (λ h0, SessionTypes.eqb (BaseSessionHandler.sessionType h0)
                       (BaseSessionHandler.sessionType h))
              (SessionManager.sessionHandlers m) h Hin) as [h' Hh'].
  { by apply SessionTypes_eqb_eq. }
  change (by_typeOf s') with (by_sessionType (BaseSessionHandler.sessionType h)).
  rewrite getSessionHandler_by_type_find. unfold result_of. cbn [snd]. by rewrite Hh'.
Qed.

Lemma forEach_skip {A} (f : A → Eff unit) (P : A → bool) (l : list A) (m : SessionManager.t) :
  (∀ x m', P x = false → f x m' = (m', [], Ok tt)) →
  forEach f l m = forEach f (List.filter P l) m.
Proof.
  intros Hskip. revert m. induction l as [|x l IH]; intros m; [done|].
  simpl. destruct (P x) eqn:HP; simpl.
  - unfold bind. destruct (f x m) as [[m1 t1] [[]|e]]; [|done]. by rewrite IH.
  - rewrite (bind_ok _ _ _ _ _ _ (Hskip x m HP)). rewrite IH.
    by destruct (forEach f (List.filter P l) m) as [[m2 t2] r2].
Qed.

(** X22. A conversation update concerns the sessions of that conversation
    only, in the order of the collection: the call is the same as if the
    collection held no other session, and when no session belongs to the
    conversation nothing happens at all, whatever the handlers. *)
Theorem handleConversationUpdate_skips_other_conversations
    (hook : BaseSessionHandler.t → IJingleSession.t → ConversationUpdate.t → Eff unit)
    (update : ConversationUpdate.t) (m : SessionManager.t) :
  let concerned :=
    List.filter
      (λ s, String.eqb (IJingleSession.conversationId s) (ConversationUpdate.id update))
      (Object_values (SessionManager.sessions m)) in
  handleConversationUpdate hook update m = forEach (deliverUpdate hook update) concerned m
  ∧ (concerned = [] → handleConversationUpdate hook update m = (m, [], Ok tt)).
Proof.
  intros concerned.
  assert (Hrun : handleConversationUpdate hook update m
                 = forEach (deliverUpdate hook update) concerned m).
  { unfold handleConversationUpdate.
    rewrite (bind_ok _ _ _ _ _ _ (eq_refl : get m = (m, [], Ok m))).
    rewrite (forEach_skip _
               (λ s, String.eqb (IJingleSession.conversationId s) (ConversationUpdate.id update))).
    - fold concerned. by destruct (forEach _ concerned m) as [[m2 t2] r2].
    - intros s m' Hs. unfold deliverUpdate. by rewrite Hs. }
  split; [done|]. intros Hnil. by rewrite Hrun, Hnil.
Qed.

Lemma updateOutgoingMedia_run
    (hook : BaseSessionHandler.t → IJingleSession.t → UpdateOutgoingMediaOptions.t → Eff unit)
    (m : SessionManager.t) (options : UpdateOutgoingMediaOptions.t)
    (s : IJingleSession.t) (h : BaseSessionHandler.t) :
  UpdateOutgoingMediaOptions.session options = Some s
  ∨ (UpdateOutgoingMediaOptions.session options = None
     ∧ ∃ i, UpdateOutgoingMediaOptions.sessionId options = Some i ∧ truthy i = true
            ∧ lookup_session i (SessionManager.sessions m) = Some s) →
  result_of (getSessionHandler (by_jingleSession s) m) = Ok h →
  updateOutgoingMedia hook options m = hook h s options m.
Proof.
  intros Hs Hh.
  destruct (getSessionHandler_frame (by_jingleSession s) m) as [r Hr].
  rewrite Hr in Hh. unfold result_of in Hh. simpl in Hh. subst r.
  unfold updateOutgoingMedia.
  assert (Hget : match UpdateOutgoingMediaOptions.session options with
                 | Some s0 => ret (Own s0)
                 | None =>
                     getSession (IEndSessionRequest.mk
                                   (UpdateOutgoingMediaOptions.sessionId options) None)
                 end m = (m, [], Ok (Own s))).
  { destruct Hs as [->|(-> & i & -> & Hi & Hl)]; [done|]. by apply getSession_by_id. }
  rewrite (bind_ok _ _ _ _ _ _ Hget).
  change (by_found (Own s)) with (by_jingleSession s).
  rewrite (bind_ok _ _ _ _ _ _ Hr). simpl.
  by destruct (hook h s options m) as [[m2 t2] r2].
Qed.

(** X23. An outgoing-media update goes to the session that is handed over
    with it, whatever id comes along and whether or not the collection
    holds that session; without one it goes to the session stored under the
    id.  In both cases it is the [updateOutgoingMedia] of the handler that
    owns the peer of that session, called with the options as given.  With
    no session and an id under which the collection holds none (and which
    is not the name of a member every object inherits), the call fails at
    the lookup with a [session] error and no handler is called. *)
Theorem updateOutgoingMedia_prefers_the_given_session
    (hook : BaseSessionHandler.t → IJingleSession.t → UpdateOutgoingMediaOptions.t → Eff unit)
    (m : SessionManager.t) (video audio : option DeviceSelector) :
  (∀ s h sessionId,
     result_of (getSessionHandler (by_jingleSession s) m) = Ok h →
     updateOutgoingMedia hook (UpdateOutgoingMediaOptions.mk (Some s) sessionId video audio) m
     = hook h s (UpdateOutgoingMediaOptions.mk (Some s) sessionId video audio) m)
  ∧ (∀ s h i,
       truthy i = true →
       lookup_session i (SessionManager.sessions m) = Some s →
       result_of (getSessionHandler (by_jingleSession s) m) = Ok h →
       updateOutgoingMedia hook (UpdateOutgoingMediaOptions.mk None (Some i) video audio) m
       = hook h s (UpdateOutgoingMediaOptions.mk None (Some i) video audio) m)
  ∧ (∀ i,
       truthy i = true →
       (i ∉ map fst (SessionManager.sessions m)) →
       existsb (String.eqb i)
         ["constructor"; "__defineGetter__"; "__defineSetter__"; "hasOwnProperty";
          "__lookupGetter__"; "__lookupSetter__"; "isPrototypeOf"; "propertyIsEnumerable";
          "toString"; "valueOf"; "__proto__"; "toLocaleString"] = false →
       updateOutgoingMedia hook (UpdateOutgoingMediaOptions.mk None (Some i) video audio) m
       = (m, [],
          Throw (SdkError SdkErrorTypes.session "Unable to find session"
                   (SessionLookup (IEndSessionRequest.mk (Some i) None))))).
Proof.
  split; [|split].
  - intros s h sessionId Hh. apply updateOutgoingMedia_run; [by left|done].
  - intros s h i Hi Hl Hh. apply updateOutgoingMedia_run; [|done].
    right. split; [done|]. by exists i.
  - intros i Hi Hnotin Hname. apply lookup_session_None in Hnotin.
    unfold updateOutgoingMedia, getSession, bind, get, ret, throwSdkError, throw. simpl.
    rewrite Hi. unfold sessions_get. by rewrite (property_None _ _ Hnotin Hname).
Qed.

(** X24. Through the manager, the video selector of an outgoing-media update
    never reaches the base handler for a session the softphone handler owns:
    the update is the base handler's update with the video selector absent
    and the rest of the options as given, so two requests that differ in the
    video selector only are the same. *)
Theorem softphone_update_drops_the_video_selector
    (super_update : IJingleSession.t → UpdateOutgoingMediaOptions.t → Eff unit)
    (other : BaseSessionHandler.t → IJingleSession.t → UpdateOutgoingMediaOptions.t → Eff unit)
    (m : SessionManager.t) (s : IJingleSession.t) (h : BaseSessionHandler.t)
    (sessionId : option string) (audio : option DeviceSelector) :
  result_of (getSessionHandler (by_jingleSession s) m) = Ok h →
  BaseSessionHandler.sessionType h = SessionTypes.softphone →
  ∀ video video',
    updateOutgoingMedia (updateOutgoingMedia_dispatch super_update other)
      (UpdateOutgoingMediaOptions.mk (Some s) sessionId video audio) m
    = super_update s (UpdateOutgoingMediaOptions.mk (Some s) sessionId None audio) m
    ∧ updateOutgoingMedia (updateOutgoingMedia_dispatch super_update other)
        (UpdateOutgoingMediaOptions.mk (Some s) sessionId video audio) m
      = updateOutgoingMedia (updateOutgoingMedia_dispatch super_update other)
          (UpdateOutgoingMediaOptions.mk (Some s) sessionId video' audio) m.
Proof.
  intros Hh Hty.
  assert (Hrun : ∀ video,
            updateOutgoingMedia (updateOutgoingMedia_dispatch super_update other)
              (UpdateOutgoingMediaOptions.mk (Some s) sessionId video audio) m
            = super_update s (UpdateOutgoingMediaOptions.mk (Some s) sessionId None audio) m).
  { intros video.
    destruct (getSessionHandler_frame (by_jingleSession s) m) as [r Hr].
    rewrite Hr in Hh. unfold result_of in Hh. simpl in Hh. subst r.
    rewrite (updateOutgoingMedia_run _ m _ s h); [|by left|by rewrite Hr].
    unfold updateOutgoingMedia_dispatch. rewrite Hty. reflexivity. }
  intros video video'. split; [apply Hrun|]. by rewrite !Hrun.
Qed.

(** ** Softphone session handler: proposals and mute *)

(** X25. The softphone handler answers a proposal at once only when the
    proposal asks for it and auto answer is not disabled in the
    configuration; in every other case its [handlePropose] is the base
    handler's.  As long as the base handler's two methods only ever drop
    pending entries, so does the override, and the registry of the manager
    stays keyed by id over any sequence of proposals. *)
Theorem softphone_handlePropose_answers_only_on_request
    (super_handlePropose proceed : IPendingSession.t → Eff unit)
    (disableAutoAnswer : bool) :
  (∀ p m, SessionManager.pendingSessions (state_of (super_handlePropose p m))
          ⊆ SessionManager.pendingSessions m) →
  (∀ p m, SessionManager.pendingSessions (state_of (proceed p m))
          ⊆ SessionManager.pendingSessions m) →
  (∀ p m, IPendingSession.autoAnswer p && negb disableAutoAnswer = false →
     state_of (SoftphoneOverrides.handlePropose super_handlePropose proceed
                 disableAutoAnswer p m) = state_of (super_handlePropose p m)
     ∧ trace_of (SoftphoneOverrides.handlePropose super_handlePropose proceed
                   disableAutoAnswer p m) = trace_of (super_handlePropose p m)
     ∧ result_of (SoftphoneOverrides.handlePropose super_handlePropose proceed
                    disableAutoAnswer p m) = result_of (super_handlePropose p m))
  ∧ (∀ p m m1 t1, IPendingSession.autoAnswer p && negb disableAutoAnswer = true →
       super_handlePropose p m = (m1, t1, Ok tt) →
       state_of (SoftphoneOverrides.handlePropose super_handlePropose proceed
                   disableAutoAnswer p m) = state_of (proceed p m1)
       ∧ trace_of (SoftphoneOverrides.handlePropose super_handlePropose proceed
                     disableAutoAnswer p m) = t1 ++ trace_of (proceed p m1)
       ∧ result_of (SoftphoneOverrides.handlePropose super_handlePropose proceed
                      disableAutoAnswer p m) = result_of (proceed p m1))
  ∧ ∀ infos m,
      keyed_by_id (SessionManager.pendingSessions m) →
      keyed_by_id
        (SessionManager.pendingSessions
           (onProposeAll
              (λ _ p, SoftphoneOverrides.handlePropose super_handlePropose proceed
                        disableAutoAnswer p)
              infos m)).
Proof.
  intros Hsuper Hproceed. split; [|split].
  - intros p m Hoff. unfold SoftphoneOverrides.handlePropose, bind. rewrite Hoff.
    destruct (super_handlePropose p m) as [[m1 t1] [[]|e]]; simpl; [|done].
    by rewrite app_nil_r.
  - intros p m m1 t1 Hon Hrun. unfold SoftphoneOverrides.handlePropose, bind.
    rewrite Hon, Hrun. by destruct (proceed p m1) as [[m2 t2] r2].
  - intros infos m Hk. apply onProposeAll_keyed; [|done].
    intros h p m0. unfold SoftphoneOverrides.handlePropose, bind.
    specialize (Hsuper p m0).
    destruct (super_handlePropose p m0) as [[m1 t1] [[]|e]]; simpl in *; [|done].
    destruct (IPendingSession.autoAnswer p && negb disableAutoAnswer); [|done].
    specialize (Hproceed p m1).
    destruct (proceed p m1) as [[m2 t2] r2]; simpl in *.
    by etrans.
Qed.

(** X26. Whatever goes wrong while the softphone handler mutes, the caller
    sees one error: type [generic], message "Failed to set audioMute", with
    the conversation of the session and the id of the request.  When the
    participant cannot be resolved the patch is never sent; when it is
    resolved, the patch goes to the path of that participant with the
    requested value, on the session that now caches the participant. *)
Theorem softphone_setAudioMute_wraps_every_failure
    (patchMuted : string → bool → SoftphoneSessionHandler.Async unit)
    (env : SoftphoneSessionHandler.Env) (params : ISessionMuteRequest.t)
    (s : IJingleSession.t) :
  let failure :=
    SdkError SdkErrorTypes.generic "Failed to set audioMute"
      (ConversationContext (IJingleSession.conversationId s)
         (Some (ISessionMuteRequest.id params))) in
  (∀ e, (SoftphoneOverrides.setAudioMute patchMuted env params s).2
        = Rejected e → e = failure)
  ∧ (∀ s1 t1 e,
       SoftphoneSessionHandler.getParticipantForSession env s
       = (s1, t1, Rejected e) →
       SoftphoneOverrides.setAudioMute patchMuted env params s
       = (s1, Log LogLevels.info "Muting audio" :: t1,
          Rejected failure))
  ∧ (∀ s1 t1 p s2 t2,
       SoftphoneSessionHandler.getParticipantForSession env s
       = (s1, t1, Fulfilled p) →
       patchMuted (SoftphoneSessionHandler.participantPath s p)
         (ISessionMuteRequest.mute params) s1
       = (s2, t2, Fulfilled tt) →
       SoftphoneOverrides.setAudioMute patchMuted env params s
       = (s2, Log LogLevels.info "Muting audio" :: t1 ++ t2,
          Fulfilled tt)).
Proof.
  intros failure. split; [|split].
  - intros e.
    unfold SoftphoneOverrides.setAudioMute, SoftphoneSessionHandler.abind,
      SoftphoneSessionHandler.try_catch, SoftphoneSessionHandler.this_session,
      SoftphoneSessionHandler.aemit, SoftphoneSessionHandler.athrow,
      createAndEmitSdkError.
    destruct (SoftphoneSessionHandler.getParticipantForSession env s) as [[s1 t1] [p|e1|]];
      simpl; [|by intros [= <-]|done].
    destruct (patchMuted _ _ s1) as [[s2 t2] [[]|e2|]]; simpl; [done| |done].
    by intros [= <-].
  - intros s1 t1 e Hp.
    unfold SoftphoneOverrides.setAudioMute, SoftphoneSessionHandler.abind,
      SoftphoneSessionHandler.try_catch, SoftphoneSessionHandler.this_session,
      SoftphoneSessionHandler.aemit, SoftphoneSessionHandler.athrow,
      createAndEmitSdkError.
    rewrite Hp. simpl. by rewrite !app_nil_r.
  - intros s1 t1 p s2 t2 Hp Hpatch.
    unfold SoftphoneOverrides.setAudioMute, SoftphoneSessionHandler.abind,
      SoftphoneSessionHandler.try_catch, SoftphoneSessionHandler.this_session,
      SoftphoneSessionHandler.aemit, SoftphoneSessionHandler.athrow,
      createAndEmitSdkError.
    rewrite Hp. rewrite Hpatch. done.
Qed.

(** ** Ids that name an inherited member *)

Lemma inherited_truthy (name : string) : inherited name = true → truthy name = true.
Proof. by destruct name. Qed.

Lemma getSession_inherited (m : SessionManager.t) (name : string) (c : option string) :
  inherited name = true →
  (name ∉ map fst (SessionManager.sessions m)) →
  getSession (IEndSessionRequest.mk (Some name) c) m = (m, [], Ok (Inherited name)).
Proof.
  intros Hname Hnotin. apply lookup_session_None in Hnotin.
  unfold getSession, bind, get, ret. simpl. rewrite (inherited_truthy _ Hname).
  unfold sessions_get, property. by rewrite Hnotin, Hname.
Qed.

(** X27. An id that is the name of a member every object inherits, and under
    which the collection holds no session, is not reported as unknown: the
    lookup by id reads the inherited member and [getSession] returns it.
    The member has neither a peer nor a type, so [acceptSession],
    [endSession] and the two mute requests fail in the handler lookup, with
    its [generic] error, and no handler is called. *)
Theorem lookup_by_inherited_name_fails_in_the_handler_lookup
    (m : SessionManager.t) (name : string) :
  existsb (String.eqb name)
    ["constructor"; "__defineGetter__"; "__defineSetter__"; "hasOwnProperty";
     "__lookupGetter__"; "__lookupSetter__"; "isPrototypeOf"; "propertyIsEnumerable";
     "toString"; "valueOf"; "__proto__"; "toLocaleString"] = true →
  (name ∉ map fst (SessionManager.sessions m)) →
  let noInformation params :=
    SdkError SdkErrorTypes.generic
      "getSessionHandler was called without any identifying information"
      (HandlerLookup params) in
  getSession (IEndSessionRequest.mk (Some name) None) m = (m, [], Ok (Inherited name))
  ∧ acceptSession (Some (IAcceptSessionRequest.mk name)) m
    = (m, [], Throw (noInformation (HandlerParams.mk None None (Some (Inherited name)))))
  ∧ (∀ c, endSession (IEndSessionRequest.mk (Some name) c) m
          = (m, [], Throw (noInformation (HandlerParams.mk None None (Some (Inherited name))))))
  ∧ (∀ mute,
       setVideoMute (ISessionMuteRequest.mk name mute) m
       = (m, [], Throw (noInformation (HandlerParams.mk None None None)))
       ∧ setAudioMute (ISessionMuteRequest.mk name mute) m
         = (m, [], Throw (noInformation (HandlerParams.mk None None None)))).
Proof.
  intros Hname Hnotin noInformation.
  change (inherited name = true) in Hname.
  pose proof (inherited_truthy _ Hname) as Htruthy.
  split; [by apply getSession_inherited|]. split; [|split].
  - unfold acceptSession. cbn [IAcceptSessionRequest.id]. rewrite Htruthy. cbn [negb].
    by rewrite (bind_ok _ _ _ _ _ _ (getSession_inherited m name None Hname Hnotin)).
  - intros c. unfold endSession.
    assert (Hguard : negb (truthy_opt (IEndSessionRequest.id (IEndSessionRequest.mk (Some name) c)))
                     && negb (truthy_opt (IEndSessionRequest.conversationId
                                            (IEndSessionRequest.mk (Some name) c))) = false).
    { cbn [IEndSessionRequest.id truthy_opt]. by rewrite Htruthy. }
    rewrite Hguard.
    rewrite (bind_ok _ _ _ _ _ _ (eq_refl : ret tt m = (m, [], Ok tt))).
    by rewrite (bind_ok _ _ _ _ _ _ (getSession_inherited m name c Hname Hnotin)).
  - intros mute. unfold setVideoMute, setAudioMute. cbn [ISessionMuteRequest.id].
    by rewrite !(bind_ok _ _ _ _ _ _ (getSession_inherited m name None Hname Hnotin)).
Qed.

(** The use of an inherited member as a session, which the model records as
    an event of its own, is never reached: whenever a lookup by id read
    such a member, the handler lookup that follows has thrown. *)
Lemma writes_only_handler_then_session {A} P (params : Property A → HandlerParams.t)
    (session : Property A) (k : BaseSessionHandler.t → A → Eff unit) :
  (∀ name m, is_Ok (result_of (getSessionHandler (params (Inherited name)) m)) = false) →
  (∀ h s, writes_only P (k h s)) →
  writes_only P (let* h := getSessionHandler (params session) in asSession session (k h)).
Proof.
  intros Hthrows Hk. destruct session as [s|name].
  - apply writes_only_bind; [apply writes_only_getSessionHandler|]. intros h. apply Hk.
  - intros m. unfold bind. specialize (Hthrows name m).
    destruct (getSessionHandler_frame (params (Inherited name)) m) as [r Hr].
    rewrite Hr in Hthrows |- *. destruct r as [h|e]; [done|]. constructor.
Qed.

Lemma no_inherited_member_is_used
    (hasOutputDeviceSupport : bool)
    (videoDevices audioDevices outputDevices : list MediaDeviceInfo.t)
    (getValidDeviceId : MediaDeviceKind.t → DeviceSelector → option string) :
  let unused e := ∀ name, e ≠ InheritedMemberUsed name in
  (∀ params, writes_only unused (acceptSession params))
  ∧ (∀ params, writes_only unused (endSession params))
  ∧ (∀ params, writes_only unused (setVideoMute params))
  ∧ (∀ params, writes_only unused (setAudioMute params))
  ∧ writes_only unused
      (validateOutgoingMediaTracks hasOutputDeviceSupport videoDevices audioDevices
         outputDevices getValidDeviceId).
Proof.
  intros unused.
  assert (Hlog : ∀ e, is_Log e = true → unused e) by (intros e He n; by destruct e).
  split; [|split; [|split; [|split]]].
  - intros [p|]; [|apply writes_only_throw]. unfold acceptSession.
    destruct (negb _); [apply writes_only_throw|].
    apply writes_only_bind; [apply writes_only_getSession|]. intros session.
    apply (writes_only_handler_then_session unused by_found); [done|].
    intros h s. by apply writes_only_emit.
  - intros params. unfold endSession.
    apply writes_only_bind.
    { destruct (_ && _); [apply writes_only_throw|apply writes_only_ret]. }
    intros _. apply writes_only_bind; [apply writes_only_getSession|]. intros session.
    apply (writes_only_handler_then_session unused by_found); [done|].
    intros h s. by apply writes_only_emit.
  - intros params. unfold setVideoMute.
    apply writes_only_bind; [apply writes_only_getSession|]. intros session.
    apply (writes_only_handler_then_session unused by_typeOf_found); [done|].
    intros h s. by apply writes_only_emit.
  - intros params. unfold setAudioMute.
    apply writes_only_bind; [apply writes_only_getSession|]. intros session.
    apply (writes_only_handler_then_session unused by_typeOf_found); [done|].
    intros h s. by apply writes_only_emit.
  - apply validate_writes_only; [done| |].
    + intros [k mt]. unfold updateSession.
      apply writes_only_bind; [apply writes_only_getSession|]. intros session.
      apply (writes_only_handler_then_session unused by_found); [done|].
      intros h s. apply writes_only_bind.
      { unfold switchVideo. destruct (MediaToUpdate.video mt); [|apply writes_only_ret].
        destruct videoDevices; [|apply writes_only_ret].
        apply writes_only_bind; [by apply writes_only_emit|]. intros _.
        apply writes_only_bind; [by apply writes_only_emit|]. intros _.
        apply writes_only_ret. }
      intros v. apply writes_only_bind.
      { unfold switchAudio. destruct (MediaToUpdate.audio mt); [|apply writes_only_ret].
        destruct audioDevices; [|apply writes_only_ret].
        apply writes_only_bind; [by apply writes_only_emit|]. intros _.
        apply writes_only_bind; [by apply writes_only_emit|]. intros _.
        apply writes_only_bind; [|intros _; apply writes_only_ret].
        apply writes_only_forEach. intros sender. by apply dropSender_writes_only. }
      intros a. apply writes_only_when. by apply writes_only_emit.
    + apply updateOutput_writes_only; [done|]. by intros h i d n.
Qed.

(** ** The properties at concrete calls *)

Lemma pass_with_only_output_lost_is_the_bulk_update_witness :
  Forall (λ s, forallb (deviceExists [Examples.builtinCamera] [Examples.builtinMicrophone])
                 (outgoingTracks s) = true)
    (activeSessions Examples.twoCalls)
  ∧ Scan.updateOutputDeviceForAllSessions
      (scan true [Examples.builtinCamera] [Examples.builtinMicrophone] [MoreExamples.headset]
         (activeSessions Examples.twoCalls)) = true
  ∧ validateOutgoingMediaTracks true [Examples.builtinCamera] [Examples.builtinMicrophone]
      [MoreExamples.headset] (Examples.resolveFrom [MoreExamples.headset]) Examples.twoCalls
    = (Examples.twoCalls,
       [Log LogLevels.debug "sessions outgoing track still has available device";
        Log LogLevels.info "session lost output device and will attempt to switch device";
        Log LogLevels.debug "sessions outgoing track still has available device";
        Log LogLevels.debug "sessions outgoing track still has available device";
        Log LogLevels.info "session lost output device and will attempt to switch device";
        Log LogLevels.info "Updating output deviceId for all active sessions";
        HandlerUpdateOutputDevice SessionTypes.softphone "s1" "speaker-2";
        HandlerUpdateOutputDevice SessionTypes.collaborateVideo "s2" "speaker-2"],
       Ok tt).
Proof.
  assert (H1 : Forall (λ s, forallb (deviceExists [Examples.builtinCamera]
                                       [Examples.builtinMicrophone])
                              (outgoingTracks s) = true)
                 (activeSessions Examples.twoCalls)) by (repeat constructor).
  assert (H2 : Scan.updateOutputDeviceForAllSessions
                 (scan true [Examples.builtinCamera] [Examples.builtinMicrophone]
                    [MoreExamples.headset] (activeSessions Examples.twoCalls)) = true)
    by reflexivity.
  exact (conj H1 (conj H2
           (pass_with_only_output_lost_is_the_bulk_update true [Examples.builtinCamera]
              [Examples.builtinMicrophone] [MoreExamples.headset]
              (Examples.resolveFrom [MoreExamples.headset]) Examples.twoCalls H1 H2))).
Defined.

Lemma pass_without_output_support_never_updates_output_witness :
  false = false
  ∧ ∀ e, e ∈ trace_of (validateOutgoingMediaTracks false [Examples.builtinCamera] [] []
                         (Examples.resolveFrom []) Examples.twoCalls) →
         (∀ ty id deviceId, e ≠ HandlerUpdateOutputDevice ty id deviceId)
         ∧ e ≠ Log LogLevels.info "Updating output deviceId for all active sessions"
         ∧ e ≠ Log LogLevels.info
                 "session lost output device and will attempt to switch device".
Proof.
  split; [reflexivity|].
  exact (pass_without_output_support_never_updates_output false [Examples.builtinCamera] [] []
           (Examples.resolveFrom []) Examples.twoCalls eq_refl).
Defined.

Lemma updateOutputDevice_known_literal_fans_out_witness :
  Examples.resolveFrom [Examples.speaker; MoreExamples.headset] MediaDeviceKind.audiooutput
    (DeviceString "speaker-2") = Some "speaker-2"
  ∧ handlers_resolve MoreExamples.mixedCalls
  ∧ ∃ t, updateOutputDeviceForAllSessions
           (Examples.resolveFrom [Examples.speaker; MoreExamples.headset])
           (DeviceString "speaker-2") MoreExamples.mixedCalls
         = (MoreExamples.mixedCalls,
            Log LogLevels.info "Updating output deviceId for all active sessions" :: t, Ok tt)
         ∧ Forall2
             (λ s e,
                ∃ h, List.find
                       (λ h', BaseSessionHandler.shouldHandleSessionByJid h'
                                (IJingleSession.peerID s))
                       Examples.handlers = Some h
                     ∧ e = HandlerUpdateOutputDevice (BaseSessionHandler.sessionType h)
                             (IJingleSession.id s) "speaker-2")
             [Examples.softphoneSession "s1"] t.
Proof.
  split; [reflexivity|]. split; [exact mixedCalls_resolve|].
  exact (updateOutputDevice_known_literal_fans_out
           (Examples.resolveFrom [Examples.speaker; MoreExamples.headset])
           MoreExamples.mixedCalls "speaker-2" eq_refl mixedCalls_resolve).
Defined.

Lemma mute_goes_by_the_recorded_type_witness :
  truthy "s2" = true
  ∧ lookup_session "s2" (SessionManager.sessions Examples.twoCalls)
    = Some (Examples.videoSession "s2")
  ∧ setVideoMute (ISessionMuteRequest.mk "s2" true) Examples.twoCalls
    = (Examples.twoCalls, [HandlerSetVideoMute SessionTypes.collaborateVideo "s2" true], Ok tt)
  ∧ setAudioMute (ISessionMuteRequest.mk "s2" true) Examples.twoCalls
    = (Examples.twoCalls, [HandlerSetAudioMute SessionTypes.collaborateVideo "s2" true], Ok tt).
Proof.
  split; [reflexivity|]. split; [reflexivity|].
  exact (mute_goes_by_the_recorded_type Examples.twoCalls (ISessionMuteRequest.mk "s2" true)
           (Examples.videoSession "s2") eq_refl eq_refl Examples.videoHandler eq_refl).
Defined.

Lemma acceptSession_delegates_by_address_witness :
  truthy "s1" = true
  ∧ lookup_session "s1" (SessionManager.sessions Examples.twoCalls)
    = Some (Examples.softphoneSession "s1")
  ∧ getSessionHandler (by_jingleSession (Examples.softphoneSession "s1")) Examples.twoCalls
    = (Examples.twoCalls, [], Ok Examples.softphoneHandler)
  ∧ acceptSession (Some (IAcceptSessionRequest.mk "s1")) Examples.twoCalls
    = (Examples.twoCalls, [HandlerAcceptSession SessionTypes.softphone "s1"], Ok tt).
Proof.
  split; [reflexivity|]. split; [reflexivity|]. split; [reflexivity|].
  exact (acceptSession_delegates_by_address Examples.twoCalls (IAcceptSessionRequest.mk "s1")
           (Examples.softphoneSession "s1") Examples.softphoneHandler
           eq_refl eq_refl eq_refl).
Defined.

Lemma onPropose_registers_before_the_hook_witness :
  getSessionHandler (by_sessionInfo (Examples.proposal "p2" false)) Examples.withPending
  = (Examples.withPending, [], Ok Examples.softphoneHandler)
  ∧ BaseSessionHandler.disabled Examples.softphoneHandler = false
  ∧ SessionManager.pendingSessions Examples.withPending !! "p2" = None
  ∧ inherited "p2" = false
  ∧ onPropose Examples.autoAnswerHook (Examples.proposal "p2" false) Examples.withPending
    = (SessionManager.mk Examples.handlers
         (<["p2" := Examples.pending "p2"]> {[ "p1" := Examples.pending "p1" ]}) [],
       [Log LogLevels.info "onPendingSession";
        HandlePropose SessionTypes.softphone (Examples.pending "p2")],
       Ok tt).
Proof.
  split; [reflexivity|]. split; [reflexivity|]. split; [reflexivity|].
  split; [reflexivity|].
  exact (proj2 (proj2 (onPropose_registers_before_the_hook Examples.autoAnswerHook
                         (Examples.proposal "p2" false) Examples.withPending
                         Examples.softphoneHandler eq_refl eq_refl eq_refl eq_refl))).
Defined.

Lemma removePendingSession_allows_a_new_proposal_witness :
  getSessionHandler (by_sessionInfo (Examples.proposal "p1" false)) Examples.withPending
  = (Examples.withPending, [], Ok Examples.softphoneHandler)
  ∧ BaseSessionHandler.disabled Examples.softphoneHandler = false
  ∧ existsb is_HandlePropose
      (trace_of (onPropose Examples.autoAnswerHook (Examples.proposal "p1" false)
                   Examples.withPending)) = false
  ∧ existsb is_HandlePropose
      (trace_of (onPropose Examples.autoAnswerHook (Examples.proposal "p1" false)
                   (state_of (removePendingSession "p1" Examples.withPending)))) = true
  ∧ existsb is_HandlePropose
      (trace_of (onPropose Examples.autoAnswerHook (Examples.proposal "toString" false)
                   (state_of (removePendingSession "toString" Examples.withPending))))
    = false.
Proof.
  split; [reflexivity|]. split; [reflexivity|]. split; [reflexivity|]. split.
  - exact (proj2 (proj2 (proj2 (proj2
             (removePendingSession_allows_a_new_proposal Examples.autoAnswerHook
                (Examples.proposal "p1" false) Examples.withPending
                Examples.softphoneHandler eq_refl eq_refl))))).
  - exact (proj2 (proj2 (proj2 (proj2
             (removePendingSession_allows_a_new_proposal Examples.autoAnswerHook
                (Examples.proposal "toString" false) Examples.withPending
                Examples.softphoneHandler eq_refl eq_refl))))).
Defined.

Lemma construct_enables_the_allowed_types_witness :
  (∀ ty, ty ∈ [SessionTypes.softphone; SessionTypes.collaborateVideo] →
     ∃ h, h ∈ MoreExamples.disabledHandlers ∧ BaseSessionHandler.sessionType h = ty)
  ∧ ∃ m t,
      construct MoreExamples.disabledHandlers []
        [SessionTypes.softphone; SessionTypes.collaborateVideo] = (m, t, Ok tt)
      ∧ SessionManager.pendingSessions m = ∅
      ∧ SessionManager.sessions m = []
      ∧ map BaseSessionHandler.sessionType (SessionManager.sessionHandlers m)
        = map BaseSessionHandler.sessionType MoreExamples.disabledHandlers
      ∧ map BaseSessionHandler.shouldHandleSessionByJid (SessionManager.sessionHandlers m)
        = map BaseSessionHandler.shouldHandleSessionByJid MoreExamples.disabledHandlers
      ∧ (∀ ty, ty ∈ [SessionTypes.softphone; SessionTypes.collaborateVideo] →
           ∃ h, result_of (getSessionHandler (by_sessionType ty) m) = Ok h
                ∧ BaseSessionHandler.disabled h = false)
      ∧ (∀ ty, ty ∉ [SessionTypes.softphone; SessionTypes.collaborateVideo] →
           result_of (getSessionHandler (by_sessionType ty) m)
           = result_of (getSessionHandler (by_sessionType ty)
                          (SessionManager.mk MoreExamples.disabledHandlers ∅ []))).
Proof.
  assert (H : ∀ ty, ty ∈ [SessionTypes.softphone; SessionTypes.collaborateVideo] →
                ∃ h, h ∈ MoreExamples.disabledHandlers
                     ∧ BaseSessionHandler.sessionType h = ty).
  { intros ty Hin. apply elem_of_cons in Hin as [->|Hin].
    - eexists. split; [apply list_elem_of_here|reflexivity].
    - apply elem_of_cons in Hin as [->|Hin].
      + eexists. split; [apply list_elem_of_further, list_elem_of_here|reflexivity].
      + by apply elem_of_nil in Hin. }
  exact (conj H (construct_enables_the_allowed_types MoreExamples.disabledHandlers []
                   [SessionTypes.softphone; SessionTypes.collaborateVideo] H)).
Defined.

Lemma startSession_after_construction_witness :
  (∀ ty, ty ∈ [SessionTypes.softphone] →
     ∃ h, h ∈ MoreExamples.disabledHandlers ∧ BaseSessionHandler.sessionType h = ty)
  ∧ ∃ m, state_of (construct MoreExamples.disabledHandlers [] [SessionTypes.softphone]) = m
         ∧ (SessionTypes.collaborateVideo ∈ [SessionTypes.softphone] →
            ∃ h, result_of (getSessionHandler (by_sessionType SessionTypes.collaborateVideo) m)
                 = Ok h
                 ∧ startSession (MoreExamples.noteHook "startSession") [SessionTypes.softphone]
                     (IStartSessionParams.mk SessionTypes.collaborateVideo None) m
                   = MoreExamples.noteHook "startSession" h
                       (IStartSessionParams.mk SessionTypes.collaborateVideo None) m)
         ∧ (SessionTypes.collaborateVideo ∉ [SessionTypes.softphone] →
            ∀ h0, result_of (getSessionHandler (by_sessionType SessionTypes.collaborateVideo)
                               (SessionManager.mk MoreExamples.disabledHandlers ∅ [])) = Ok h0 →
                  BaseSessionHandler.disabled h0 = true →
                  startSession (MoreExamples.noteHook "startSession") [SessionTypes.softphone]
                    (IStartSessionParams.mk SessionTypes.collaborateVideo None) m
                  = (m, [], Failed (ApiError SdkErrorTypes.generic
                                      "Cannot start a session with a disabled session handler"
                                      (StartContext
                                         (IStartSessionParams.mk SessionTypes.collaborateVideo
                                            None)
                                         [SessionTypes.softphone])))).
Proof.
  assert (H : ∀ ty, ty ∈ [SessionTypes.softphone] →
                ∃ h, h ∈ MoreExamples.disabledHandlers
                     ∧ BaseSessionHandler.sessionType h = ty).
  { intros ty Hin. apply elem_of_cons in Hin as [->|Hin].
    - eexists. split; [apply list_elem_of_here|reflexivity].
    - by apply elem_of_nil in Hin. }
  exact (conj H (startSession_after_construction (MoreExamples.noteHook "startSession")
                   MoreExamples.disabledHandlers [] [SessionTypes.softphone]
                   (IStartSessionParams.mk SessionTypes.collaborateVideo None) H)).
Defined.

Lemma proposal_then_proceed_or_reject_witness :
  getSessionHandler (by_sessionInfo (Examples.proposal "p2" false)) Examples.withPending
  = (Examples.withPending, [], Ok Examples.softphoneHandler)
  ∧ BaseSessionHandler.disabled Examples.softphoneHandler = false
  ∧ SessionManager.pendingSessions Examples.withPending !! "p2" = None
  ∧ inherited "p2" = false
  ∧ (∀ h p m1, state_of (MoreExamples.quietPropose h p m1) = m1)
  ∧ ∃ p h',
      SessionManager.pendingSessions
        (state_of (onPropose MoreExamples.quietPropose (Examples.proposal "p2" false)
                     Examples.withPending)) !! "p2" = Some p
      ∧ IPendingSession.id p = "p2"
      ∧ IPendingSession.sessionType p = SessionTypes.softphone
      ∧ result_of (getSessionHandler (by_sessionType SessionTypes.softphone)
                     (state_of (onPropose MoreExamples.quietPropose
                                  (Examples.proposal "p2" false) Examples.withPending)))
        = Ok h'
      ∧ proceedWithSession (MoreExamples.noteHook "proceed") "p2"
          (state_of (onPropose MoreExamples.quietPropose (Examples.proposal "p2" false)
                       Examples.withPending))
        = MoreExamples.noteHook "proceed" h' p
            (state_of (onPropose MoreExamples.quietPropose (Examples.proposal "p2" false)
                         Examples.withPending))
      ∧ rejectPendingSession (MoreExamples.noteHook "reject") "p2"
          (state_of (onPropose MoreExamples.quietPropose (Examples.proposal "p2" false)
                       Examples.withPending))
        = MoreExamples.noteHook "reject" h' p
            (state_of (onPropose MoreExamples.quietPropose (Examples.proposal "p2" false)
                         Examples.withPending)).
Proof.
  split; [reflexivity|]. split; [reflexivity|]. split; [reflexivity|].
  split; [reflexivity|]. split; [reflexivity|].
  exact (proposal_then_proceed_or_reject MoreExamples.quietPropose
           (MoreExamples.noteHook "proceed") (MoreExamples.noteHook "reject")
           (Examples.proposal "p2" false) Examples.withPending Examples.softphoneHandler
           eq_refl eq_refl eq_refl eq_refl (λ _ _ _, eq_refl)).
Defined.

Lemma onSessionInit_stamps_the_handler_type_witness :
  getSessionHandler (by_jingleSession MoreExamples.announced) (Examples.manager [])
  = (Examples.manager [], [], Ok Examples.softphoneHandler)
  ∧ onSessionInit MoreExamples.initHook MoreExamples.announced (Examples.manager [])
    = (Examples.manager [], [Log LogLevels.debug "handleSessionInit"],
       Ok (withSessionType SessionTypes.softphone MoreExamples.announced)).
Proof.
  split; [reflexivity|].
  exact (proj1 (proj2 (onSessionInit_stamps_the_handler_type MoreExamples.initHook
                         (Examples.manager []) MoreExamples.announced
                         Examples.softphoneHandler eq_refl))
           eq_refl).
Defined.

Lemma softphone_update_drops_the_video_selector_witness :
  result_of (getSessionHandler (by_jingleSession (Examples.softphoneSession "s1"))
               Examples.twoCalls) = Ok Examples.softphoneHandler
  ∧ BaseSessionHandler.sessionType Examples.softphoneHandler = SessionTypes.softphone
  ∧ updateOutgoingMedia
      (updateOutgoingMedia_dispatch MoreExamples.baseUpdate MoreExamples.otherUpdate)
      (UpdateOutgoingMediaOptions.mk (Some (Examples.softphoneSession "s1")) None
         (Some (DeviceString "camera-1")) (Some (DeviceString "mic-1")))
      Examples.twoCalls
    = MoreExamples.baseUpdate (Examples.softphoneSession "s1")
        (UpdateOutgoingMediaOptions.mk (Some (Examples.softphoneSession "s1")) None None
           (Some (DeviceString "mic-1")))
        Examples.twoCalls.
Proof.
  split; [reflexivity|]. split; [reflexivity|].
  exact (proj1 (softphone_update_drops_the_video_selector MoreExamples.baseUpdate
                  MoreExamples.otherUpdate Examples.twoCalls (Examples.softphoneSession "s1")
                  Examples.softphoneHandler None (Some (DeviceString "mic-1"))
                  eq_refl eq_refl (Some (DeviceString "camera-1")) None)).
Defined.

Lemma softphone_handlePropose_answers_only_on_request_witness :
  (∀ p m, SessionManager.pendingSessions (state_of (MoreExamples.reportPropose p m))
          ⊆ SessionManager.pendingSessions m)
  ∧ (∀ p m, SessionManager.pendingSessions (state_of (MoreExamples.answer p m))
            ⊆ SessionManager.pendingSessions m)
  ∧ keyed_by_id
      (SessionManager.pendingSessions
         (onProposeAll
            (λ _ p, SoftphoneOverrides.handlePropose MoreExamples.reportPropose
                      MoreExamples.answer false p)
            [Examples.proposal "p2" true; Examples.proposal "p3" false]
            Examples.withPending)).
Proof.
  assert (H1 : ∀ p m, SessionManager.pendingSessions
                        (state_of (MoreExamples.reportPropose p m))
                      ⊆ SessionManager.pendingSessions m) by (intros p m; reflexivity).
  assert (H2 : ∀ p m, SessionManager.pendingSessions (state_of (MoreExamples.answer p m))
                      ⊆ SessionManager.pendingSessions m)
    by (intros p m; apply delete_subseteq).
  split; [exact H1|]. split; [exact H2|].
  apply (proj2 (proj2 (softphone_handlePropose_answers_only_on_request
                         MoreExamples.reportPropose MoreExamples.answer false H1 H2))).
  apply map_Forall_singleton. reflexivity.
Defined.

Lemma proceed_and_reject_need_a_pending_session_witness :
  SessionManager.pendingSessions Examples.withPending !! "p9" = None
  ∧ SessionManager.pendingSessions Examples.withPending !! "toString" = None
  ∧ (proceedWithSession (MoreExamples.noteHook "proceed") "p9" Examples.withPending
     = (Examples.withPending, [],
        Failed (ApiError SdkErrorTypes.session
                  "Could not find a pendingSession matching accept params"
                  (PendingContext "p9")))
     ∧ rejectPendingSession (MoreExamples.noteHook "reject") "p9" Examples.withPending
       = (Examples.withPending, [],
          Failed (ApiError SdkErrorTypes.session "Could not find a pendingSession"
                    (PendingContext "p9"))))
  ∧ (proceedWithSession (MoreExamples.noteHook "proceed") "toString" Examples.withPending
     = (Examples.withPending, [],
        Failed (Inner (SdkError SdkErrorTypes.generic
                         "getSessionHandler was called without any identifying information"
                         (HandlerLookup (HandlerParams.mk None None None)))))
     ∧ rejectPendingSession (MoreExamples.noteHook "reject") "toString" Examples.withPending
       = (Examples.withPending, [],
          Failed (Inner (SdkError SdkErrorTypes.generic
                           "getSessionHandler was called without any identifying information"
                           (HandlerLookup (HandlerParams.mk None None None)))))).
Proof.
  split; [reflexivity|]. split; [reflexivity|]. split.
  - exact (proj2 (proj2 (proceed_and_reject_need_a_pending_session
                           (MoreExamples.noteHook "proceed") (MoreExamples.noteHook "reject")
                           Examples.withPending "p9"))
             eq_refl).
  - exact (proj2 (proj2 (proceed_and_reject_need_a_pending_session
                           (MoreExamples.noteHook "proceed") (MoreExamples.noteHook "reject")
                           Examples.withPending "toString"))
             eq_refl).
Defined.

Lemma handleConversationUpdate_skips_other_conversations_witness :
  List.filter (λ s, String.eqb (IJingleSession.conversationId s) "conversation-9")
    (Object_values (SessionManager.sessions Examples.twoCalls)) = []
  ∧ handleConversationUpdate MoreExamples.updateHook (ConversationUpdate.mk "conversation-9")
      Examples.twoCalls
    = (Examples.twoCalls, [], Ok tt).
Proof.
  split; [reflexivity|].
  exact (proj2 (handleConversationUpdate_skips_other_conversations MoreExamples.updateHook
                  (ConversationUpdate.mk "conversation-9") Examples.twoCalls)
           eq_refl).
Defined.

Lemma updateOutgoingMedia_prefers_the_given_session_witness :
  result_of (getSessionHandler (by_jingleSession MoreExamples.announced) Examples.twoCalls)
  = Ok Examples.softphoneHandler
  ∧ updateOutgoingMedia MoreExamples.otherUpdate
      (UpdateOutgoingMediaOptions.mk (Some MoreExamples.announced) (Some "s2") None
         (Some (DeviceString "mic-1")))
      Examples.twoCalls
    = MoreExamples.otherUpdate Examples.softphoneHandler MoreExamples.announced
        (UpdateOutgoingMediaOptions.mk (Some MoreExamples.announced) (Some "s2") None
           (Some (DeviceString "mic-1")))
        Examples.twoCalls.
Proof.
  split; [reflexivity|].
  exact (proj1 (updateOutgoingMedia_prefers_the_given_session
                  MoreExamples.otherUpdate Examples.twoCalls None
                  (Some (DeviceString "mic-1")))
           MoreExamples.announced Examples.softphoneHandler (Some "s2") eq_refl).
Defined.

Lemma softphone_setAudioMute_wraps_every_failure_witness :
  SoftphoneSessionHandler.getParticipantForSession MoreExamples.callUnavailable
    (Examples.softphoneSession "s1")
  = (Examples.softphoneSession "s1",
     [RequestApi "get" "/conversations/calls/conversation-1" NoData],
     Rejected (RestError "404"))
  ∧ SoftphoneOverrides.setAudioMute MoreExamples.patchRefused MoreExamples.callUnavailable
      (ISessionMuteRequest.mk "s1" true) (Examples.softphoneSession "s1")
    = (Examples.softphoneSession "s1",
       [Log LogLevels.info "Muting audio";
        RequestApi "get" "/conversations/calls/conversation-1" NoData],
       Rejected (SdkError SdkErrorTypes.generic "Failed to set audioMute"
                   (ConversationContext "conversation-1" (Some "s1")))).
Proof.
  split; [reflexivity|].
  exact (proj1 (proj2 (softphone_setAudioMute_wraps_every_failure MoreExamples.patchRefused
                         MoreExamples.callUnavailable (ISessionMuteRequest.mk "s1" true)
                         (Examples.softphoneSession "s1")))
           (Examples.softphoneSession "s1")
           [RequestApi "get" "/conversations/calls/conversation-1" NoData]
           (RestError "404") eq_refl).
Defined.

Lemma lookup_by_inherited_name_fails_in_the_handler_lookup_witness :
  ("constructor" ∉ map fst (SessionManager.sessions Examples.twoCalls))
  ∧ getSession (IEndSessionRequest.mk (Some "constructor") None) Examples.twoCalls
    = (Examples.twoCalls, [], Ok (Inherited "constructor"))
  ∧ acceptSession (Some (IAcceptSessionRequest.mk "constructor")) Examples.twoCalls
    = (Examples.twoCalls, [],
       Throw (SdkError SdkErrorTypes.generic
                "getSessionHandler was called without any identifying information"
                (HandlerLookup (HandlerParams.mk None None (Some (Inherited "constructor")))))).
Proof.
  assert (H : "constructor" ∉ map fst (SessionManager.sessions Examples.twoCalls)).
  { simpl. intros H. apply elem_of_cons in H as [H|H]; [discriminate|].
    apply list_elem_of_singleton in H. discriminate. }
  split; [exact H|].
  destruct (lookup_by_inherited_name_fails_in_the_handler_lookup Examples.twoCalls
              "constructor" eq_refl H) as (Hget & Haccept & _).
  split; [exact Hget|exact Haccept].
Defined.

